(** * PayBySquare: validator, compliance engine, generator and decoder

    A shallow embedding of [validator.ts], [errors.ts], [compliance.ts],
    [decoder.ts] and [generator.ts], with the properties the
    specification states about them and further properties of the code.

    Conventions of the embedding.
    - A JavaScript string is a sequence of UTF-16 code units.  The model
      keeps the code units below 256 ([ascii]); [toUpperCase] is exact on
      code units below 128.
    - A JavaScript [number] is an IEEE 754 binary64 value ([float]).
    - An optional property ([amount?: number]) is an [option]; [None] is
      [undefined].
    - A function that can throw returns a [Result]: [Ok v] or [Throw e].
    - [async] functions are modelled by the value their promise settles to.
    - The third-party primitives ([ibantools], the [CurrencyCode] table
      and the codec of [bysquare], [qrcode], [jimp], [jsqr]) and the host
      time zone are parameters. *)

From Stdlib Require Import Bool List String Ascii ZArith Lia PrimFloat.
Import ListNotations.
Local Open Scope string_scope.
Local Open Scope Z_scope.

Set Implicit Arguments.

(* ------------------------------------------------------------------ *)
(** ** Exceptions ([errors.ts]) *)

Module Errors.

Inductive ErrorClass :=
| ValidationErrorClass
| EncodingErrorClass
| GenerationErrorClass
| DecodingErrorClass
| TypeErrorClass.

(** [class] stands for [this.constructor.name], [message] for the text
    handed to [Error]. *)
Record Exception := { class : ErrorClass; message : string }.

Definition PayBySquareError (c : ErrorClass) (msg : string) : Exception :=
  {| class := c; message := msg |}.

Definition ValidationError (msg : string) : Exception :=
  PayBySquareError ValidationErrorClass ("Validation Error: " ++ msg).

Definition EncodingError (msg : string) : Exception :=
  PayBySquareError EncodingErrorClass ("Encoding Error: " ++ msg).

Definition GenerationError (msg : string) : Exception :=
  PayBySquareError GenerationErrorClass ("Generation Error: " ++ msg).

Definition DecodingError (msg : string) : Exception :=
  PayBySquareError DecodingErrorClass ("Decoding Error: " ++ msg).

(** Reading a property of [undefined]; the text is the engine's. *)
Definition TypeError : Exception :=
  {| class := TypeErrorClass;
     message := "Cannot read properties of undefined" |}.

Inductive Result (A : Type) :=
| Ok (v : A)
| Throw (e : Exception).
Arguments Ok {A} v.
Arguments Throw {A} e.

Definition bind {A B} (m : Result A) (k : A -> Result B) : Result B :=
  match m with
  | Ok v => k v
  | Throw e => Throw e
  end.

(** Reading [o.p] where [o] may be [undefined]. *)
Definition deref {A} (o : option A) : Result A :=
  match o with
  | Some v => Ok v
  | None => Throw TypeError
  end.

End Errors.
Import Errors.

Notation "x <- m ;; k" := (bind m (fun x => k))
  (at level 61, m at next level, k at level 200, only parsing).

(** [if (c) throw e;] followed by the rest of the body. *)
Notation "'throw_if' c 'then' e ;; k" := (if c then Throw e else k)
  (at level 61, c at next level, e at next level, k at level 200,
   only parsing).

(* ------------------------------------------------------------------ *)
(** ** Strings *)

Definition code (c : ascii) : N := N_of_ascii c.

Definition between (lo hi : N) (c : ascii) : bool :=
  (lo <=? code c)%N && (code c <=? hi)%N.

(** [\d], [[A-Z]], [[a-z]], [[A-Z0-9]] *)
Definition isDigit : ascii -> bool := between 48 57.
Definition isUpper : ascii -> bool := between 65 90.
Definition isLower : ascii -> bool := between 97 122.
Definition isUpperOrDigit (c : ascii) : bool := isUpper c || isDigit c.
Definition isLetter (c : ascii) : bool := isUpper c || isLower c.
Definition isAsciiChar (c : ascii) : bool := (code c <? 128)%N.

(** [\s] (also the set [trim] strips): TAB, LF, VT, FF, CR, SPACE, NBSP
    among the code units below 256. *)
Definition isSpace (c : ascii) : bool :=
  between 9 13 c || (code c =? 32)%N || (code c =? 160)%N.

Definition isChar (x : ascii) (c : ascii) : bool := Ascii.eqb x c.

Fixpoint chars (s : string) : list ascii :=
  match s with
  | EmptyString => []
  | String c s' => c :: chars s'
  end.

Fixpoint ofChars (l : list ascii) : string :=
  match l with
  | [] => EmptyString
  | c :: l' => String c (ofChars l')
  end.

Fixpoint forallChars (p : ascii -> bool) (s : string) : bool :=
  match s with
  | EmptyString => true
  | String c s' => p c && forallChars p s'
  end.

(** [s.length] *)
Definition len (s : string) : Z := Z.of_nat (String.length s).

(** [a.length] of an array *)
Definition len_list {A} (l : list A) : Z := Z.of_nat (List.length l).

(** Truthiness of a string: non-empty. *)
Definition truthy (s : string) : bool :=
  match s with
  | EmptyString => false
  | String _ _ => true
  end.

(** Truthiness of [string | undefined]. *)
Definition truthyOpt (o : option string) : bool :=
  match o with
  | Some s => truthy s
  | None => false
  end.

Fixpoint trimStart (s : string) : string :=
  match s with
  | EmptyString => EmptyString
  | String c s' => if isSpace c then trimStart s' else s
  end.

Definition reverse (s : string) : string := ofChars (rev (chars s)).

(** [s.trim()] *)
Definition trim (s : string) : string :=
  reverse (trimStart (reverse (trimStart s))).

(** [s.replace(/\s/g, '')] *)
Fixpoint removeSpaces (s : string) : string :=
  match s with
  | EmptyString => EmptyString
  | String c s' =>
      if isSpace c then removeSpaces s' else String c (removeSpaces s')
  end.

Definition upperChar (c : ascii) : ascii :=
  if isLower c then ascii_of_N (code c - 32) else c.

(** [s.toUpperCase()] *)
Fixpoint toUpperCase (s : string) : string :=
  match s with
  | EmptyString => EmptyString
  | String c s' => String (upperChar c) (toUpperCase s')
  end.

(** [parseInt] of a string of decimal digits. *)
Definition parseInt (s : string) : Z :=
  fold_left (fun acc c => 10 * acc + (Z.of_N (code c) - 48)) (chars s) 0.

(* ------------------------------------------------------------------ *)
(** ** Anchored patterns

    Every regular expression of the sources has the shape
    [^ c1{lo1,hi1} c2{lo2,hi2} ... $]: a sequence of bounded repetitions
    of a character class between the two anchors.  [$] without the [m]
    flag matches at the end of the input only. *)

Record Item := item { cls : ascii -> bool; lo : nat; hi : nat }.

(** Between [lo] and [hi] characters of [p], then [k] on what is left. *)
Fixpoint matchRep (p : ascii -> bool) (k : string -> bool)
    (lo hi : nat) (s : string) : bool :=
  match hi with
  | O => Nat.eqb lo 0 && k s
  | S hi' =>
      (Nat.eqb lo 0 && k s)
      || match s with
         | EmptyString => false
         | String c s' => p c && matchRep p k (Nat.pred lo) hi' s'
         end
  end.

(** [/^...$/.test(s)] *)
Fixpoint test (re : list Item) (s : string) : bool :=
  match re with
  | [] => negb (truthy s)
  | i :: re' => matchRep (cls i) (test re') (lo i) (hi i) s
  end.

(** [/^\d{1,10}$/], [/^\d{1,4}$/] *)
Definition reDigits (n : nat) : list Item := [item isDigit 1 n].

(** [/^[A-Z]{2}[0-9]{2}[A-Z0-9]{11,30}$/] *)
Definition reIBAN : list Item :=
  [item isUpper 2 2; item isDigit 2 2; item isUpperOrDigit 11 30].

(** [/^[A-Z]{3}$/] *)
Definition reCurrency : list Item := [item isUpper 3 3].

(** [/^(\d{4})-(\d{2})-(\d{2})$/], [/^\d{4}-\d{2}-\d{2}$/] *)
Definition reISODate : list Item :=
  [item isDigit 4 4; item (isChar "-") 1 1; item isDigit 2 2;
   item (isChar "-") 1 1; item isDigit 2 2].

(** The fixed-width groups of [reISODate]: [s.substring(from, from + n)]. *)
Definition group (from n : nat) (s : string) : string :=
  String.substring from n s.

(** [o && p(o)] for [o : string | undefined]. *)
Definition andThen (o : option string) (p : string -> bool) : bool :=
  match o with
  | Some s => truthy s && p s
  | None => false
  end.

(** [`${o}`] *)
Definition interpolate (o : option string) : string :=
  match o with
  | Some s => s
  | None => "undefined"
  end.

(* ------------------------------------------------------------------ *)
(** ** Dates

    The part of the built-in [Date] that [isValidISODate] uses, on the
    proleptic Gregorian calendar of ECMA-262; time values are
    milliseconds since 1970-01-01T00:00:00Z. *)

Definition msPerDay : Z := 86400000.

(** [MakeDay(y, m - 1, d)] for a month [m] in [1..12]; a day past the end
    of the month carries on into the following one. *)
Definition MakeDay (y m d : Z) : Z :=
  let y' := if m <=? 2 then y - 1 else y in
  let era := y' / 400 in
  let yoe := y' - era * 400 in
  let mp := (m + 9) mod 12 in
  let doy := (153 * mp + 2) / 5 in
  let doe := yoe * 365 + yoe / 4 - yoe / 100 + doy in
  era * 146097 + doe - 719468 + (d - 1).

(** [(YearFromTime, MonthFromTime + 1, DateFromTime)] of day number [z]. *)
Definition civil (z : Z) : Z * Z * Z :=
  let z := z + 719468 in
  let era := z / 146097 in
  let doe := z - era * 146097 in
  let yoe := (doe - doe / 1460 + doe / 36524 - doe / 146096) / 365 in
  let doy := doe - (365 * yoe + yoe / 4 - yoe / 100) in
  let mp := (5 * doy + 2) / 153 in
  let d := doy - (153 * mp + 2) / 5 + 1 in
  let m := if mp <? 10 then mp + 3 else mp - 9 in
  let y := yoe + era * 400 in
  (if m <=? 2 then y + 1 else y, m, d).

(** [new Date(s)] for [s] of the form [YYYY-MM-DD]: a date-only form is
    UTC midnight; [None] is the invalid date ([NaN]).  As in V8 the day
    may go up to 31 in every month. *)
Definition newDate (s : string) : option Z :=
  let y := parseInt (group 0 4 s) in
  let m := parseInt (group 5 2 s) in
  let d := parseInt (group 8 2 s) in
  if (1 <=? m) && (m <=? 12) && (1 <=? d) && (d <=? 31)
  then Some (MakeDay y m d * msPerDay)
  else None.

Section LocalTime.
(** [LocalTZA(t, true)]: the offset of the host's time zone at [t]. *)
Variable LocalTZA : Z -> Z.

Definition LocalTime (t : Z) : Z := t + LocalTZA t.
Definition Day (t : Z) : Z := t / msPerDay.

Definition getFullYear (t : Z) : Z := fst (fst (civil (Day (LocalTime t)))).
(** [getMonth() + 1] *)
Definition getMonth1 (t : Z) : Z := snd (fst (civil (Day (LocalTime t)))).
Definition getDate (t : Z) : Z := snd (civil (Day (LocalTime t))).
End LocalTime.

(* ------------------------------------------------------------------ *)
(** ** Records ([types.ts]) *)

Record BeneficiaryAddress := {
  street : option string;
  city : option string
}.

(** [iban] and [beneficiaryName] are required by the interface; the
    validator is also called on objects that lack them. *)
Record PayBySquareInput := {
  iban : option string;
  beneficiaryName : option string;
  amount : option float;
  currency : option string;
  variableSymbol : option string;
  constantSymbol : option string;
  specificSymbol : option string;
  paymentNote : option string;
  dueDate : option string;
  swift : option string;
  originatorReference : option string;
  beneficiaryAddress : option BeneficiaryAddress
}.

(** An object of the interface: the two required properties are there. *)
Definition wellTyped (input : PayBySquareInput) : Prop :=
  iban input <> None /\ beneficiaryName input <> None.

(** [input.beneficiaryAddress?.street], [input.beneficiaryAddress?.city] *)
Definition addressStreet (input : PayBySquareInput) : option string :=
  match beneficiaryAddress input with
  | Some a => street a
  | None => None
  end.

Definition addressCity (input : PayBySquareInput) : option string :=
  match beneficiaryAddress input with
  | Some a => city a
  | None => None
  end.

Inductive IssueType := error | warning.
Inductive Severity := critical | major | minor.

Record ComplianceIssue := {
  type : IssueType;
  field : string;
  message : string;
  severity : Severity
}.

Record ComplianceDetails := {
  ibanValid : bool;
  fieldsValid : bool;
  bankingStandardsValid : bool;
  totalIssues : Z
}.

Record ComplianceResult := {
  isCompliant : bool;
  errors : list ComplianceIssue;
  warnings : list ComplianceIssue;
  details : ComplianceDetails
}.

Definition isError (i : ComplianceIssue) : bool :=
  match type i with
  | error => true
  | warning => false
  end.

(* ------------------------------------------------------------------ *)
(** ** The validator ([validator.ts]) *)

Module Validator.

Definition isValidIBAN (iban : string) : bool :=
  let cleaned := removeSpaces iban in
  test reIBAN cleaned.

Definition isValidCurrencyCode (code : string) : bool :=
  test reCurrency (toUpperCase code).

Section HostTimeZone.
Variable LocalTZA : Z -> Z.

Definition isValidISODate (date : string) : bool :=
  if negb (test reISODate date) then false
  else
    let year := group 0 4 date in
    let month := group 5 2 date in
    let day := group 8 2 date in
    match newDate date with
    | None => false
    | Some dateObj =>
        (getFullYear LocalTZA dateObj =? parseInt year)
        && (getMonth1 LocalTZA dateObj =? parseInt month)
        && (getDate LocalTZA dateObj =? parseInt day)
    end.

Definition validateInput (input : PayBySquareInput) : Result unit :=
  (* Required fields *)
  throw_if negb (truthyOpt (option_map trim (iban input)))
    then ValidationError "IBAN is required" ;;
  throw_if negb (truthyOpt (option_map trim (beneficiaryName input)))
    then ValidationError "Beneficiary name is required" ;;
  (* IBAN format validation *)
  iban_ <- deref (iban input) ;;
  throw_if negb (isValidIBAN iban_)
    then ValidationError "Invalid IBAN format" ;;
  (* Amount validation; [typeof input.amount] is ['number'] *)
  throw_if match amount input with
           | Some a => ltb a 0
           | None => false
           end
    then ValidationError "Amount must be a positive number" ;;
  throw_if match amount input with
           | Some a => negb (is_finite a)
           | None => false
           end
    then ValidationError "Amount must be a finite number" ;;
  (* Currency validation *)
  throw_if andThen (currency input)
             (fun c => negb (isValidCurrencyCode c))
    then ValidationError
           ("Invalid currency code: " ++ interpolate (currency input)) ;;
  (* Symbol validations *)
  throw_if andThen (variableSymbol input)
             (fun s => negb (test (reDigits 10) s))
    then ValidationError "Variable symbol must be 1-10 digits" ;;
  throw_if andThen (constantSymbol input)
             (fun s => negb (test (reDigits 4) s))
    then ValidationError "Constant symbol must be 1-4 digits" ;;
  throw_if andThen (specificSymbol input)
             (fun s => negb (test (reDigits 10) s))
    then ValidationError "Specific symbol must be 1-10 digits" ;;
  (* Length validations *)
  throw_if andThen (paymentNote input) (fun s => 140 <? len s)
    then ValidationError "Payment note cannot exceed 140 characters" ;;
  name_ <- deref (beneficiaryName input) ;;
  throw_if (70 <? len name_)
    then ValidationError "Beneficiary name cannot exceed 70 characters" ;;
  throw_if andThen (addressStreet input) (fun s => 70 <? len s)
    then ValidationError "Beneficiary street cannot exceed 70 characters" ;;
  throw_if andThen (addressCity input) (fun s => 70 <? len s)
    then ValidationError "Beneficiary city cannot exceed 70 characters" ;;
  (* Date validation *)
  throw_if andThen (dueDate input) (fun d => negb (isValidISODate d))
    then ValidationError
           "Due date must be in ISO 8601 format (YYYY-MM-DD)" ;;
  Ok tt.
End HostTimeZone.

End Validator.

(* ------------------------------------------------------------------ *)
(** ** The canonical model of the codec ([DataModel] of [bysquare]) *)

(** Modelled from the spec: the canonical model that the external codec
    consumes and produces, with the properties that
    [transformFromDataModel] reads and the optionality it tests them
    for ([payment.bankAccounts?.[0]], [bankAccount?.iban],
    [payment.currencyCode && ...]). *)

Record Beneficiary := {
  name : option string;
  beneficiaryStreet : option string;
  beneficiaryCity : option string
}.

Record BankAccount := {
  accountIban : option string;
  bic : option string
}.

Record Payment := {
  paymentAmount : option float;
  currencyCode : option string;
  paymentVariableSymbol : option string;
  paymentConstantSymbol : option string;
  paymentSpecificSymbol : option string;
  paymentPaymentNote : option string;
  paymentDueDate : option string;
  originatorsReferenceInformation : option string;
  bankAccounts : option (list BankAccount);
  beneficiary : option Beneficiary
}.

Record DataModel := { payments : list Payment }.

(* ------------------------------------------------------------------ *)
(** ** The decode-direction adapter ([decoder.ts]) *)

Module Decoder.

(** [...(c && { key: v })]: the property is set when [c] is truthy. *)
Definition spread {A} (c : bool) (v : option A) : option A :=
  if c then v else None.

(** [...(o && { key: o })] *)
Definition spreadIf (o : option string) : option string :=
  spread (truthyOpt o) o.

Definition transformFromDataModel (data : DataModel)
  : Result PayBySquareInput :=
  (* Get first payment *)
  match nth_error (payments data) 0 with
  | None => Throw (DecodingError "No payment data found in QR code")
  | Some payment =>
      (* Extract bank account (first one) *)
      let bankAccount :=
        match bankAccounts payment with
        | Some l => nth_error l 0
        | None => None
        end in
      let bankAccountIban :=
        match bankAccount with
        | Some b => accountIban b
        | None => None
        end in
      throw_if negb (truthyOpt bankAccountIban)
        then DecodingError "No IBAN found in payment data" ;;
      bankAccount_ <- deref bankAccount ;;
      let beneficiaryName_ :=
        match beneficiary payment with
        | Some b => name b
        | None => None
        end in
      let result := {|
        iban := accountIban bankAccount_;
        beneficiaryName :=
          Some (if truthyOpt beneficiaryName_
                then interpolate beneficiaryName_ else "");
        amount := spread (truthyOpt (currencyCode payment))
                    (paymentAmount payment);
        currency := spread (truthyOpt (currencyCode payment))
                      (currencyCode payment);
        variableSymbol := spreadIf (paymentVariableSymbol payment);
        constantSymbol := spreadIf (paymentConstantSymbol payment);
        specificSymbol := spreadIf (paymentSpecificSymbol payment);
        paymentNote := spreadIf (paymentPaymentNote payment);
        dueDate := spreadIf (paymentDueDate payment);
        swift := spreadIf (bic bankAccount_);
        originatorReference :=
          spreadIf (originatorsReferenceInformation payment);
        beneficiaryAddress := None
      |} in
      (* Add beneficiary address if available *)
      match beneficiary payment with
      | Some b =>
          if truthyOpt (beneficiaryStreet b) || truthyOpt (beneficiaryCity b)
          then Ok {|
            iban := iban result;
            beneficiaryName := beneficiaryName result;
            amount := amount result;
            currency := currency result;
            variableSymbol := variableSymbol result;
            constantSymbol := constantSymbol result;
            specificSymbol := specificSymbol result;
            paymentNote := paymentNote result;
            dueDate := dueDate result;
            swift := swift result;
            originatorReference := originatorReference result;
            beneficiaryAddress := Some {|
              street := spreadIf (beneficiaryStreet b);
              city := spreadIf (beneficiaryCity b)
            |}
          |}
          else Ok result
      | None => Ok result
      end
  end.

End Decoder.

(* ------------------------------------------------------------------ *)
(** ** The compliance engine ([compliance.ts]) *)

Module Compliance.
Local Open Scope list_scope.

(** [if (c) { issues.push(i) }] *)
Definition pushIf (c : bool) (i : ComplianceIssue)
    (issues : list ComplianceIssue) : list ComplianceIssue :=
  if c then issues ++ [i] else issues.

(** The body of the two [forEach] loops of [checkCompliance], on the pair
    of arrays [(errors, warnings)]. *)
Definition classify (acc : list ComplianceIssue * list ComplianceIssue)
    (issue : ComplianceIssue) :=
  match type issue with
  | error => (fst acc ++ [issue], snd acc)
  | warning => (fst acc, snd acc ++ [issue])
  end.

Definition validateFieldFormats (input : PayBySquareInput)
  : Result (list ComplianceIssue) :=
  let issues := [] in
  (* IBAN format (basic - checksum validated separately) *)
  iban_ <- deref (iban input) ;;
  let ibanCleaned := removeSpaces iban_ in
  let issues :=
    pushIf ((len ibanCleaned <? 15) || (34 <? len ibanCleaned))
      {| type := error; field := "iban";
         message := "IBAN length must be between 15 and 34 characters";
         severity := major |} issues in
  (* Beneficiary name length *)
  name_ <- deref (beneficiaryName input) ;;
  let issues :=
    pushIf (70 <? len name_)
      {| type := error; field := "beneficiaryName";
         message := "Exceeds maximum length of 70 characters";
         severity := major |} issues in
  (* Variable symbol format *)
  let issues :=
    pushIf (andThen (variableSymbol input)
              (fun s => negb (test (reDigits 10) s)))
      {| type := error; field := "variableSymbol";
         message := "Must contain only digits (1-10)";
         severity := major |} issues in
  (* Constant symbol format *)
  let issues :=
    pushIf (andThen (constantSymbol input)
              (fun s => negb (test (reDigits 4) s)))
      {| type := error; field := "constantSymbol";
         message := "Must contain only digits (1-4)";
         severity := major |} issues in
  (* Specific symbol format *)
  let issues :=
    pushIf (andThen (specificSymbol input)
              (fun s => negb (test (reDigits 10) s)))
      {| type := error; field := "specificSymbol";
         message := "Must contain only digits (1-10)";
         severity := major |} issues in
  (* Payment note length *)
  let issues :=
    pushIf (andThen (paymentNote input) (fun s => 140 <? len s))
      {| type := error; field := "paymentNote";
         message := "Exceeds maximum length of 140 characters";
         severity := major |} issues in
  (* Address field lengths *)
  let issues :=
    pushIf (andThen (addressStreet input) (fun s => 70 <? len s))
      {| type := error; field := "beneficiaryAddress.street";
         message := "Exceeds maximum length of 70 characters";
         severity := minor |} issues in
  let issues :=
    pushIf (andThen (addressCity input) (fun s => 70 <? len s))
      {| type := error; field := "beneficiaryAddress.city";
         message := "Exceeds maximum length of 70 characters";
         severity := minor |} issues in
  (* Date format *)
  let issues :=
    pushIf (andThen (dueDate input) (fun d => negb (test reISODate d)))
      {| type := error; field := "dueDate";
         message := "Must be in ISO 8601 format (YYYY-MM-DD)";
         severity := major |} issues in
  Ok issues.

Section Primitives.
(** [isValidIBAN] and [isValidBIC] of [ibantools]; [x in CurrencyCode]
    for the table of [bysquare]. *)
Variable isValidIBAN : string -> bool.
Variable isValidBIC : string -> bool.
Variable inCurrencyCode : string -> bool.

(** [isValidIBAN(input.iban)]: the primitive answers [false] when it
    is handed [undefined]. *)
Definition isValidIBAN' (iban : option string) : bool :=
  match iban with
  | Some s => isValidIBAN s
  | None => false
  end.

Definition validateIBANChecksum (iban : option string)
  : option ComplianceIssue :=
  if negb (isValidIBAN' iban)
  then Some {| type := error; field := "iban";
               message :=
                 "IBAN checksum validation failed (mod-97 algorithm)";
               severity := critical |}
  else None.

Definition validateBankingStandards (input : PayBySquareInput)
  : list ComplianceIssue :=
  let issues := [] in
  (* BIC/SWIFT validation *)
  let issues :=
    pushIf (andThen (swift input) (fun s => negb (isValidBIC s)))
      {| type := error; field := "swift";
         message := "Invalid BIC/SWIFT code format";
         severity := major |} issues in
  (* Currency code validation (ISO 4217) *)
  let issues :=
    pushIf (andThen (currency input)
              (fun c =>
                 let currencyUpper := toUpperCase c in
                 let isValidCurrency := inCurrencyCode currencyUpper in
                 negb isValidCurrency))
      {| type := warning; field := "currency";
         message := "Currency code not in ISO 4217 standard";
         severity := minor |} issues in
  (* Amount validation *)
  match amount input with
  | Some a =>
      let issues :=
        pushIf (ltb a 0)
          {| type := error; field := "amount";
             message := "Amount must be positive";
             severity := critical |} issues in
      let issues :=
        pushIf (ltb 999999999999999 a)
          {| type := error; field := "amount";
             message :=
               "Amount exceeds PayBySquare maximum (999,999,999,999,999)";
             severity := major |} issues in
      let issues :=
        pushIf (negb (is_finite a))
          {| type := error; field := "amount";
             message := "Amount must be a finite number";
             severity := critical |} issues in
      issues
  | None => issues
  end.

Definition checkCompliance (input : PayBySquareInput)
  : Result ComplianceResult :=
  let errors_ := [] in
  let warnings_ := [] in
  (* 1. IBAN checksum validation *)
  let ibanIssue := validateIBANChecksum (iban input) in
  let errors_ :=
    match ibanIssue with
    | Some i => errors_ ++ [i]
    | None => errors_
    end in
  (* 2. Field format validation *)
  fieldIssues <- validateFieldFormats input ;;
  let acc := fold_left classify fieldIssues (errors_, warnings_) in
  (* 3. Banking standards validation *)
  let bankingIssues := validateBankingStandards input in
  let acc := fold_left classify bankingIssues acc in
  let errors_ := fst acc in
  let warnings_ := snd acc in
  (* Build details *)
  let details_ := {|
    ibanValid :=
      match ibanIssue with
      | Some _ => false
      | None => true
      end;
    fieldsValid := len_list (filter isError fieldIssues) =? 0;
    bankingStandardsValid :=
      len_list (filter isError bankingIssues) =? 0;
    totalIssues := len_list errors_ + len_list warnings_
  |} in
  Ok {| isCompliant := len_list errors_ =? 0;
        errors := errors_;
        warnings := warnings_;
        details := details_ |}.

Definition isCompliant (input : PayBySquareInput) : Result bool :=
  let issues := [] in
  (* IBAN checksum *)
  if negb (isValidIBAN' (iban input)) then Ok false
  else
    (* Field formats *)
    fieldIssues <- validateFieldFormats input ;;
    let issues := issues ++ fieldIssues in
    (* Banking standards *)
    let issues := issues ++ validateBankingStandards input in
    (* Only count errors (not warnings) *)
    let errors_ := filter isError issues in
    Ok (len_list errors_ =? 0).
End Primitives.

End Compliance.

(* ------------------------------------------------------------------ *)
(** ** The rule table of the specification

    The validator as the specification words it: a fixed sequence of
    rules, of which the first violated one is reported.  It is compared
    with [Validator.validateInput] below. *)

Module Spec.

Inductive Rule :=
| IbanPresent
| NamePresent
| IbanStructure
| AmountSign
| AmountFinite
| CurrencyStructure
| VariableSymbolFormat
| ConstantSymbolFormat
| SpecificSymbolFormat
| PaymentNoteLength
| NameLength
| StreetLength
| CityLength
| DueDateGrammar.

(** IBAN present -> beneficiary name present -> IBAN structural validity
    -> amount (type/sign, then finiteness) -> currency structural
    validity -> variableSymbol -> constantSymbol -> specificSymbol ->
    paymentNote length -> beneficiaryName length -> address.street length
    -> address.city length -> dueDate grammar. *)
Definition order : list Rule :=
  [IbanPresent; NamePresent; IbanStructure; AmountSign; AmountFinite;
   CurrencyStructure; VariableSymbolFormat; ConstantSymbolFormat;
   SpecificSymbolFormat; PaymentNoteLength; NameLength; StreetLength;
   CityLength; DueDateGrammar].

Definition eqb (a b : Rule) : bool :=
  match a, b with
  | IbanPresent, IbanPresent
  | NamePresent, NamePresent
  | IbanStructure, IbanStructure
  | AmountSign, AmountSign
  | AmountFinite, AmountFinite
  | CurrencyStructure, CurrencyStructure
  | VariableSymbolFormat, VariableSymbolFormat
  | ConstantSymbolFormat, ConstantSymbolFormat
  | SpecificSymbolFormat, SpecificSymbolFormat
  | PaymentNoteLength, PaymentNoteLength
  | NameLength, NameLength
  | StreetLength, StreetLength
  | CityLength, CityLength
  | DueDateGrammar, DueDateGrammar => true
  | _, _ => false
  end.

(** A required string is present when it is there and not blank. *)
Definition present (o : option string) : bool :=
  match o with
  | Some s => truthy (trim s)
  | None => false
  end.

(** An optional string that is absent or empty violates nothing. *)
Definition optional (o : option string) (ok : string -> bool) : bool :=
  match o with
  | Some EmptyString | None => false
  | Some s => negb (ok s)
  end.

Section Rules.
Variable LocalTZA : Z -> Z.

Definition violated (k : Rule) (r : PayBySquareInput) : bool :=
  match k with
  | IbanPresent => negb (present (iban r))
  | NamePresent => negb (present (beneficiaryName r))
  | IbanStructure =>
      match iban r with
      | Some s => negb (Validator.isValidIBAN s)
      | None => true
      end
  | AmountSign =>
      match amount r with
      | Some a => ltb a 0
      | None => false
      end
  | AmountFinite =>
      match amount r with
      | Some a => negb (is_finite a)
      | None => false
      end
  | CurrencyStructure =>
      optional (currency r) Validator.isValidCurrencyCode
  | VariableSymbolFormat =>
      optional (variableSymbol r) (test (reDigits 10))
  | ConstantSymbolFormat =>
      optional (constantSymbol r) (test (reDigits 4))
  | SpecificSymbolFormat =>
      optional (specificSymbol r) (test (reDigits 10))
  | PaymentNoteLength =>
      optional (paymentNote r) (fun s => len s <=? 140)
  | NameLength =>
      match beneficiaryName r with
      | Some s => negb (len s <=? 70)
      | None => false
      end
  | StreetLength => optional (addressStreet r) (fun s => len s <=? 70)
  | CityLength => optional (addressCity r) (fun s => len s <=? 70)
  | DueDateGrammar =>
      optional (dueDate r) (Validator.isValidISODate LocalTZA)
  end.

(** The rule-specific text of the error. *)
Definition text (k : Rule) (r : PayBySquareInput) : string :=
  match k with
  | IbanPresent => "IBAN is required"
  | NamePresent => "Beneficiary name is required"
  | IbanStructure => "Invalid IBAN format"
  | AmountSign => "Amount must be a positive number"
  | AmountFinite => "Amount must be a finite number"
  | CurrencyStructure =>
      "Invalid currency code: " ++ interpolate (currency r)
  | VariableSymbolFormat => "Variable symbol must be 1-10 digits"
  | ConstantSymbolFormat => "Constant symbol must be 1-4 digits"
  | SpecificSymbolFormat => "Specific symbol must be 1-10 digits"
  | PaymentNoteLength => "Payment note cannot exceed 140 characters"
  | NameLength => "Beneficiary name cannot exceed 70 characters"
  | StreetLength => "Beneficiary street cannot exceed 70 characters"
  | CityLength => "Beneficiary city cannot exceed 70 characters"
  | DueDateGrammar => "Due date must be in ISO 8601 format (YYYY-MM-DD)"
  end.

Definition firstViolation (r : PayBySquareInput) : option Rule :=
  find (fun k => violated k r) order.

(** [validate(record)]: fail on the first violated rule. *)
Definition validate (r : PayBySquareInput) : Result unit :=
  match firstViolation r with
  | Some k => Throw (ValidationError (text k r))
  | None => Ok tt
  end.

(** Every rule other than [k] holds of [r]. *)
Definition otherwiseValid (k : Rule) (r : PayBySquareInput) : bool :=
  forallb (fun k' => eqb k' k || negb (violated k' r)) order.
End Rules.

(** The fields with an upper bound on their length, the rule that
    enforces it, and the bound: [beneficiaryName] (70), [paymentNote]
    (140), [variableSymbol]/[specificSymbol] (10 digits),
    [constantSymbol] (4 digits), address fields (70). *)
Inductive Bounded :=
| BName | BNote | BVariable | BSpecific | BConstant | BStreet | BCity.

Definition ruleOf (f : Bounded) : Rule :=
  match f with
  | BName => NameLength
  | BNote => PaymentNoteLength
  | BVariable => VariableSymbolFormat
  | BSpecific => SpecificSymbolFormat
  | BConstant => ConstantSymbolFormat
  | BStreet => StreetLength
  | BCity => CityLength
  end.

Definition limit (f : Bounded) : Z :=
  match f with
  | BName | BStreet | BCity => 70
  | BNote => 140
  | BVariable | BSpecific => 10
  | BConstant => 4
  end.

Definition valueOf (f : Bounded) (r : PayBySquareInput) : option string :=
  match f with
  | BName => beneficiaryName r
  | BNote => paymentNote r
  | BVariable => variableSymbol r
  | BSpecific => specificSymbol r
  | BConstant => constantSymbol r
  | BStreet => addressStreet r
  | BCity => addressCity r
  end.

(** The symbols are strings of digits; the other fields are free text. *)
Definition alphabet (f : Bounded) : ascii -> bool :=
  match f with
  | BVariable | BSpecific | BConstant => isDigit
  | _ => fun _ => true
  end.

(** The IBAN of the first bank account of a payment entry. *)
Definition firstAccountIban (p : Payment) : option string :=
  match bankAccounts p with
  | Some (b :: _) => accountIban b
  | _ => None
  end.

(** "The payment entry has a bank account with an IBAN." *)
Definition hasAccountWithIban (p : Payment) : bool :=
  match bankAccounts p with
  | Some l => existsb (fun b => truthyOpt (accountIban b)) l
  | None => false
  end.

End Spec.

(* ------------------------------------------------------------------ *)
(** ** Reference data *)

(** Modelled from the spec: the IBAN checksum primitive, "mod-97
    validation per the standard IBAN checksum algorithm" (ISO 13616), on
    the string as it is given: the first four characters are moved to the
    end, letters stand for 10..35, and the number read is 1 modulo 97. *)
Definition checksumValid (iban : string) : bool :=
  let rearranged := group 4 (String.length iban) iban ++ group 0 4 iban in
  let step acc c :=
    if isDigit c then (acc * 10 + (Z.of_N (code c) - 48)) mod 97
    else (acc * 100 + (Z.of_N (code c) - 55)) mod 97 in
  test reIBAN iban && (fold_left step (chars rearranged) 0 =? 1).

(** Hosts: UTC, and Bratislava in winter (UTC+1). *)
Definition UTC : Z -> Z := fun _ => 0.
Definition CET : Z -> Z := fun _ => 3600000.

Definition minimal (iban_ name_ : string) : PayBySquareInput :=
  {| iban := Some iban_; beneficiaryName := Some name_;
     amount := None; currency := None; variableSymbol := None;
     constantSymbol := None; specificSymbol := None; paymentNote := None;
     dueDate := None; swift := None; originatorReference := None;
     beneficiaryAddress := None |}.

(** ['x'.repeat(n)] *)
Definition xs (n : nat) : string := ofChars (List.repeat "x"%char n).

Definition sampleIban : string := "SK9611000000002918599669".
Definition spacedIban : string := "SK96 1100 0000 0029 1859 9669".

Definition account (iban_ : string) : BankAccount :=
  {| accountIban := Some iban_; bic := None |}.

(** A payment with the given amount, currency code and bank accounts,
    and nothing else. *)
Definition payment (a : option float) (cc : string)
    (accounts : list BankAccount) : Payment :=
  {| paymentAmount := a; currencyCode := Some cc;
     paymentVariableSymbol := None; paymentConstantSymbol := None;
     paymentSpecificSymbol := None; paymentPaymentNote := None;
     paymentDueDate := None; originatorsReferenceInformation := None;
     bankAccounts := Some accounts; beneficiary := None |}.

(** The codec's sentinel for "no amount": amount 0, empty currency. *)
Definition sentinelModel : DataModel :=
  {| payments := [payment (Some 0%float) "" [account sampleIban]] |}.

Definition euroModel : DataModel :=
  {| payments := [payment (Some 100.5%float) "EUR" [account sampleIban]] |}.

(** A first bank account with an empty IBAN, a second one with an IBAN. *)
Definition twoAccounts : DataModel :=
  {| payments := [payment None "" [account ""; account sampleIban]] |}.

(** 30 February: the grammar of a date, not a day of the calendar. *)
Definition february30 : PayBySquareInput :=
  {| iban := Some sampleIban; beneficiaryName := Some "John Doe";
     amount := None; currency := None; variableSymbol := None;
     constantSymbol := None; specificSymbol := None; paymentNote := None;
     dueDate := Some "2026-02-30"; swift := None;
     originatorReference := None; beneficiaryAddress := None |}.

(** A currency code written in lower case. *)
Definition lowercaseEuro : PayBySquareInput :=
  {| iban := Some sampleIban; beneficiaryName := Some "John Doe";
     amount := Some 100.5%float; currency := Some "eur";
     variableSymbol := None; constantSymbol := None;
     specificSymbol := None; paymentNote := None; dueDate := None;
     swift := None; originatorReference := None;
     beneficiaryAddress := None |}.

Definition checksumIssue : ComplianceIssue :=
  {| type := error; field := "iban";
     message := "IBAN checksum validation failed (mod-97 algorithm)";
     severity := critical |}.

(** A record without SWIFT, reference and address. *)
Definition input (iban_ name_ : option string) (amount_ : option float)
    (currency_ variable_ constant_ specific_ note_ due_ : option string)
  : PayBySquareInput :=
  {| iban := iban_; beneficiaryName := name_; amount := amount_;
     currency := currency_; variableSymbol := variable_;
     constantSymbol := constant_; specificSymbol := specific_;
     paymentNote := note_; dueDate := due_; swift := None;
     originatorReference := None; beneficiaryAddress := None |}.

(* ------------------------------------------------------------------ *)
(** ** The encode-direction adapter and the generator ([generator.ts]) *)

Module Generator.

(** [PaymentOptions] of [bysquare]. *)
Inductive PaymentOptions := PaymentOrder | StandingOrder | DirectDebit.

(** The payment object that [transformToDataModel] builds ([payment as
    any]): the [type] tag and the properties of [Payment]. *)
Record TaggedPayment := {
  paymentType : PaymentOptions;
  properties : Payment
}.

Record TaggedDataModel := { taggedPayments : list TaggedPayment }.

(** What the decode direction reads of a model: everything but the tag. *)
Definition untagged (m : TaggedDataModel) : DataModel :=
  {| payments := map properties (taggedPayments m) |}.

Inductive ErrorCorrectionLevel := L | M | Q | H.

Record Color := { dark : option string; light : option string }.

(** [GenerationOptions] of [types.ts] *)
Record GenerationOptions := {
  width : option float;
  margin : option float;
  errorCorrectionLevel : option ErrorCorrectionLevel;
  color : option Color;
  removeAccents : option bool
}.

(** [{}] *)
Definition noOptions : GenerationOptions :=
  {| width := None; margin := None; errorCorrectionLevel := None;
     color := None; removeAccents := None |}.

(** The options handed to [encode] and to [QRCode.toBuffer]. *)
Record EncodeOptions := { deburr : bool }.

Record ToBufferOptions := {
  toBufferWidth : float;
  toBufferMargin : float;
  toBufferErrorCorrectionLevel : ErrorCorrectionLevel;
  toBufferColor : option Color;
  toBufferType : string
}.

(** [o ?? d] *)
Definition orDefault {A} (o : option A) (d : A) : A :=
  match o with
  | Some v => v
  | None => d
  end.

(** [try { m } catch (error) { handler }] *)
Definition tryCatch {A} (m : Result A) (handler : Exception -> Result A)
  : Result A :=
  match m with
  | Ok v => Ok v
  | Throw error_ => handler error_
  end.

(** An object is truthy when it is there. *)
Definition defined {A} (o : option A) : bool :=
  match o with
  | Some _ => true
  | None => false
  end.

Section Collaborators.
(** [x in CurrencyCode], [encode] of [bysquare], [QRCode.toBuffer], the
    host's time zone; [Buffer] is the type of Node's buffers. *)
Variable inCurrencyCode : string -> bool.
Variable Buffer : Type.
Variable encode : TaggedDataModel -> EncodeOptions -> Result string.
Variable toBuffer : string -> ToBufferOptions -> Result Buffer.
Variable LocalTZA : Z -> Z.

Definition parseCurrencyCode (currency : string) : string :=
  let normalized := toUpperCase currency in
  (* Check if it's a known currency code *)
  if inCurrencyCode normalized then normalized
  (* If not in the predefined list, return as-is *)
  else normalized.

Definition transformToDataModel (input : PayBySquareInput)
  : Result TaggedDataModel :=
  (* Build bank accounts array *)
  iban_ <- deref (iban input) ;;
  let bankAccounts_ :=
    [{| accountIban := Some (removeSpaces iban_);
        bic := Decoder.spreadIf (swift input) |}] in
  (* Build beneficiary object if name or address provided *)
  let beneficiary_ :=
    if truthyOpt (beneficiaryName input)
       || defined (beneficiaryAddress input)
    then Some {| name := Decoder.spreadIf (beneficiaryName input);
                 beneficiaryStreet :=
                   Decoder.spreadIf (addressStreet input);
                 beneficiaryCity := Decoder.spreadIf (addressCity input) |}
    else None in
  (* Construct payment object *)
  let payment_ := {|
    paymentType := PaymentOrder;
    properties := {|
      currencyCode :=
        Decoder.spread (defined (amount input))
          (Some (parseCurrencyCode (orDefault (currency input) "EUR")));
      bankAccounts := Some bankAccounts_;
      paymentAmount := Decoder.spread (defined (amount input))
                         (amount input);
      paymentVariableSymbol := Decoder.spreadIf (variableSymbol input);
      paymentConstantSymbol := Decoder.spreadIf (constantSymbol input);
      paymentSpecificSymbol := Decoder.spreadIf (specificSymbol input);
      paymentPaymentNote := Decoder.spreadIf (paymentNote input);
      beneficiary := Decoder.spread (defined beneficiary_) beneficiary_;
      paymentDueDate := Decoder.spreadIf (dueDate input);
      originatorsReferenceInformation :=
        Decoder.spreadIf (originatorReference input)
    |}
  |} in
  (* Return DataModel *)
  Ok {| taggedPayments := [payment_] |}.

Definition generatePayBySquare (input : PayBySquareInput)
    (options : GenerationOptions) : Result Buffer :=
  (* Step 1: Validate input *)
  _ <- Validator.validateInput LocalTZA input ;;
  (* Step 2: Transform to bysquare DataModel *)
  dataModel <- transformToDataModel input ;;
  (* Step 3: Encode to QR string using bysquare *)
  qrString <-
    tryCatch
      (encode dataModel
         {| deburr := orDefault (removeAccents options) true |})
      (fun error_ => Throw (EncodingError "Failed to encode payment data")) ;;
  (* Step 4: Generate PNG buffer using qrcode *)
  tryCatch
    (toBuffer qrString
       {| toBufferWidth := orDefault (width options) 300%float;
          toBufferMargin := orDefault (margin options) 4%float;
          toBufferErrorCorrectionLevel :=
            orDefault (errorCorrectionLevel options) M;
          toBufferColor := color options;
          toBufferType := "png" |})
    (fun error_ => Throw (GenerationError "Failed to generate QR code PNG")).
End Collaborators.

End Generator.

(* ------------------------------------------------------------------ *)
(** ** Reading a QR code ([decoder.ts]) *)

Module Reader.

(** [image.bitmap] of [Jimp]: the pixels are four bytes each, row by
    row. *)
Record Bitmap := { width : nat; height : nat; data : list N }.

(** [image.scan(0, 0, w, h, f)] of [Jimp]: [f(x, y, idx)] for every
    pixel, row by row, [idx = (bitmap.width * y + x) << 2] the offset of
    the pixel in the bitmap (the shift is a multiplication by 4 on the
    sizes of images); the callback is a step on the state [S] of what
    it assigns to. *)
Definition scan {S} (bitmapWidth w h : nat)
    (f : nat -> nat -> nat -> S -> S) (s : S) : S :=
  fold_left
    (fun s y =>
       fold_left (fun s x => f x y (4 * (bitmapWidth * y + x))%nat s)
         (seq 0 w) s)
    (seq 0 h) s.

(** [a[i] = v] on a [Uint8ClampedArray]: nothing happens past the end;
    [undefined] is stored as 0, a number above 255 as 255. *)
Fixpoint assign (a : list N) (i : nat) (v : option N) : list N :=
  match a, i with
  | [], _ => []
  | _ :: a', O =>
      match v with
      | Some n => N.min n 255
      | None => 0%N
      end :: a'
  | x :: a', S i' => x :: assign a' i' v
  end.

(** The callback of [image.scan] in [extractQRString], on the state
    [(imageData, idx)]: the four bytes of the pixel at [offset] go to
    [imageData[idx++]]. *)
Definition copyPixel (bitmapData : list N) (offset : nat)
    (st : list N * nat) : list N * nat :=
  let '(imageData, idx) := st in
  let red := nth_error bitmapData (offset + 0) in
  let green := nth_error bitmapData (offset + 1) in
  let blue := nth_error bitmapData (offset + 2) in
  let alpha := nth_error bitmapData (offset + 3) in
  let imageData := assign imageData idx red in
  let idx := S idx in
  let imageData := assign imageData idx green in
  let idx := S idx in
  let imageData := assign imageData idx blue in
  let idx := S idx in
  let imageData := assign imageData idx alpha in
  let idx := S idx in
  (imageData, idx).

Section Collaborators.
(** [Jimp.read], [jsQR] (its [code.data], or [null]) and [decode] of
    [bysquare]. *)
Variable Buffer : Type.
Variable JimpRead : Buffer -> Result Bitmap.
Variable jsQR : list N -> nat -> nat -> Result (option string).
Variable bysquareDecode : string -> Result DataModel.

(** The pixels as [jsQR] expects them: [imageData] is filled by the
    callback of [scan], [copyPixel]. *)
Definition toImageData (bitmap : Bitmap) : list N :=
  let width_ := width bitmap in
  let height_ := height bitmap in
  let imageData := List.repeat 0%N (width_ * height_ * 4) in
  let idx := O in
  fst (scan width_ width_ height_
         (fun _x _y offset st => copyPixel (data bitmap) offset st)
         (imageData, idx)).

(** [error instanceof DecodingError] *)
Definition isDecodingError (error_ : Exception) : bool :=
  match Errors.class error_ with
  | DecodingErrorClass => true
  | _ => false
  end.

Definition extractQRString (buffer : Buffer) : Result string :=
  Generator.tryCatch
    ((* Load image with Jimp *)
     image <- JimpRead buffer ;;
     let width_ := width image in
     let height_ := height image in
     let imageData := toImageData image in
     (* Decode QR code with jsQR *)
     code <- jsQR imageData width_ height_ ;;
     match code with
     | None => Throw (DecodingError "No QR code found in image")
     | Some codeData => Ok codeData
     end)
    (fun error_ =>
       if isDecodingError error_ then Throw error_
       else Throw (DecodingError "Failed to read image or extract QR code")).

Definition decodePayBySquare (buffer : Buffer) : Result PayBySquareInput :=
  (* Step 1: Extract QR string from PNG buffer *)
  qrString <- extractQRString buffer ;;
  (* Step 2: Decode QR string with bysquare *)
  dataModel <-
    Generator.tryCatch (bysquareDecode qrString)
      (fun error_ =>
         Throw (DecodingError "Failed to decode PayBySquare QR string")) ;;
  (* Step 3: Transform DataModel to PayBySquareInput *)
  result <- Decoder.transformFromDataModel dataModel ;;
  Ok result.
End Collaborators.

End Reader.

(* ------------------------------------------------------------------ *)
(** ** Round trips and QR compliance ([compliance.ts]) *)

Module RoundTrip.

(** The values of the properties that [compareField] reads ([any]). *)
Inductive Value :=
| VUndefined
| VString (s : string)
| VNumber (n : float).

Record FieldDifference := {
  field : string;
  original : Value;
  decoded : Value
}.

Record RoundTripResult := {
  isLossless : bool;
  differences : list FieldDifference;
  resultInput : PayBySquareInput;
  resultDecoded : PayBySquareInput
}.

(** The keys [compareField] is called with. *)
Inductive Key :=
| Kiban | KbeneficiaryName | Kamount | Kcurrency | KvariableSymbol
| KconstantSymbol | KspecificSymbol | KpaymentNote | KdueDate | Kswift
| KoriginatorReference.

Definition keyName (k : Key) : string :=
  match k with
  | Kiban => "iban"
  | KbeneficiaryName => "beneficiaryName"
  | Kamount => "amount"
  | Kcurrency => "currency"
  | KvariableSymbol => "variableSymbol"
  | KconstantSymbol => "constantSymbol"
  | KspecificSymbol => "specificSymbol"
  | KpaymentNote => "paymentNote"
  | KdueDate => "dueDate"
  | Kswift => "swift"
  | KoriginatorReference => "originatorReference"
  end.

Definition ofString (o : option string) : Value :=
  match o with
  | Some s => VString s
  | None => VUndefined
  end.

Definition ofNumber (o : option float) : Value :=
  match o with
  | Some n => VNumber n
  | None => VUndefined
  end.

(** [input[field]] *)
Definition get (k : Key) (r : PayBySquareInput) : Value :=
  match k with
  | Kiban => ofString (iban r)
  | KbeneficiaryName => ofString (beneficiaryName r)
  | Kamount => ofNumber (amount r)
  | Kcurrency => ofString (currency r)
  | KvariableSymbol => ofString (variableSymbol r)
  | KconstantSymbol => ofString (constantSymbol r)
  | KspecificSymbol => ofString (specificSymbol r)
  | KpaymentNote => ofString (paymentNote r)
  | KdueDate => ofString (dueDate r)
  | Kswift => ofString (swift r)
  | KoriginatorReference => ofString (originatorReference r)
  end.

(** [v == null] *)
Definition isNullish (v : Value) : bool :=
  match v with
  | VUndefined => true
  | _ => false
  end.

(** [a !== b]: numbers compare as IEEE 754 numbers. *)
Definition strictNe (a b : Value) : bool :=
  match a, b with
  | VUndefined, VUndefined => false
  | VString s, VString t => negb (String.eqb s t)
  | VNumber x, VNumber y => negb (PrimFloat.eqb x y)
  | _, _ => true
  end.

(** [if (c) { differences.push(d) }] *)
Definition pushWhen (c : bool) (d : FieldDifference)
    (differences_ : list FieldDifference) : list FieldDifference :=
  if c then (differences_ ++ [d])%list else differences_.

Definition compareField (input decoded_ : PayBySquareInput) (field_ : Key)
    (differences_ : list FieldDifference) : list FieldDifference :=
  let original_ := get field_ input in
  let decodedValue := get field_ decoded_ in
  (* Both undefined/null - OK *)
  if isNullish original_ && isNullish decodedValue then differences_
  else
    (* One is undefined - difference *)
    pushWhen (strictNe original_ decodedValue)
      {| field := keyName field_; original := original_;
         decoded := decodedValue |} differences_.

(** The comparison of [verifyRoundTrip], from [differences = []] to the
    last [push]. *)
Definition compare (input decoded_ : PayBySquareInput)
  : list FieldDifference :=
  let differences_ := [] in
  (* Compare all fields *)
  let differences_ := compareField input decoded_ Kiban differences_ in
  let differences_ :=
    compareField input decoded_ KbeneficiaryName differences_ in
  let differences_ := compareField input decoded_ Kamount differences_ in
  let differences_ := compareField input decoded_ Kcurrency differences_ in
  let differences_ :=
    compareField input decoded_ KvariableSymbol differences_ in
  let differences_ :=
    compareField input decoded_ KconstantSymbol differences_ in
  let differences_ :=
    compareField input decoded_ KspecificSymbol differences_ in
  let differences_ :=
    compareField input decoded_ KpaymentNote differences_ in
  let differences_ := compareField input decoded_ KdueDate differences_ in
  let differences_ := compareField input decoded_ Kswift differences_ in
  let differences_ :=
    compareField input decoded_ KoriginatorReference differences_ in
  (* Compare address fields *)
  if Generator.defined (beneficiaryAddress input)
     || Generator.defined (beneficiaryAddress decoded_)
  then
    let differences_ :=
      pushWhen (strictNe (ofString (addressStreet input))
                (ofString (addressStreet decoded_)))
        {| field := "beneficiaryAddress.street";
           original := ofString (addressStreet input);
           decoded := ofString (addressStreet decoded_) |} differences_ in
    let differences_ :=
      pushWhen (strictNe (ofString (addressCity input))
                (ofString (addressCity decoded_)))
        {| field := "beneficiaryAddress.city";
           original := ofString (addressCity input);
           decoded := ofString (addressCity decoded_) |} differences_ in
    differences_
  else differences_.

Section Collaborators.
Variable isValidIBAN isValidBIC inCurrencyCode : string -> bool.
Variable Buffer : Type.
Variable encode
  : Generator.TaggedDataModel -> Generator.EncodeOptions -> Result string.
Variable toBuffer : string -> Generator.ToBufferOptions -> Result Buffer.
Variable LocalTZA : Z -> Z.
Variable JimpRead : Buffer -> Result Reader.Bitmap.
Variable jsQR : list N -> nat -> nat -> Result (option string).
Variable bysquareDecode : string -> Result DataModel.

Definition checkQRCompliance (buffer : Buffer) : Result ComplianceResult :=
  decoded_ <- Reader.decodePayBySquare JimpRead jsQR bysquareDecode buffer ;;
  Compliance.checkCompliance isValidIBAN isValidBIC inCurrencyCode decoded_.

Definition verifyRoundTrip (input : PayBySquareInput)
  : Result RoundTripResult :=
  (* Generate QR code from input *)
  qrBuffer <-
    Generator.generatePayBySquare inCurrencyCode encode toBuffer LocalTZA
      input Generator.noOptions ;;
  (* Decode it back *)
  decoded_ <- Reader.decodePayBySquare JimpRead jsQR bysquareDecode qrBuffer ;;
  (* Compare field by field *)
  let differences_ := compare input decoded_ in
  Ok {| isLossless := (len_list differences_ =? 0);
        differences := differences_;
        resultInput := input;
        resultDecoded := decoded_ |}.
End Collaborators.

End RoundTrip.

(* ------------------------------------------------------------------ *)
(** ** The calendar and other reference notions *)

Definition isLeapYear (y : Z) : bool :=
  (y mod 4 =? 0) && (negb (y mod 100 =? 0) || (y mod 400 =? 0)).

(** The days of month [m] of year [y]; 0 when [m] is no month. *)
Definition daysInMonth (y m : Z) : Z :=
  match m with
  | 1 | 3 | 5 | 7 | 8 | 10 | 12 => 31
  | 4 | 6 | 9 | 11 => 30
  | 2 => if isLeapYear y then 29 else 28
  | _ => 0
  end.

(** A string [YYYY-MM-DD] that names a day of the Gregorian calendar. *)
Definition isCalendarDate (s : string) : bool :=
  let year := parseInt (group 0 4 s) in
  let month := parseInt (group 5 2 s) in
  let day := parseInt (group 8 2 s) in
  test reISODate s && (1 <=? day) && (day <=? daysInMonth year month).

Definition sameDate (a b : Z * Z * Z) : bool :=
  (fst (fst a) =? fst (fst b))
  && (snd (fst a) =? snd (fst b))
  && (snd a =? snd b).

(** The steps of [civil] and [MakeDay]: the first day of a year of the
    era (years from 1 March), the year of a day of the era, the first
    day of a month of that year, the month number. *)
Definition yearStart (yoe : Z) : Z := 365 * yoe + yoe / 4 - yoe / 100.

Definition flatten (doe : Z) : Z :=
  doe - doe / 1460 + doe / 36524 - doe / 146096.

Definition yearOfEra (doe : Z) : Z := flatten doe / 365.

Definition monthStart (mp : Z) : Z := (153 * mp + 2) / 5.

Definition monthOf (mp : Z) : Z := if mp <? 10 then mp + 3 else mp - 9.

Definition forallRange (lo n : nat) (check : Z -> bool) : bool :=
  forallb check (map Z.of_nat (seq lo n)).

Definition yearLength (yoe : Z) : Z :=
  365 + if isLeapYear (yoe + 1) then 1 else 0.

(** [{ ...r, currency: c }] *)
Definition withCurrency (c : option string) (r : PayBySquareInput)
  : PayBySquareInput :=
  {| iban := iban r; beneficiaryName := beneficiaryName r;
     amount := amount r; currency := c;
     variableSymbol := variableSymbol r;
     constantSymbol := constantSymbol r;
     specificSymbol := specificSymbol r; paymentNote := paymentNote r;
     dueDate := dueDate r; swift := swift r;
     originatorReference := originatorReference r;
     beneficiaryAddress := beneficiaryAddress r |}.

(** [{ ...r, iban: i }] *)
Definition withIban (i : option string) (r : PayBySquareInput)
  : PayBySquareInput :=
  {| iban := i; beneficiaryName := beneficiaryName r;
     amount := amount r; currency := currency r;
     variableSymbol := variableSymbol r;
     constantSymbol := constantSymbol r;
     specificSymbol := specificSymbol r; paymentNote := paymentNote r;
     dueDate := dueDate r; swift := swift r;
     originatorReference := originatorReference r;
     beneficiaryAddress := beneficiaryAddress r |}.

Definition swiftIssue : ComplianceIssue :=
  {| type := error; field := "swift";
     message := "Invalid BIC/SWIFT code format"; severity := major |}.

Definition amountMaximumIssue : ComplianceIssue :=
  {| type := error; field := "amount";
     message := "Amount exceeds PayBySquare maximum (999,999,999,999,999)";
     severity := major |}.

Definition currencyWarning : ComplianceIssue :=
  {| type := warning; field := "currency";
     message := "Currency code not in ISO 4217 standard";
     severity := minor |}.

(** An optional string that is not the empty string. *)
Definition neverEmpty (o : option string) : bool :=
  match o with
  | Some EmptyString => false
  | _ => true
  end.

(** The record that comes back when a record goes through the two
    adapters: IBAN without whitespace, currency in upper case and only
    beside an amount ("EUR" when none was given), empty strings gone. *)
Definition normalized (r : PayBySquareInput) : PayBySquareInput :=
  let code_ :=
    match amount r with
    | Some _ =>
        Some (toUpperCase
                match currency r with
                | Some c => c
                | None => "EUR"
                end)
    | None => None
    end in
  {| iban := option_map removeSpaces (iban r);
     beneficiaryName :=
       Some match beneficiaryName r with
            | Some n => n
            | None => ""
            end;
     amount := if truthyOpt code_ then amount r else None;
     currency := if truthyOpt code_ then code_ else None;
     variableSymbol := Decoder.spreadIf (variableSymbol r);
     constantSymbol := Decoder.spreadIf (constantSymbol r);
     specificSymbol := Decoder.spreadIf (specificSymbol r);
     paymentNote := Decoder.spreadIf (paymentNote r);
     dueDate := Decoder.spreadIf (dueDate r);
     swift := Decoder.spreadIf (swift r);
     originatorReference := Decoder.spreadIf (originatorReference r);
     beneficiaryAddress :=
       if truthyOpt (addressStreet r) || truthyOpt (addressCity r)
       then Some {| street := Decoder.spreadIf (addressStreet r);
                    city := Decoder.spreadIf (addressCity r) |}
       else None |}.

(** Field by field, the strict equality of [compareField]: numbers as
    IEEE 754 numbers, an address by its street and its city. *)
Definition sameString (a b : option string) : bool :=
  match a, b with
  | Some s, Some t => String.eqb s t
  | None, None => true
  | _, _ => false
  end.

Definition sameNumber (a b : option float) : bool :=
  match a, b with
  | Some x, Some y => PrimFloat.eqb x y
  | None, None => true
  | _, _ => false
  end.

Definition sameRecord (a b : PayBySquareInput) : bool :=
  sameString (iban a) (iban b)
  && sameString (beneficiaryName a) (beneficiaryName b)
  && sameNumber (amount a) (amount b)
  && sameString (currency a) (currency b)
  && sameString (variableSymbol a) (variableSymbol b)
  && sameString (constantSymbol a) (constantSymbol b)
  && sameString (specificSymbol a) (specificSymbol b)
  && sameString (paymentNote a) (paymentNote b)
  && sameString (dueDate a) (dueDate b)
  && sameString (swift a) (swift b)
  && sameString (originatorReference a) (originatorReference b)
  && sameString (addressStreet a) (addressStreet b)
  && sameString (addressCity a) (addressCity b).

(** A record in the form the adapters give it: an IBAN without
    whitespace, no empty optional string, and an amount exactly when
    there is a currency, which is in upper case. *)
Definition isNormal (r : PayBySquareInput) : bool :=
  match iban r with
  | Some s => String.eqb s (removeSpaces s)
  | None => false
  end
  && match amount r, currency r with
     | None, None => true
     | Some _, Some c => truthy c && String.eqb c (toUpperCase c)
     | _, _ => false
     end
  && neverEmpty (variableSymbol r)
  && neverEmpty (constantSymbol r)
  && neverEmpty (specificSymbol r)
  && neverEmpty (paymentNote r)
  && neverEmpty (dueDate r)
  && neverEmpty (swift r)
  && neverEmpty (originatorReference r)
  && neverEmpty (addressStreet r)
  && neverEmpty (addressCity r).

(** Collaborators for the examples: an image that cannot be read, an
    image of two pixels, a detector that finds no code. *)
Definition noImage : unit -> Result Reader.Bitmap :=
  fun _ => Throw TypeError.

Definition blankImage : unit -> Result Reader.Bitmap :=
  fun _ => Ok {| Reader.width := 2; Reader.height := 1;
                 Reader.data := [255; 255; 255; 255; 0; 0; 0; 255]%N |}.

Definition findsNothing : list N -> nat -> nat -> Result (option string) :=
  fun _ _ _ => Ok None.

(* ================================================================== *)
(** * Properties *)

(** ** Patterns and strings *)

Lemma matchRep_end (p : ascii -> bool) (hi lo : nat) (s : string) :
  matchRep p (fun t => negb (truthy t)) lo hi s
  = forallChars p s
    && Nat.leb lo (String.length s) && Nat.leb (String.length s) hi.
Proof.
  revert lo s. induction hi as [|hi IH]; intros lo s; simpl.
  - destruct s; simpl.
    + destruct lo; reflexivity.
    + rewrite !andb_false_r. reflexivity.
  - destruct s as [|c s]; simpl.
    + destruct lo; reflexivity.
    + rewrite andb_false_r. simpl. rewrite IH.
      destruct lo; simpl; rewrite <- ?andb_assoc; reflexivity.
Qed.

Lemma test_single (p : ascii -> bool) (lo hi : nat) (s : string) :
  test [item p lo hi] s
  = forallChars p s
    && Nat.leb lo (String.length s) && Nat.leb (String.length s) hi.
Proof. apply matchRep_end. Qed.

Lemma andThen_optional (o : option string) (ok : string -> bool) :
  andThen o (fun s => negb (ok s)) = Spec.optional o ok.
Proof. destruct o as [[|c s]|]; reflexivity. Qed.

Lemma andThen_longer (o : option string) (n : Z) :
  andThen o (fun s => n <? len s) = Spec.optional o (fun s => len s <=? n).
Proof.
  destruct o as [[|c s]|]; try reflexivity.
  simpl. apply Z.ltb_antisym.
Qed.

(** ** The validator against the rule table *)

Lemma validateInput_validate (tz : Z -> Z) (r : PayBySquareInput) :
  Validator.validateInput tz r = Spec.validate tz r.
Proof.
  unfold Validator.validateInput, Spec.validate, Spec.firstViolation.
  rewrite !andThen_optional, !andThen_longer.
  destruct r as [ib nm am cu vs cs ss pn dd sw orf ad].
  unfold Spec.order, find, Spec.violated, Spec.text, Spec.present; simpl.
  destruct ib as [ib|]; simpl; [|reflexivity].
  destruct (truthy (trim ib)); simpl; [|reflexivity].
  destruct nm as [nm|]; simpl; [|reflexivity].
  destruct (truthy (trim nm)); simpl; [|reflexivity].
  destruct (Validator.isValidIBAN ib); simpl; [|reflexivity].
  destruct (match am with Some a => ltb a 0 | None => false end);
    [reflexivity|].
  destruct (match am with Some a => negb (is_finite a) | None => false end);
    [reflexivity|].
  destruct (Spec.optional cu _); [reflexivity|].
  destruct (Spec.optional vs _); [reflexivity|].
  destruct (Spec.optional cs _); [reflexivity|].
  destruct (Spec.optional ss _); [reflexivity|].
  destruct (Spec.optional pn _); [reflexivity|].
  rewrite Z.ltb_antisym.
  destruct (len nm <=? 70); simpl; [|reflexivity].
  destruct (Spec.optional _ _); [reflexivity|].
  destruct (Spec.optional _ _); [reflexivity|].
  destruct (Spec.optional dd _); reflexivity.
Qed.

Lemma eqb_eq (a b : Spec.Rule) : Spec.eqb a b = true -> a = b.
Proof. destruct a, b; simpl; congruence. Qed.

Lemma eqb_refl (a : Spec.Rule) : Spec.eqb a a = true.
Proof. destruct a; reflexivity. Qed.

Section FirstViolation.
Variable v : Spec.Rule -> bool.
Variable k : Spec.Rule.

Lemma find_none_of_others (l : list Spec.Rule) :
  forallb (fun k' => Spec.eqb k' k || negb (v k')) l = true ->
  v k = false -> find v l = None.
Proof.
  intros Hl Hk. induction l as [|a l IH]; simpl in *.
  - reflexivity.
  - apply andb_prop in Hl. destruct Hl as [Ha Hl].
    apply orb_prop in Ha. destruct Ha as [Ha|Ha].
    + apply eqb_eq in Ha. subst a. rewrite Hk. auto.
    + apply negb_true_iff in Ha. rewrite Ha. auto.
Qed.

(** When every other rule of the list holds, the first violation is
    [k] or there is none. *)
Lemma find_of_others (l : list Spec.Rule) :
  In k l ->
  forallb (fun k' => Spec.eqb k' k || negb (v k')) l = true ->
  find v l = if v k then Some k else None.
Proof.
  induction l as [|a l IH]; simpl; intros Hin Hl.
  - contradiction.
  - apply andb_prop in Hl. destruct Hl as [Ha Hl].
    destruct (Spec.eqb a k) eqn:E.
    + apply eqb_eq in E. subst a.
      destruct (v k) eqn:Hk; [reflexivity|].
      apply find_none_of_others; assumption.
    + simpl in Ha. apply negb_true_iff in Ha. rewrite Ha.
      destruct Hin as [->|Hin]; [rewrite eqb_refl in E; discriminate|].
      auto.
Qed.
End FirstViolation.

Lemma validate_otherwiseValid (tz : Z -> Z) (k : Spec.Rule)
    (r : PayBySquareInput) :
  Spec.otherwiseValid tz k r = true ->
  Spec.validate tz r
  = if Spec.violated tz k r
    then Throw (ValidationError (Spec.text k r)) else Ok tt.
Proof.
  intros H. unfold Spec.validate, Spec.firstViolation.
  rewrite (find_of_others (fun k' => Spec.violated tz k' r) k).
  - destruct (Spec.violated tz k r); reflexivity.
  - destruct k; simpl; tauto.
  - exact H.
Qed.

(** The first violation is a violated rule, and no rule before it in the
    order is violated. *)
Lemma firstViolation_first (tz : Z -> Z) (r : PayBySquareInput)
    (k : Spec.Rule) :
  Spec.firstViolation tz r = Some k ->
  Spec.violated tz k r = true
  /\ exists before after,
       Spec.order = (before ++ k :: after)%list
       /\ forallb (fun k' => negb (Spec.violated tz k' r)) before = true.
Proof.
  unfold Spec.firstViolation. generalize Spec.order.
  induction l as [|a l IH]; simpl; intros H; [discriminate|].
  destruct (Spec.violated tz a r) eqn:E.
  - inversion H; subst. split; [assumption|].
    exists [], l. split; reflexivity.
  - destruct (IH H) as [Hk [before [after [-> Hb]]]].
    split; [assumption|].
    exists (a :: before), after. split; [reflexivity|].
    simpl. rewrite E. assumption.
Qed.

Lemma len_length (s : string) (n : nat) :
  len s = Z.of_nat n -> String.length s = n.
Proof. unfold len. lia. Qed.

(** C2 (fail-fast ordering).  For every input record [validateInput]
    raises the [ValidationError] of the first rule violated in the fixed
    order IBAN present, beneficiary name present, IBAN structure, amount
    sign, amount finiteness, currency, variableSymbol, constantSymbol,
    specificSymbol, paymentNote length, beneficiaryName length, street
    length, city length, dueDate (and returns when none is violated); a
    record without IBAN fails with "IBAN is required" whatever its other
    fields are, in particular the record that has only the beneficiary
    name "X". *)
Theorem fail_fast_ordering (tz : Z -> Z) (r : PayBySquareInput) :
  Validator.validateInput tz r
  = match find (fun k => Spec.violated tz k r) Spec.order with
    | Some k => Throw (ValidationError (Spec.text k r))
    | None => Ok tt
    end
  /\ (forall nm am cu vs cs ss pn dd sw orf ad,
        Validator.validateInput tz
          {| iban := None; beneficiaryName := nm; amount := am;
             currency := cu; variableSymbol := vs; constantSymbol := cs;
             specificSymbol := ss; paymentNote := pn; dueDate := dd;
             swift := sw; originatorReference := orf;
             beneficiaryAddress := ad |}
        = Throw (ValidationError "IBAN is required"))
  /\ Validator.validateInput tz
       {| iban := None; beneficiaryName := Some "X"; amount := None;
          currency := None; variableSymbol := None; constantSymbol := None;
          specificSymbol := None; paymentNote := None; dueDate := None;
          swift := None; originatorReference := None;
          beneficiaryAddress := None |}
     = Throw (ValidationError "IBAN is required").
Proof.
  split; [apply validateInput_validate|].
  split; reflexivity.
Qed.

(** C4 (boundary acceptance).  Let a record satisfy every rule other
    than the length rule of one of its bounded fields: beneficiaryName
    (70), paymentNote (140), variableSymbol and specificSymbol (10
    digits), constantSymbol (4 digits), address street and city (70).
    When the field has exactly as many characters as its limit
    [validateInput] accepts the record; with one character more it
    raises the error of that rule, for the name "Beneficiary name cannot
    exceed 70 characters". *)
Theorem boundary_acceptance (tz : Z -> Z) (f : Spec.Bounded)
    (r : PayBySquareInput) (s : string) :
  Spec.valueOf f r = Some s ->
  forallChars (Spec.alphabet f) s = true ->
  Spec.otherwiseValid tz (Spec.ruleOf f) r = true ->
  (len s = Spec.limit f -> Validator.validateInput tz r = Ok tt)
  /\ (len s = Spec.limit f + 1 ->
      Validator.validateInput tz r
      = Throw (ValidationError (Spec.text (Spec.ruleOf f) r)))
  /\ Spec.text (Spec.ruleOf Spec.BName) r
     = "Beneficiary name cannot exceed 70 characters".
Proof.
  intros Hs Hd Ho.
  rewrite validateInput_validate, (validate_otherwiseValid _ _ _ Ho).
  assert (Hopt : forall ok, 0 < len s ->
            Spec.optional (Some s) ok = negb (ok s)).
  { intros ok Hpos. destruct s; [discriminate Hpos|reflexivity]. }
  split; [|split; [|reflexivity]]; intros Hl;
    destruct f;
    cbn [Spec.ruleOf Spec.violated Spec.valueOf Spec.limit Spec.alphabet
         Spec.text] in *;
    rewrite Hs, ?Hopt by lia;
    rewrite ?test_single, ?Hd, ?Hl;
    try reflexivity;
    (apply (len_length _ 10) in Hl || apply (len_length _ 11) in Hl
     || apply (len_length _ 4) in Hl || apply (len_length _ 5) in Hl);
    unfold reDigits; rewrite test_single, Hd, Hl; reflexivity.
Qed.

Lemma boundary_acceptance_witness :
  Validator.validateInput CET (minimal sampleIban (xs 70)) = Ok tt
  /\ Validator.validateInput CET (minimal sampleIban (xs 71))
     = Throw (ValidationError "Beneficiary name cannot exceed 70 characters").
Proof.
  split.
  - apply (boundary_acceptance CET Spec.BName
             (minimal sampleIban (xs 70)) (s := xs 70));
      reflexivity.
  - apply (boundary_acceptance CET Spec.BName
             (minimal sampleIban (xs 71)) (s := xs 71));
      reflexivity.
Defined.

(** ** The decode-direction adapter *)

Lemma transformFromDataModel_cases (d : DataModel) :
  match payments d with
  | [] =>
      Decoder.transformFromDataModel d
      = Throw (DecodingError "No payment data found in QR code")
  | p :: _ =>
      if truthyOpt (Spec.firstAccountIban p)
      then exists r,
          Decoder.transformFromDataModel d = Ok r
          /\ iban r = Spec.firstAccountIban p
          /\ amount r
             = Decoder.spread (truthyOpt (currencyCode p))
                 (paymentAmount p)
          /\ currency r = Decoder.spreadIf (currencyCode p)
      else Decoder.transformFromDataModel d
           = Throw (DecodingError "No IBAN found in payment data")
  end.
Proof.
  unfold Decoder.transformFromDataModel, Spec.firstAccountIban.
  destruct (payments d) as [|p rest]; simpl; [reflexivity|].
  destruct (bankAccounts p) as [[|b l]|]; simpl; try reflexivity.
  destruct (truthyOpt (accountIban b)); simpl; [|reflexivity].
  destruct (beneficiary p) as [bn|]; simpl.
  - destruct (truthyOpt (beneficiaryStreet bn)
              || truthyOpt (beneficiaryCity bn));
      eexists; (split; [reflexivity|]); simpl; auto.
  - eexists; (split; [reflexivity|]); simpl; auto.
Qed.

Lemma truthy_nonempty (s : string) : truthy s = true <-> s <> "".
Proof. destruct s; simpl; split; congruence. Qed.

Lemma truthy_empty (s : string) : truthy s = false <-> s = "".
Proof. destruct s; simpl; split; congruence. Qed.

(** C1 (amount/currency sentinel law).  When the adapter returns a
    record for a canonical model with primary payment [p]: a non-empty
    currency code makes it copy the amount and the currency of [p] into
    the record, an empty or missing one leaves both absent, so the
    currency is present iff the code is non-empty and an amount [a]
    carried by [p] is in the record iff the code is non-empty; for the
    sentinel (amount 0, empty currency) both are absent and the amount
    is not 0. *)
Theorem sentinel_law (d : DataModel) (p : Payment) (rest : list Payment)
    (r : PayBySquareInput) :
  payments d = p :: rest ->
  Decoder.transformFromDataModel d = Ok r ->
  (forall c, currencyCode p = Some c -> c <> "" ->
             amount r = paymentAmount p /\ currency r = Some c)
  /\ (truthyOpt (currencyCode p) = false ->
      amount r = None /\ currency r = None)
  /\ (currency r <> None <-> truthyOpt (currencyCode p) = true)
  /\ (forall a, paymentAmount p = Some a ->
                (amount r = Some a <-> truthyOpt (currencyCode p) = true))
  /\ (paymentAmount p = Some 0%float -> currencyCode p = Some "" ->
      amount r = None /\ currency r = None /\ amount r <> Some 0%float).
Proof.
  intros Hp Hr. pose proof (transformFromDataModel_cases d) as H.
  rewrite Hp in H. destruct (truthyOpt (Spec.firstAccountIban p)).
  2:{ rewrite Hr in H. discriminate. }
  destruct H as [r' [Hr' [_ [Ha Hc]]]].
  rewrite Hr in Hr'. inversion Hr'; subst r'. clear Hr'.
  rewrite Ha, Hc. unfold Decoder.spreadIf, Decoder.spread.
  destruct (currencyCode p) as [[|c cc]|]; simpl;
    repeat split; intros; congruence.
Qed.

Lemma sentinel_law_witness :
  (exists r,
     Decoder.transformFromDataModel sentinelModel = Ok r
     /\ amount r = None /\ currency r = None /\ amount r <> Some 0%float)
  /\ (exists r,
        Decoder.transformFromDataModel euroModel = Ok r
        /\ amount r = Some 100.5%float /\ currency r = Some "EUR").
Proof.
  split; eexists; (split; [reflexivity|]).
  - apply (sentinel_law sentinelModel eq_refl eq_refl); reflexivity.
  - apply (proj1 (sentinel_law euroModel eq_refl eq_refl) "EUR");
      [reflexivity|discriminate].
Defined.

(** C7, as stated, fails: the adapter looks at the first bank account
    only.  [twoAccounts] has a payment entry, and that entry has a bank
    account with an IBAN (the second), yet decoding raises. *)
Lemma decode_reads_first_account_only :
  Decoder.transformFromDataModel twoAccounts
  = Throw (DecodingError "No IBAN found in payment data")
  /\ payments twoAccounts <> []
  /\ forallb Spec.hasAccountWithIban (firstn 1 (payments twoAccounts))
     = true.
Proof. repeat split; try reflexivity. discriminate. Qed.

(** C7 (amended: decode-direction failure condition).  Decoding raises a
    [DecodingError] iff the model has no payment entry or the first bank
    account of the primary payment entry is missing or has no non-empty
    IBAN; in every other case it returns a record whose [iban] is the
    IBAN of that first bank account. *)
Theorem decode_failure_condition (d : DataModel) :
  match payments d with
  | [] =>
      Decoder.transformFromDataModel d
      = Throw (DecodingError "No payment data found in QR code")
  | p :: _ =>
      if truthyOpt (Spec.firstAccountIban p)
      then exists r,
          Decoder.transformFromDataModel d = Ok r
          /\ iban r = Spec.firstAccountIban p
      else Decoder.transformFromDataModel d
           = Throw (DecodingError "No IBAN found in payment data")
  end
  /\ ((exists e, Decoder.transformFromDataModel d = Throw e)
      <-> payments d = []
          \/ exists p rest, payments d = p :: rest
               /\ truthyOpt (Spec.firstAccountIban p) = false)
  /\ (forall e, Decoder.transformFromDataModel d = Throw e ->
                Errors.class e = DecodingErrorClass).
Proof.
  pose proof (transformFromDataModel_cases d) as H.
  destruct (payments d) as [|p rest].
  - rewrite H. split; [reflexivity|]. split.
    + split; eauto.
    + intros e E. inversion E. reflexivity.
  - destruct (truthyOpt (Spec.firstAccountIban p)) eqn:T.
    + destruct H as [r [Hr [Hi _]]]. rewrite Hr.
      split; [eauto|]. split.
      * split.
        -- intros [e E]. discriminate.
        -- intros [E|[p' [rest' [E F]]]]; [discriminate|].
           inversion E; subst. congruence.
      * intros e E. discriminate.
    + rewrite H. split; [reflexivity|]. split.
      * split; [|eauto]. intros _. right. exists p, rest. auto.
      * intros e E. inversion E. reflexivity.
Qed.

(** ** Error messages *)

Lemma length_append (a b : string) :
  String.length (a ++ b) = (String.length a + String.length b)%nat.
Proof. induction a as [|c a IH]; simpl; congruence. Qed.

Lemma prefixed_neq (a b : string) : a <> "" -> a ++ b <> b.
Proof.
  intros Ha E. apply (f_equal String.length) in E.
  rewrite length_append in E. destruct a; [congruence|simpl in E; lia].
Qed.

Lemma validate_throws (tz : Z -> Z) (r : PayBySquareInput) (e : Exception) :
  Spec.validate tz r = Throw e ->
  exists k, Spec.violated tz k r = true
            /\ e = ValidationError (Spec.text k r).
Proof.
  unfold Spec.validate. intros H.
  destruct (Spec.firstViolation tz r) as [k|] eqn:E; [|discriminate].
  exists k. split; [apply (firstViolation_first _ _ E)|congruence].
Qed.

(** C9 (message prefixing).  Every exception raised by [validateInput]
    is a [ValidationError] whose message is "Validation Error: " followed
    by the text of the violated rule: the rule text is contained in the
    message and differs from it (for the missing IBAN the message is
    "Validation Error: IBAN is required"); every [DecodingError] message
    is "Decoding Error: " followed by its text, and the decode adapter
    raises nothing else. *)
Theorem error_message_prefix (tz : Z -> Z) (r : PayBySquareInput)
    (e : Exception) :
  Validator.validateInput tz r = Throw e ->
  (Errors.class e = ValidationErrorClass
   /\ exists k,
        Errors.message e = "Validation Error: " ++ Spec.text k r
        /\ Errors.message e <> Spec.text k r
        /\ (iban r = None ->
            Errors.message e = "Validation Error: IBAN is required"))
  /\ (forall msg,
        Errors.class (DecodingError msg) = DecodingErrorClass
        /\ Errors.message (DecodingError msg) = "Decoding Error: " ++ msg
        /\ Errors.message (DecodingError msg) <> msg)
  /\ (forall d e',
        Decoder.transformFromDataModel d = Throw e' ->
        exists msg, e' = DecodingError msg).
Proof.
  intros H. split; [|split].
  - rewrite validateInput_validate in H.
    destruct (validate_throws _ _ H) as [k [_ ->]].
    split; [reflexivity|]. exists k. split; [reflexivity|].
    split; [apply prefixed_neq; discriminate|].
    intros Hi. destruct r as [ib nm am cu vs cs ss pn dd sw orf ad].
    simpl in Hi. subst ib. inversion H. reflexivity.
  - intros msg. split; [reflexivity|]. split; [reflexivity|].
    apply prefixed_neq. discriminate.
  - intros d e' E. pose proof (transformFromDataModel_cases d) as C.
    destruct (payments d) as [|p rest].
    + rewrite C in E. inversion E. eauto.
    + destruct (truthyOpt (Spec.firstAccountIban p)).
      * destruct C as [r' [C _]]. rewrite C in E. discriminate.
      * rewrite C in E. inversion E. eauto.
Qed.

Lemma error_message_prefix_witness :
  Validator.validateInput UTC
    {| iban := None; beneficiaryName := Some "X"; amount := None;
       currency := None; variableSymbol := None; constantSymbol := None;
       specificSymbol := None; paymentNote := None; dueDate := None;
       swift := None; originatorReference := None;
       beneficiaryAddress := None |}
  = Throw (ValidationError "IBAN is required")
  /\ Errors.message (ValidationError "IBAN is required")
     = "Validation Error: IBAN is required"
  /\ Errors.message (ValidationError "IBAN is required")
     <> "IBAN is required".
Proof.
  split; [reflexivity|].
  pose proof (error_message_prefix UTC
    {| iban := None; beneficiaryName := Some "X"; amount := None;
       currency := None; variableSymbol := None; constantSymbol := None;
       specificSymbol := None; paymentNote := None; dueDate := None;
       swift := None; originatorReference := None;
       beneficiaryAddress := None |}
    (e := ValidationError "IBAN is required") eq_refl)
    as [[_ [k [Hm [Hn Hi]]]] _].
  split; [exact (Hi eq_refl)|].
  intros E. discriminate E.
Defined.

(** ** The compliance engine *)

Lemma fold_classify (l e w : list ComplianceIssue) :
  fold_left Compliance.classify l (e, w)
  = ((e ++ filter isError l)%list,
     (w ++ filter (fun i => negb (isError i)) l)%list).
Proof.
  revert e w. induction l as [|i l IH]; intros e w; simpl.
  - rewrite !app_nil_r. reflexivity.
  - unfold Compliance.classify at 2, isError.
    destruct (type i); simpl; rewrite IH, <- app_assoc; reflexivity.
Qed.

Lemma validateFieldFormats_ok (r : PayBySquareInput) :
  wellTyped r -> exists f, Compliance.validateFieldFormats r = Ok f.
Proof.
  intros [Hi Hn]. unfold Compliance.validateFieldFormats.
  destruct (iban r); [|congruence].
  destruct (beneficiaryName r); [|congruence].
  simpl. eauto.
Qed.

Lemma len_list_zero {A} (l : list A) : (len_list l =? 0) = true <-> l = [].
Proof.
  unfold len_list. destruct l; simpl; split; intros H;
    try reflexivity; discriminate.
Qed.

Lemma len_list_app {A} (l l' : list A) :
  len_list (l ++ l') = len_list l + len_list l'.
Proof. unfold len_list. rewrite length_app. lia. Qed.

Lemma filter_nil_iff {A} (p : A -> bool) (l : list A) :
  filter p l = [] <-> forall x, In x l -> p x = false.
Proof.
  induction l as [|a l IH]; simpl.
  - split; [contradiction|reflexivity].
  - destruct (p a) eqn:E; split.
    + discriminate.
    + intros H. specialize (H a (or_introl eq_refl)). congruence.
    + intros H x [<-|Hx]; [assumption|]. apply IH; assumption.
    + intros H. apply IH. auto.
Qed.

Lemma len_filter_split (l : list ComplianceIssue) :
  len_list (filter isError l)
  + len_list (filter (fun i => negb (isError i)) l)
  = len_list l.
Proof.
  unfold len_list. induction l as [|a l IH]; [reflexivity|].
  cbn [filter]. destruct (isError a); cbn [negb List.length];
    rewrite !Nat2Z.inj_succ; lia.
Qed.

Section Engine.
Variable isValidIBAN isValidBIC inCurrencyCode : string -> bool.

(** The report, once the field group has returned its issues. *)
Lemma checkCompliance_report (r : PayBySquareInput)
    (f : list ComplianceIssue) :
  Compliance.validateFieldFormats r = Ok f ->
  exists rep,
    Compliance.checkCompliance isValidIBAN isValidBIC inCurrencyCode r
    = Ok rep
    /\ errors rep
       = (match Compliance.validateIBANChecksum isValidIBAN (iban r) with
          | Some i => [i]
          | None => []
          end
          ++ filter isError f
          ++ filter isError
               (Compliance.validateBankingStandards isValidBIC
                  inCurrencyCode r))%list
    /\ warnings rep
       = (filter (fun i => negb (isError i)) f
          ++ filter (fun i => negb (isError i))
               (Compliance.validateBankingStandards isValidBIC
                  inCurrencyCode r))%list
    /\ isCompliant rep = (len_list (errors rep) =? 0)
    /\ ibanValid (details rep)
       = Compliance.isValidIBAN' isValidIBAN (iban r)
    /\ fieldsValid (details rep) = (len_list (filter isError f) =? 0)
    /\ bankingStandardsValid (details rep)
       = (len_list
            (filter isError
               (Compliance.validateBankingStandards isValidBIC
                  inCurrencyCode r)) =? 0)
    /\ totalIssues (details rep)
       = len_list (errors rep) + len_list (warnings rep).
Proof.
  intros Hf. unfold Compliance.checkCompliance.
  rewrite Hf. simpl. rewrite !fold_classify. simpl.
  eexists. split; [reflexivity|]. simpl.
  repeat split.
  - destruct (Compliance.validateIBANChecksum _ _);
      simpl; rewrite <- ?app_assoc; reflexivity.
  - unfold Compliance.validateIBANChecksum.
    destruct (Compliance.isValidIBAN' isValidIBAN (iban r)); reflexivity.
Qed.
End Engine.

Lemma forallb_negb_filter {A} (p : A -> bool) (l : list A) :
  (len_list (filter p l) =? 0) = forallb (fun x => negb (p x)) l.
Proof.
  induction l as [|a l IH]; [reflexivity|].
  cbn [filter forallb]. destruct (p a); [reflexivity|exact IH].
Qed.

(** C3 (boolean entry point).  For every record of the input type
    [isCompliant] returns the value of [isCompliant] in the report of
    [checkCompliance]; that value is true iff the report has no errors
    (its warnings play no part); [isCompliant] answers false as soon as
    the IBAN checksum fails, and otherwise whether the field-format and
    banking-standards groups produced no error-classified issue. *)
Theorem isCompliant_agrees (isValidIBAN isValidBIC inCurrencyCode
    : string -> bool) (r : PayBySquareInput) :
  wellTyped r ->
  exists rep b f,
    Compliance.checkCompliance isValidIBAN isValidBIC inCurrencyCode r
    = Ok rep
    /\ Compliance.isCompliant isValidIBAN isValidBIC inCurrencyCode r
       = Ok b
    /\ Compliance.validateFieldFormats r = Ok f
    /\ b = isCompliant rep
    /\ (isCompliant rep = true <-> errors rep = [])
    /\ (Compliance.isValidIBAN' isValidIBAN (iban r) = false -> b = false)
    /\ (Compliance.isValidIBAN' isValidIBAN (iban r) = true ->
        b = forallb (fun i => negb (isError i))
              (f ++ Compliance.validateBankingStandards isValidBIC
                      inCurrencyCode r)).
Proof.
  intros Hw. destruct (validateFieldFormats_ok Hw) as [f Hf].
  destruct (checkCompliance_report isValidIBAN isValidBIC inCurrencyCode
              r Hf) as [rep [Hc [He [_ [Hi _]]]]].
  unfold Compliance.isCompliant. rewrite Hf. simpl.
  unfold Compliance.validateIBANChecksum in He.
  exists rep.
  destruct (Compliance.isValidIBAN' isValidIBAN (iban r)); simpl in *.
  - eexists. exists f. split; [exact Hc|]. split; [reflexivity|].
    split; [reflexivity|]. rewrite Hi, He, filter_app.
    split; [reflexivity|]. split; [apply len_list_zero|].
    split; [discriminate|]. intros _. rewrite <- filter_app.
    apply forallb_negb_filter.
  - exists false, f. split; [exact Hc|]. split; [reflexivity|].
    split; [reflexivity|]. rewrite Hi, He.
    split; [reflexivity|]. split; [split; discriminate|].
    split; [reflexivity|discriminate].
Qed.

Lemma isCompliant_agrees_witness :
  exists rep,
    Compliance.checkCompliance checksumValid (fun _ => true)
      (fun _ => true) (minimal sampleIban "John Doe") = Ok rep
    /\ Compliance.isCompliant checksumValid (fun _ => true)
         (fun _ => true) (minimal sampleIban "John Doe")
       = Ok (isCompliant rep).
Proof.
  destruct (isCompliant_agrees checksumValid (fun _ => true)
              (fun _ => true) (r := minimal sampleIban "John Doe"))
    as [rep [b [f [Hc [Hb [_ [E _]]]]]]].
  - split; discriminate.
  - exists rep. split; [exact Hc|]. rewrite <- E. exact Hb.
Defined.

(** C6 (summary law).  In the report of [checkCompliance] on a record
    of the input type, [ibanValid] is the verdict of the IBAN checksum
    primitive on the record's [iban] and nothing else; [fieldsValid] and
    [bankingStandardsValid] are true iff no issue of the field-format
    group, respectively of the banking-standards group, is an error
    (warnings leave them true); [totalIssues] is the number of errors
    plus the number of warnings, which is every issue raised. *)
Theorem summary_law (isValidIBAN isValidBIC inCurrencyCode
    : string -> bool) (r : PayBySquareInput) :
  wellTyped r ->
  exists rep f,
    Compliance.checkCompliance isValidIBAN isValidBIC inCurrencyCode r
    = Ok rep
    /\ Compliance.validateFieldFormats r = Ok f
    /\ (forall s, iban r = Some s ->
                  ibanValid (details rep) = isValidIBAN s)
    /\ (fieldsValid (details rep) = true
        <-> forall i, In i f -> type i <> error)
    /\ (bankingStandardsValid (details rep) = true
        <-> forall i,
              In i (Compliance.validateBankingStandards isValidBIC
                      inCurrencyCode r) ->
              type i <> error)
    /\ totalIssues (details rep)
       = len_list (errors rep) + len_list (warnings rep)
    /\ totalIssues (details rep)
       = (if ibanValid (details rep) then 0 else 1)
         + len_list f
         + len_list (Compliance.validateBankingStandards isValidBIC
                       inCurrencyCode r).
Proof.
  intros Hw. destruct (validateFieldFormats_ok Hw) as [f Hf].
  destruct (checkCompliance_report isValidIBAN isValidBIC inCurrencyCode
              r Hf) as [rep [Hc [He [Hwa [_ [Hi [Hfv [Hbv Ht]]]]]]]].
  assert (Hno : forall l : list ComplianceIssue,
            (len_list (filter isError l) =? 0) = true
            <-> forall i, In i l -> type i <> error).
  { intros l. rewrite len_list_zero, filter_nil_iff. unfold isError.
    split; intros H i Hin; specialize (H i Hin);
      destruct (type i); congruence. }
  exists rep, f. split; [exact Hc|]. split; [exact Hf|].
  split; [intros s Hs; rewrite Hi, Hs; reflexivity|].
  split; [rewrite Hfv; apply Hno|].
  split; [rewrite Hbv; apply Hno|].
  split; [exact Ht|].
  rewrite Ht, He, Hwa, Hi, !len_list_app.
  unfold Compliance.validateIBANChecksum.
  pose proof (len_filter_split f).
  pose proof (len_filter_split
                (Compliance.validateBankingStandards isValidBIC
                   inCurrencyCode r)).
  destruct (Compliance.isValidIBAN' isValidIBAN (iban r)); simpl negb;
    cbv iota; change (len_list (@nil ComplianceIssue)) with 0;
    try change (len_list [_]) with 1; lia.
Qed.

Lemma summary_law_witness :
  exists rep,
    Compliance.checkCompliance checksumValid (fun _ => true)
      (fun _ => true) (minimal sampleIban "John Doe") = Ok rep
    /\ ibanValid (details rep) = true
    /\ totalIssues (details rep) = 0.
Proof.
  destruct (summary_law checksumValid (fun _ => true) (fun _ => true)
              (r := minimal sampleIban "John Doe"))
    as [rep [f [Hc [Hf [Hi [_ [_ [_ Ht]]]]]]]].
  - split; discriminate.
  - exists rep. split; [exact Hc|].
    assert (Hv : ibanValid (details rep) = true)
      by (rewrite (Hi sampleIban eq_refl); reflexivity).
    split; [exact Hv|].
    rewrite Ht, Hv. inversion Hf. reflexivity.
Defined.

(** ** Due dates *)

Lemma In_pushIf (c : bool) (x i : ComplianceIssue)
    (l : list ComplianceIssue) :
  In i (Compliance.pushIf c x l) -> In i l \/ (c = true /\ i = x).
Proof.
  unfold Compliance.pushIf. destruct c; [|auto].
  intros H. apply in_app_or in H. destruct H as [H|[H|[]]]; auto.
Qed.

(** The field group of the compliance engine raises a [dueDate] issue
    only when the grammar fails. *)
Lemma validateFieldFormats_dueDate (r : PayBySquareInput)
    (f : list ComplianceIssue) (i : ComplianceIssue) :
  Compliance.validateFieldFormats r = Ok f ->
  In i f -> field i = "dueDate" ->
  andThen (dueDate r) (fun d => negb (test reISODate d)) = true.
Proof.
  unfold Compliance.validateFieldFormats. intros Hf Hin Hfield.
  destruct (iban r); [|discriminate].
  destruct (beneficiaryName r); [|discriminate].
  simpl in Hf. inversion Hf; subst f; clear Hf.
  apply In_pushIf in Hin. destruct Hin as [Hin|[Hc _]]; [|exact Hc].
  repeat (apply In_pushIf in Hin;
          destruct Hin as [Hin|[_ ->]]; [|discriminate Hfield]).
  destruct Hin.
Qed.

(** The validator rejects every due date that [isValidISODate] refuses. *)
Lemma validateInput_dueDate (tz : Z -> Z) (r : PayBySquareInput)
    (d : string) :
  dueDate r = Some d -> d <> "" ->
  Validator.isValidISODate tz d = false ->
  exists e, Validator.validateInput tz r = Throw e.
Proof.
  intros Hd Hne Hv. rewrite validateInput_validate. unfold Spec.validate.
  destruct (Spec.firstViolation tz r) as [k|] eqn:E; [eauto|].
  exfalso. unfold Spec.firstViolation in E.
  assert (V : Spec.violated tz Spec.DueDateGrammar r = false).
  { apply (find_none _ _ E Spec.DueDateGrammar). simpl. tauto. }
  cbn [Spec.violated] in V. rewrite Hd in V.
  destruct d; [congruence|]. cbn [Spec.optional] in V.
  rewrite Hv in V. discriminate.
Qed.

(** Whatever the host's time zone (offsets are below a day), 30 February
    2026 does not come back from [Date] as written. *)
Lemma isValidISODate_february30 (tz : Z -> Z) :
  (forall t, - msPerDay < tz t < msPerDay) ->
  Validator.isValidISODate tz "2026-02-30" = false.
Proof.
  intros Htz. unfold Validator.isValidISODate.
  change (test reISODate "2026-02-30") with true.
  change (newDate "2026-02-30") with (Some 1772409600000).
  cbv iota beta zeta. cbn [negb].
  assert (Hm : getMonth1 tz 1772409600000 = 3).
  { unfold getMonth1, LocalTime, Day.
    specialize (Htz 1772409600000). unfold msPerDay in *.
    assert (H : (1772409600000 + tz 1772409600000) / 86400000 = 20513
                \/ (1772409600000 + tz 1772409600000) / 86400000 = 20514).
    { pose proof (Z.div_mod (1772409600000 + tz 1772409600000) 86400000).
      pose proof (Z.mod_pos_bound
                    (1772409600000 + tz 1772409600000) 86400000).
      lia. }
    destruct H as [-> | ->]; reflexivity. }
  rewrite Hm. change (parseInt (group 5 2 "2026-02-30")) with 2.
  change (3 =? 2) with false. rewrite andb_false_r. reflexivity.
Qed.

(** C5 (calendar validity) at the failing input.  "2026-02-30" matches
    the grammar and is no day of the calendar: [validateInput] rejects
    the record, and the report of [checkCompliance] on the same record
    is clean, without any [dueDate] issue. *)
Theorem dueDate_calendar_gap :
  test reISODate "2026-02-30" = true
  /\ Validator.isValidISODate CET "2026-02-30" = false
  /\ Validator.validateInput CET february30
     = Throw (ValidationError
                "Due date must be in ISO 8601 format (YYYY-MM-DD)")
  /\ Compliance.checkCompliance checksumValid (fun _ => true)
       (fun _ => true) february30
     = Ok {| isCompliant := true; errors := []; warnings := [];
             details := {| ibanValid := true; fieldsValid := true;
                           bankingStandardsValid := true;
                           totalIssues := 0 |} |}
  /\ Compliance.isCompliant checksumValid (fun _ => true)
       (fun _ => true) february30
     = Ok true.
Proof. repeat split; vm_compute; reflexivity. Qed.

(** ** Currency codes *)

Lemma isUpper_upperChar (c : ascii) :
  isUpper (upperChar c) = isLetter c.
Proof. destruct c as [[] [] [] [] [] [] [] []]; reflexivity. Qed.

Lemma forallChars_toUpperCase (s : string) :
  forallChars isUpper (toUpperCase s) = forallChars isLetter s.
Proof.
  induction s as [|c s IH]; simpl; [reflexivity|].
  rewrite isUpper_upperChar, IH. reflexivity.
Qed.

Lemma length_toUpperCase (s : string) :
  String.length (toUpperCase s) = String.length s.
Proof. induction s as [|c s IH]; simpl; congruence. Qed.

(** Three letters of either case. *)
Lemma isValidCurrencyCode_letters (c : string) :
  Validator.isValidCurrencyCode c
  = forallChars isLetter c && (len c =? 3).
Proof.
  unfold Validator.isValidCurrencyCode, reCurrency.
  rewrite test_single, forallChars_toUpperCase, length_toUpperCase.
  rewrite <- andb_assoc. f_equal. unfold len.
  destruct (String.length c) as [|[|[|[|n]]]]; try reflexivity.
  symmetry. apply Z.eqb_neq. lia.
Qed.

(** C8, as stated, fails: "eur" is not made of three upper-case letters
    and the validator accepts the record, whose other fields are valid. *)
Lemma lowercase_currency_accepted :
  currency lowercaseEuro = Some "eur"
  /\ test reCurrency "eur" = false
  /\ Spec.otherwiseValid CET Spec.CurrencyStructure lowercaseEuro = true
  /\ Validator.validateInput CET lowercaseEuro = Ok tt.
Proof. repeat split; reflexivity. Qed.

(** C8 (amended: currency structural check).  For every record with a
    currency that satisfies the other rules, [validateInput] accepts the
    record iff the currency is the empty string or, once upper-cased,
    consists of exactly 3 letters A-Z; any other currency is rejected
    with the invalid-currency-code error.  For a currency of ASCII
    characters the condition is: exactly 3 letters, of either case. *)
Theorem currency_structural_check (tz : Z -> Z) (r : PayBySquareInput)
    (c : string) :
  currency r = Some c ->
  Spec.otherwiseValid tz Spec.CurrencyStructure r = true ->
  (Validator.validateInput tz r = Ok tt
   <-> c = "" \/ test reCurrency (toUpperCase c) = true)
  /\ (c <> "" -> test reCurrency (toUpperCase c) = false ->
      Validator.validateInput tz r
      = Throw (ValidationError ("Invalid currency code: " ++ c)))
  /\ (forallChars isAsciiChar c = true ->
      test reCurrency (toUpperCase c)
      = forallChars isLetter c && (len c =? 3)).
Proof.
  intros Hc Ho.
  rewrite validateInput_validate, (validate_otherwiseValid _ _ _ Ho).
  cbn [Spec.violated Spec.text]. rewrite Hc.
  fold (Validator.isValidCurrencyCode c).
  split; [|split].
  - destruct c as [|a c]; cbn [Spec.optional].
    + split; auto.
    + destruct (Validator.isValidCurrencyCode (String a c)); simpl;
        split; auto; intros H; try discriminate.
      destruct H; discriminate.
  - intros Hne Hf. destruct c as [|a c]; [congruence|].
    cbn [Spec.optional interpolate]. rewrite Hf. reflexivity.
  - intros _. apply isValidCurrencyCode_letters.
Qed.

Lemma currency_structural_check_witness :
  Validator.validateInput CET lowercaseEuro = Ok tt
  /\ test reCurrency (toUpperCase "eur") = true.
Proof.
  pose proof (currency_structural_check CET lowercaseEuro
                eq_refl eq_refl) as [H [_ L]].
  assert (E : test reCurrency (toUpperCase "eur") = true)
    by (rewrite (L eq_refl); reflexivity).
  split; [apply H; right; exact E|exact E].
Defined.

(** ** IBAN: stripped by the validator, raw in the compliance engine *)

Lemma removeSpaces_idempotent (s : string) :
  removeSpaces (removeSpaces s) = removeSpaces s.
Proof.
  induction s as [|c s IH]; simpl; [reflexivity|].
  destruct (isSpace c) eqn:E; simpl; rewrite ?E, IH; reflexivity.
Qed.



(** ** Cases of the test suite *)

Example test_missing_iban :
  Validator.validateInput CET
    (input None (Some "John Doe") None None None None None None None)
  = Throw (ValidationError "IBAN is required").
Proof. reflexivity. Qed.

Example test_missing_name :
  Validator.validateInput CET
    (input (Some sampleIban) None None None None None None None None)
  = Throw (ValidationError "Beneficiary name is required").
Proof. reflexivity. Qed.

Example test_invalid_iban :
  Validator.validateInput CET (minimal "INVALID" "John Doe")
  = Throw (ValidationError "Invalid IBAN format")
  /\ Validator.validateInput CET (minimal "SK96110000" "John Doe")
     = Throw (ValidationError "Invalid IBAN format").
Proof. split; reflexivity. Qed.

Example test_iban_with_spaces :
  Validator.validateInput CET (minimal spacedIban "John Doe") = Ok tt.
Proof. reflexivity. Qed.

Example test_negative_amount :
  Validator.validateInput CET
    (input (Some sampleIban) (Some "John Doe") (Some (-50)%float)
       None None None None None None)
  = Throw (ValidationError "Amount must be a positive number").
Proof. reflexivity. Qed.

Example test_infinite_amount :
  Validator.validateInput CET
    (input (Some sampleIban) (Some "John Doe") (Some infinity)
       None None None None None None)
  = Throw (ValidationError "Amount must be a finite number")
  /\ Validator.validateInput CET
       (input (Some sampleIban) (Some "John Doe") (Some neg_infinity)
          None None None None None None)
     = Throw (ValidationError "Amount must be a positive number")
  /\ Validator.validateInput CET
       (input (Some sampleIban) (Some "John Doe") (Some nan)
          None None None None None None)
     = Throw (ValidationError "Amount must be a finite number").
Proof. repeat split; reflexivity. Qed.

Example test_invalid_currency :
  Validator.validateInput CET
    (input (Some sampleIban) (Some "John Doe") None (Some "EURO")
       None None None None None)
  = Throw (ValidationError "Invalid currency code: EURO").
Proof. reflexivity. Qed.

Example test_invalid_symbols :
  Validator.validateInput CET
    (input (Some sampleIban) (Some "John Doe") None None
       (Some "12345678901") None None None None)
  = Throw (ValidationError "Variable symbol must be 1-10 digits")
  /\ Validator.validateInput CET
       (input (Some sampleIban) (Some "John Doe") None None
          (Some "ABC123") None None None None)
     = Throw (ValidationError "Variable symbol must be 1-10 digits")
  /\ Validator.validateInput CET
       (input (Some sampleIban) (Some "John Doe") None None
          None (Some "12345") None None None)
     = Throw (ValidationError "Constant symbol must be 1-4 digits")
  /\ Validator.validateInput CET
       (input (Some sampleIban) (Some "John Doe") None None
          None None (Some "12345678901") None None)
     = Throw (ValidationError "Specific symbol must be 1-10 digits").
Proof. repeat split; reflexivity. Qed.

Example test_note_too_long :
  Validator.validateInput CET
    (input (Some sampleIban) (Some "John Doe") None None None None None
       (Some (xs 141)) None)
  = Throw (ValidationError "Payment note cannot exceed 140 characters")
  /\ Validator.validateInput CET
       (input (Some sampleIban) (Some "John Doe") None None None None
          None (Some (xs 140)) None)
     = Ok tt.
Proof. split; reflexivity. Qed.

Example test_invalid_dates :
  Validator.validateInput CET
    (input (Some sampleIban) (Some "John Doe") None None None None None
       None (Some "2026/12/31"))
  = Throw (ValidationError
             "Due date must be in ISO 8601 format (YYYY-MM-DD)")
  /\ Validator.validateInput CET
       (input (Some sampleIban) (Some "John Doe") None None None None
          None None (Some "2026-02-30"))
     = Throw (ValidationError
                "Due date must be in ISO 8601 format (YYYY-MM-DD)").
Proof. split; reflexivity. Qed.

Example test_complete_valid_data :
  Validator.validateInput CET
    (input (Some sampleIban) (Some "Test Company") (Some 100.5%float)
       (Some "EUR") (Some "1234567890") (Some "0308")
       (Some "9876543210") (Some "Valid payment note")
       (Some "2026-12-31"))
  = Ok tt
  /\ Compliance.isCompliant checksumValid (fun _ => true)
       (fun c => String.eqb c "EUR")
       (input (Some sampleIban) (Some "Test Company") (Some 100.5%float)
          (Some "EUR") (Some "1234567890") (Some "0308")
          (Some "9876543210") (Some "Valid payment note")
          (Some "2026-12-31"))
     = Ok true.
Proof. split; vm_compute; reflexivity. Qed.

Example test_checksums :
  checksumValid "SK9611000000002918599669" = true
  /\ checksumValid "CZ6508000000192000145399" = true
  /\ checksumValid "DE89370400440532013000" = true
  /\ checksumValid "SK9999999999999999999999" = false
  /\ checksumValid "INVALID" = false.
Proof. repeat split; reflexivity. Qed.

Example test_unknown_currency_is_a_warning :
  exists rep,
    Compliance.checkCompliance checksumValid (fun _ => true)
      (fun c => String.eqb c "EUR")
      (input (Some sampleIban) (Some "Test") (Some 100%float)
         (Some "XXX") None None None None None)
    = Ok rep
    /\ isCompliant rep = true /\ errors rep = []
    /\ map field (warnings rep) = ["currency"]
    /\ totalIssues (details rep) = 1.
Proof. eexists. split; [reflexivity|]. repeat split. Qed.

Example test_exhaustive_compliance :
  exists rep,
    Compliance.checkCompliance checksumValid (fun _ => false)
      (fun c => String.eqb c "EUR")
      {| iban := Some "INVALID"; beneficiaryName := Some (xs 71);
         amount := Some (-100)%float; currency := None;
         variableSymbol := Some "ABC"; constantSymbol := None;
         specificSymbol := None; paymentNote := None; dueDate := None;
         swift := Some "BAD"; originatorReference := None;
         beneficiaryAddress := None |}
    = Ok rep
    /\ isCompliant rep = false
    /\ map field (errors rep)
       = ["iban"; "iban"; "beneficiaryName"; "variableSymbol"; "swift";
          "amount"].
Proof. eexists. split; [reflexivity|]. split; reflexivity. Qed.

(** ** Remarks on the edges of the model *)

(** Outside the input type the two entry points part: without [iban],
    [isCompliant] answers [false] and [checkCompliance] fails on
    [input.iban.replace]. *)
Remark entry_points_without_iban
    (isValidIBAN isValidBIC inCurrencyCode : string -> bool) :
  Compliance.isCompliant isValidIBAN isValidBIC inCurrencyCode
    (input None (Some "X") None None None None None None None)
  = Ok false
  /\ Compliance.checkCompliance isValidIBAN isValidBIC inCurrencyCode
       (input None (Some "X") None None None None None None None)
     = Throw TypeError.
Proof. split; reflexivity. Qed.

(** [new Date("YYYY-MM-DD")] is UTC midnight and the getters are local:
    on a host west of Greenwich (here UTC-5) the day read back is the
    day before, and a real date is refused. *)
Remark isValidISODate_west_of_greenwich :
  Validator.isValidISODate (fun _ => -18000000) "2026-12-31" = false
  /\ Validator.isValidISODate UTC "2026-12-31" = true
  /\ Validator.isValidISODate CET "2026-12-31" = true.
Proof. repeat split; reflexivity. Qed.

(** ** The calendar of [isValidISODate] *)

Lemma in_range (lo n : nat) (z : Z) :
  Z.of_nat lo <= z < Z.of_nat (lo + n) -> In z (map Z.of_nat (seq lo n)).
Proof.
  intros H. apply in_map_iff. exists (Z.to_nat z). split; [lia|].
  apply in_seq. lia.
Qed.

Lemma forallRange_entry (lo n : nat) (check : Z -> bool) (z : Z) :
  forallRange lo n check = true ->
  Z.of_nat lo <= z < Z.of_nat (lo + n) -> check z = true.
Proof.
  unfold forallRange. intros T H. rewrite forallb_forall in T.
  apply T. apply in_range. exact H.
Qed.

Lemma civil_steps (z : Z) :
  civil z
  = let era := (z + 719468) / 146097 in
    let doe := z + 719468 - era * 146097 in
    let yoe := yearOfEra doe in
    let doy := doe - yearStart yoe in
    let mp := (5 * doy + 2) / 153 in
    (if monthOf mp <=? 2 then yoe + era * 400 + 1 else yoe + era * 400,
     monthOf mp, doy - monthStart mp + 1).
Proof. reflexivity. Qed.

Lemma MakeDay_steps (y m d : Z) :
  MakeDay y m d
  = let y' := if m <=? 2 then y - 1 else y in
    let era := y' / 400 in
    let yoe := y' - era * 400 in
    era * 146097 + (yearStart yoe + monthStart ((m + 9) mod 12)) - 719468
    + (d - 1).
Proof.
  unfold MakeDay, yearStart, monthStart. cbv zeta.
  generalize (if m <=? 2 then y - 1 else y). intros y'.
  generalize (y' / 400). intros era.
  generalize ((y' - era * 400) / 4) ((y' - era * 400) / 100)
    ((153 * ((m + 9) mod 12) + 2) / 5).
  intros a b c. ring.
Qed.

(** [flatten] never decreases on the days of an era. *)
Lemma flatten_step (x : Z) :
  0 <= x < 146096 -> flatten x <= flatten (x + 1).
Proof.
  intros H. unfold flatten.
  pose proof (Z.div_mod x 1460 ltac:(discriminate)) as A1.
  pose proof (Z.mod_pos_bound x 1460 ltac:(reflexivity)) as A2.
  pose proof (Z.div_mod (x + 1) 1460 ltac:(discriminate)) as A3.
  pose proof (Z.mod_pos_bound (x + 1) 1460 ltac:(reflexivity)) as A4.
  pose proof (Z.div_mod x 36524 ltac:(discriminate)) as B1.
  pose proof (Z.mod_pos_bound x 36524 ltac:(reflexivity)) as B2.
  pose proof (Z.div_mod (x + 1) 36524 ltac:(discriminate)) as B3.
  pose proof (Z.mod_pos_bound (x + 1) 36524 ltac:(reflexivity)) as B4.
  pose proof (Z.div_mod x 146096 ltac:(discriminate)) as C1.
  pose proof (Z.mod_pos_bound x 146096 ltac:(reflexivity)) as C2.
  pose proof (Z.div_mod (x + 1) 146096 ltac:(discriminate)) as C3.
  pose proof (Z.mod_pos_bound (x + 1) 146096 ltac:(reflexivity)) as C4.
  revert A1 A2 A3 A4 B1 B2 B3 B4 C1 C2 C3 C4.
  generalize (x / 1460) (x mod 1460) ((x + 1) / 1460) ((x + 1) mod 1460)
    (x / 36524) (x mod 36524) ((x + 1) / 36524) ((x + 1) mod 36524)
    (x / 146096) (x mod 146096) ((x + 1) / 146096) ((x + 1) mod 146096).
  intros. lia.
Qed.

Lemma flatten_mono (a b : Z) :
  0 <= a <= b -> b <= 146096 -> flatten a <= flatten b.
Proof.
  intros Ha Hb.
  replace b with (a + Z.of_nat (Z.to_nat (b - a))) by lia.
  assert (Hn : a + Z.of_nat (Z.to_nat (b - a)) <= 146096) by lia.
  revert Hn. generalize (Z.to_nat (b - a)). intros n.
  induction n as [|n IH]; intros Hn.
  - rewrite Z.add_0_r. lia.
  - rewrite Nat2Z.inj_succ in *.
    replace (a + Z.succ (Z.of_nat n)) with (a + Z.of_nat n + 1) by lia.
    pose proof (@flatten_step (a + Z.of_nat n) ltac:(lia)) as S.
    assert (IH' : flatten a <= flatten (a + Z.of_nat n)) by (apply IH; lia).
    revert S IH'.
    generalize (flatten a) (flatten (a + Z.of_nat n))
      (flatten (a + Z.of_nat n + 1)).
    intros. lia.
Qed.

(** The years of an era, one by one: where a year starts and ends, and
    what [flatten] gives on its first and on its last day. *)
Lemma yearTable_true :
  forallRange 0 400
    (fun yoe =>
       (0 <=? yearStart yoe)
       && (yearStart yoe + yearLength yoe
           =? if yoe =? 399 then 146097 else yearStart (yoe + 1))
       && (yearStart yoe + yearLength yoe <=? 146097)
       && (365 * yoe <=? flatten (yearStart yoe))
       && (flatten (yearStart yoe + yearLength yoe - 1)
           <? 365 * yoe + 365))
  = true.
Proof. vm_compute. reflexivity. Qed.

Lemma yearTable_entry (yoe : Z) :
  0 <= yoe < 400 ->
  0 <= yearStart yoe
  /\ yearStart yoe + yearLength yoe
     = (if yoe =? 399 then 146097 else yearStart (yoe + 1))
  /\ yearStart yoe + yearLength yoe <= 146097
  /\ 365 * yoe <= flatten (yearStart yoe)
  /\ flatten (yearStart yoe + yearLength yoe - 1) < 365 * yoe + 365.
Proof.
  intros H.
  pose proof (@forallRange_entry 0 400 _ yoe yearTable_true
                ltac:(simpl; lia)) as T.
  cbv beta in T.
  revert T.
  generalize (yearStart yoe) (yearStart (yoe + 1)) (yearLength yoe).
  intros s s' l.
  generalize (flatten s) (flatten (s + l - 1)). intros f f' T.
  apply andb_prop in T. destruct T as [T T5].
  apply andb_prop in T. destruct T as [T T4].
  apply andb_prop in T. destruct T as [T T3].
  apply andb_prop in T. destruct T as [T1 T2].
  apply Z.leb_le in T1, T3, T4. apply Z.eqb_eq in T2.
  apply Z.ltb_lt in T5. auto.
Qed.

Lemma yearLength_bounds (yoe : Z) : 365 <= yearLength yoe <= 366.
Proof. unfold yearLength. destruct (isLeapYear (yoe + 1)); lia. Qed.

(** The year of a day of the era. *)
Lemma yearOfEra_year (yoe doe : Z) :
  0 <= yoe < 400 ->
  yearStart yoe <= doe < yearStart yoe + yearLength yoe ->
  yearOfEra doe = yoe.
Proof.
  intros Hy Hd.
  destruct (yearTable_entry Hy) as [T1 [_ [T3 [T4 T5]]]].
  pose proof (yearLength_bounds yoe) as B.
  revert Hd T1 T3 T4 T5 B.
  generalize (yearStart yoe) (yearLength yoe). intros s l Hd T1 T3 T4 T5 B.
  assert (L : flatten s <= flatten doe) by (apply flatten_mono; lia).
  assert (U : flatten doe <= flatten (s + l - 1))
    by (apply flatten_mono; lia).
  unfold yearOfEra. revert L U T4 T5.
  generalize (flatten s) (flatten (s + l - 1)) (flatten doe).
  intros f f' x L U T4 T5. symmetry.
  apply (Z.div_unique x 365 yoe (x - 365 * yoe)); lia.
Qed.

(** Every day of the era is in a year of the era. *)
Lemma yearStart_covers (doe : Z) :
  0 <= doe < 146097 ->
  exists yoe,
    0 <= yoe < 400
    /\ yearStart yoe <= doe < yearStart yoe + yearLength yoe.
Proof.
  intros H.
  assert (G : forall n : nat,
            (n <= 399)%nat -> doe < yearStart (Z.of_nat n) ->
            exists yoe,
              0 <= yoe < Z.of_nat n
              /\ yearStart yoe <= doe < yearStart yoe + yearLength yoe).
  { induction n as [|n IH]; intros Hn Hlt.
    - change (yearStart (Z.of_nat 0)) with 0 in Hlt. lia.
    - rewrite Nat2Z.inj_succ in *. unfold Z.succ in Hlt.
      destruct (Z.lt_ge_cases doe (yearStart (Z.of_nat n))) as [C|C].
      + destruct (IH ltac:(lia) C) as [yoe [Hy Hd]].
        exists yoe. split; [lia|exact Hd].
      + exists (Z.of_nat n). split; [lia|]. split; [exact C|].
        destruct (@yearTable_entry (Z.of_nat n) ltac:(lia))
          as [_ [T2 _]].
        replace (Z.of_nat n =? 399) with false in T2
          by (symmetry; apply Z.eqb_neq; lia).
        rewrite T2. exact Hlt. }
  destruct (Z.lt_ge_cases doe (yearStart 399)) as [C|C].
  - destruct (G 399%nat (le_n _) C) as [yoe [Hy Hd]].
    exists yoe. split; [|exact Hd]. lia.
  - exists 399. split; [lia|]. split; [exact C|].
    destruct (@yearTable_entry 399 ltac:(lia)) as [_ [T2 _]].
    change (399 =? 399) with true in T2. cbv iota in T2.
    rewrite T2. lia.
Qed.

(** The days of a year that starts on 1 March, one by one: the month
    and the day of the month that [civil] reads. *)
Lemma dayTable_true :
  forallRange 0 366
    (fun doy =>
       let mp := (5 * doy + 2) / 153 in
       let m := monthOf mp in
       let d := doy - monthStart mp + 1 in
       (1 <=? m) && (m <=? 12) && ((m + 9) mod 12 =? mp) && (1 <=? d)
       && if doy =? 365 then (m =? 2) && (d =? 29)
          else (d <=? daysInMonth 1 m) && (d <=? daysInMonth 4 m))
  = true.
Proof. vm_compute. reflexivity. Qed.

(** The months and their days, one by one: the day of the year that
    [MakeDay] counts, and the month that [civil] reads from it. *)
Lemma monthTable_true :
  forallRange 1 12
    (fun m =>
       forallRange 1 31
         (fun d =>
            let mp := (m + 9) mod 12 in
            let doy := monthStart mp + d - 1 in
            let back :=
              ((5 * doy + 2) / 153 =? mp) && (monthOf mp =? m)
              && (0 <=? doy) in
            implb (d <=? daysInMonth 1 m) (back && (doy <=? 364))
            && implb (d <=? daysInMonth 4 m)
                 (back
                  && ((doy <=? 364) || (m <=? 2) && (doy =? 365)))))
  = true.
Proof. vm_compute. reflexivity. Qed.

Lemma dayTable_entry (doy : Z) :
  0 <= doy < 366 ->
  let mp := (5 * doy + 2) / 153 in
  let m := monthOf mp in
  let d := doy - monthStart mp + 1 in
  1 <= m <= 12 /\ (m + 9) mod 12 = mp /\ 1 <= d
  /\ (doy = 365 -> m = 2 /\ d = 29)
  /\ (doy <> 365 -> d <= daysInMonth 1 m /\ d <= daysInMonth 4 m).
Proof.
  intros H.
  pose proof (@forallRange_entry 0 366 _ doy dayTable_true
                ltac:(simpl; lia)) as T.
  cbv beta zeta in T. cbv zeta. revert T.
  generalize ((5 * doy + 2) / 153). intros mp.
  generalize (monthStart mp) (monthOf mp). intros s m.
  generalize ((m + 9) mod 12) (daysInMonth 1 m) (daysInMonth 4 m).
  intros r l1 l4 T.
  apply andb_prop in T. destruct T as [T T5].
  apply andb_prop in T. destruct T as [T T4].
  apply andb_prop in T. destruct T as [T T3].
  apply andb_prop in T. destruct T as [T1 T2].
  apply Z.leb_le in T1, T2, T4. apply Z.eqb_eq in T3.
  split; [lia|]. split; [exact T3|]. split; [exact T4|].
  destruct (Z.eqb_spec doy 365) as [E|E].
  - apply andb_prop in T5. destruct T5 as [A B].
    apply Z.eqb_eq in A, B. split; [auto|contradiction].
  - apply andb_prop in T5. destruct T5 as [A B].
    apply Z.leb_le in A, B. split; [contradiction|auto].
Qed.

Lemma monthTable_entry (m d : Z) :
  1 <= m <= 12 -> 1 <= d <= 31 ->
  let mp := (m + 9) mod 12 in
  let doy := monthStart mp + d - 1 in
  (d <= daysInMonth 1 m ->
   (5 * doy + 2) / 153 = mp /\ monthOf mp = m /\ 0 <= doy <= 364)
  /\ (d <= daysInMonth 4 m ->
      (5 * doy + 2) / 153 = mp /\ monthOf mp = m
      /\ (0 <= doy <= 364 \/ m <= 2 /\ doy = 365)).
Proof.
  intros Hm Hd.
  pose proof (@forallRange_entry 1 12 _ m monthTable_true
                ltac:(simpl; lia)) as T.
  cbv beta in T.
  pose proof (@forallRange_entry 1 31 _ d T ltac:(simpl; lia)) as T'.
  clear T. cbv beta zeta in T'. cbv zeta. revert T'.
  generalize ((m + 9) mod 12). intros mp.
  generalize (monthStart mp) (monthOf mp) (daysInMonth 1 m)
    (daysInMonth 4 m).
  intros s m' l1 l4.
  generalize ((5 * (s + d - 1) + 2) / 153). intros q T.
  apply andb_prop in T. destruct T as [T1 T2]. split.
  - intros L. apply Z.leb_le in L. rewrite L in T1. cbn [implb] in T1.
    apply andb_prop in T1. destruct T1 as [T1 A].
    apply andb_prop in T1. destruct T1 as [T1 B].
    apply andb_prop in T1. destruct T1 as [C D].
    apply Z.eqb_eq in C, D. apply Z.leb_le in A, B. auto.
  - intros L. apply Z.leb_le in L. rewrite L in T2. cbn [implb] in T2.
    apply andb_prop in T2. destruct T2 as [T2 A].
    apply andb_prop in T2. destruct T2 as [T2 B].
    apply andb_prop in T2. destruct T2 as [C D].
    apply Z.eqb_eq in C, D. apply Z.leb_le in B.
    split; [exact C|]. split; [exact D|].
    apply orb_prop in A. destruct A as [A|A].
    + apply Z.leb_le in A. left. lia.
    + apply andb_prop in A. destruct A as [A1 A2].
      apply Z.leb_le in A1. apply Z.eqb_eq in A2. right. auto.
Qed.

Lemma isLeapYear_period (y q : Z) : isLeapYear (y + 400 * q) = isLeapYear y.
Proof.
  unfold isLeapYear.
  replace (y + 400 * q) with (y + (100 * q) * 4) at 1 by ring.
  replace (y + 400 * q) with (y + (4 * q) * 100) at 1 by ring.
  replace (y + 400 * q) with (y + q * 400) by ring.
  rewrite !Z.mod_add by discriminate. reflexivity.
Qed.

Lemma daysInMonth_leap (y m : Z) :
  daysInMonth y m
  = if isLeapYear y then daysInMonth 4 m else daysInMonth 1 m.
Proof. unfold daysInMonth. destruct (isLeapYear y); reflexivity. Qed.

Lemma daysInMonth_bounds (y m : Z) :
  (1 <= m <= 12 -> 28 <= daysInMonth y m <= 31)
  /\ (~ 1 <= m <= 12 -> daysInMonth y m = 0).
Proof.
  unfold daysInMonth. split; intros H.
  - destruct m as [|[[[[|[]|]|[]|]|[[]|[]|]|]|[[[]|[]|]|[[]|[]|]|]|]|];
      try lia; destruct (isLeapYear y); lia.
  - destruct m as [|[[[[|[]|]|[]|]|[[]|[]|]|]|[[[]|[]|]|[[]|[]|]|]|]|];
      try reflexivity; lia.
Qed.

(** [civil] on a day given by its era, its year of the era and its day
    of the year. *)
Lemma civil_of_day (era yoe doy : Z) :
  0 <= yoe < 400 ->
  0 <= doy < yearLength yoe ->
  civil (era * 146097 + (yearStart yoe + doy) - 719468)
  = (if monthOf ((5 * doy + 2) / 153) <=? 2
     then yoe + era * 400 + 1 else yoe + era * 400,
     monthOf ((5 * doy + 2) / 153),
     doy - monthStart ((5 * doy + 2) / 153) + 1).
Proof.
  intros Hy Hd. rewrite civil_steps. cbv zeta.
  destruct (yearTable_entry Hy) as [T1 [_ [T3 _]]].
  assert (Y : yearOfEra (yearStart yoe + doy) = yoe).
  { apply (yearOfEra_year Hy). revert Hd.
    generalize (yearStart yoe) (yearLength yoe). intros. lia. }
  assert (B : 0 <= yearStart yoe + doy < 146097).
  { revert T1 T3 Hd. generalize (yearStart yoe) (yearLength yoe).
    intros. lia. }
  remember (yearStart yoe + doy) as D eqn:E.
  replace (era * 146097 + D - 719468 + 719468) with (D + era * 146097)
    by ring.
  rewrite Z.div_add by discriminate.
  rewrite (Z.div_small D 146097) by exact B.
  replace (D + era * 146097 - (0 + era) * 146097) with D by ring.
  rewrite Y.
  replace (D - yearStart yoe) with doy by (rewrite E; ring).
  rewrite Z.add_0_l. reflexivity.
Qed.

(** Every day number is a day of a year of an era. *)
Lemma day_parts (z : Z) :
  exists era yoe doy,
    0 <= yoe < 400 /\ 0 <= doy < yearLength yoe
    /\ z = era * 146097 + (yearStart yoe + doy) - 719468.
Proof.
  pose proof (Z.div_mod (z + 719468) 146097 ltac:(discriminate)) as E.
  pose proof (Z.mod_pos_bound (z + 719468) 146097 ltac:(reflexivity)) as B.
  revert E B.
  generalize ((z + 719468) / 146097) ((z + 719468) mod 146097).
  intros era doe E B.
  destruct (yearStart_covers B) as [yoe [Hy Hd]].
  exists era, yoe, (doe - yearStart yoe). split; [exact Hy|].
  revert Hd. generalize (yearStart yoe) (yearLength yoe).
  intros s l Hd. split; lia.
Qed.

(** [MakeDay] from the era and the year of the era of the year that
    starts on 1 March. *)
Lemma MakeDay_of_day (era yoe y m d : Z) :
  0 <= yoe < 400 ->
  (if m <=? 2 then y - 1 else y) = yoe + era * 400 ->
  MakeDay y m d
  = era * 146097
    + (yearStart yoe + (monthStart ((m + 9) mod 12) + d - 1)) - 719468.
Proof.
  intros Hy E. rewrite MakeDay_steps. cbv zeta. rewrite E.
  rewrite Z.div_add by discriminate.
  rewrite (Z.div_small yoe 400) by exact Hy.
  replace (yoe + era * 400 - (0 + era) * 400) with yoe by ring.
  generalize (yearStart yoe) (monthStart ((m + 9) mod 12)).
  intros s t. ring.
Qed.

(** A day of the calendar is read back as it was written. *)
Lemma civil_MakeDay_valid (y m d : Z) :
  1 <= m <= 12 -> 1 <= d <= daysInMonth y m ->
  civil (MakeDay y m d) = (y, m, d).
Proof.
  intros Hm Hd.
  pose proof (proj1 (daysInMonth_bounds y m) Hm) as Bd.
  pose proof (Z.div_mod (if m <=? 2 then y - 1 else y) 400
                ltac:(discriminate)) as E.
  pose proof (Z.mod_pos_bound (if m <=? 2 then y - 1 else y) 400
                ltac:(reflexivity)) as Hy.
  revert E Hy.
  generalize ((if m <=? 2 then y - 1 else y) / 400)
    ((if m <=? 2 then y - 1 else y) mod 400).
  intros era yoe E Hy.
  assert (E' : (if m <=? 2 then y - 1 else y) = yoe + era * 400)
    by (rewrite E; ring).
  clear E. rewrite (@MakeDay_of_day era yoe y m d Hy E').
  destruct (@monthTable_entry m d Hm ltac:(lia)) as [I1 I2].
  cbv zeta in I1, I2.
  assert (F : (5 * (monthStart ((m + 9) mod 12) + d - 1) + 2) / 153
              = (m + 9) mod 12
              /\ monthOf ((m + 9) mod 12) = m
              /\ 0 <= monthStart ((m + 9) mod 12) + d - 1
                 < yearLength yoe).
  { pose proof (yearLength_bounds yoe) as Bl.
    rewrite daysInMonth_leap in Hd.
    destruct (isLeapYear y) eqn:Ly.
    - destruct (I2 ltac:(lia)) as [A [B C]].
      split; [exact A|]. split; [exact B|].
      destruct C as [C|[C1 C2]]; [lia|].
      assert (Lm : (m <=? 2) = true) by (apply Z.leb_le; exact C1).
      rewrite Lm in E'.
      assert (Ly' : isLeapYear (yoe + 1) = true).
      { rewrite <- (isLeapYear_period (yoe + 1) era).
        replace (yoe + 1 + 400 * era) with y by lia. exact Ly. }
      unfold yearLength. rewrite Ly'. lia.
    - destruct (I1 ltac:(lia)) as [A [B C]].
      split; [exact A|]. split; [exact B|]. lia. }
  destruct F as [F1 [F2 F3]].
  rewrite (@civil_of_day era yoe _ Hy F3). rewrite F1, F2.
  f_equal; [f_equal|].
  - destruct (m <=? 2); lia.
  - ring.
Qed.

(** What [civil] reads is a day of the calendar, and [MakeDay] gives
    back the day number. *)
Lemma civil_inv (z y m d : Z) :
  civil z = (y, m, d) ->
  1 <= m <= 12 /\ 1 <= d <= daysInMonth y m /\ MakeDay y m d = z.
Proof.
  destruct (day_parts z) as [era [yoe [doy [Hy [Hd ->]]]]].
  rewrite (@civil_of_day era yoe doy Hy Hd).
  pose proof (yearLength_bounds yoe) as Bl.
  destruct (@dayTable_entry doy ltac:(lia)) as [T1 [T2 [T3 [T4 T5]]]].
  cbv zeta in T1, T2, T3, T4, T5. revert T1 T2 T3 T4 T5.
  generalize ((5 * doy + 2) / 153). intros mp T1 T2 T3 T4 T5 H.
  injection H as Ey Em Ed. rewrite Em in *. clear Em.
  split; [exact T1|].
  assert (Y : (if m <=? 2 then y - 1 else y) = yoe + era * 400).
  { rewrite <- Ey. destruct (m <=? 2); ring. }
  split; [split|].
  - rewrite <- Ed. exact T3.
  - rewrite daysInMonth_leap.
    destruct (Z.eq_dec doy 365) as [E|E].
    + destruct (T4 E) as [M D]. subst m.
      change (2 <=? 2) with true in Y, Ey. cbv iota in Y, Ey.
      assert (Ly : isLeapYear (yoe + 1) = true).
      { unfold yearLength in Hd.
        destruct (isLeapYear (yoe + 1)); [reflexivity|lia]. }
      assert (Ly' : isLeapYear y = true).
      { rewrite <- Ey.
        replace (yoe + era * 400 + 1) with (yoe + 1 + 400 * era) by ring.
        rewrite isLeapYear_period. exact Ly. }
      rewrite Ly'. rewrite <- Ed, D. discriminate.
    + destruct (T5 E) as [D1 D4]. rewrite <- Ed.
      destruct (isLeapYear y); assumption.
  - rewrite (@MakeDay_of_day era yoe y m d Hy Y). rewrite T2. rewrite <- Ed.
    generalize (yearStart yoe) (monthStart mp). intros s t. ring.
Qed.

Lemma sameDate_true (a : Z * Z * Z) (y m d : Z) :
  sameDate a (y, m, d) = true <-> a = (y, m, d).
Proof.
  destruct a as [[a b] c]. unfold sameDate. cbn [fst snd].
  rewrite !andb_true_iff, !Z.eqb_eq. split.
  - intros [[-> ->] ->]. reflexivity.
  - intros H. inversion H. auto.
Qed.

(** The calendar of the [Date] model: a day written and read back is
    the same day exactly for the days of the calendar, and the day
    before a day is never that day. *)
Lemma civil_MakeDay (y m d : Z) :
  1 <= m <= 12 -> 1 <= d <= 31 ->
  sameDate (civil (MakeDay y m d)) (y, m, d) = (d <=? daysInMonth y m)
  /\ sameDate (civil (MakeDay y m d - 1)) (y, m, d) = false.
Proof.
  intros Hm Hd. split.
  - destruct (Z.leb_spec d (daysInMonth y m)) as [L|L].
    + apply sameDate_true. apply civil_MakeDay_valid; lia.
    + apply not_true_is_false. intros H. apply sameDate_true in H.
      apply civil_inv in H. lia.
  - apply not_true_is_false. intros H. apply sameDate_true in H.
    apply civil_inv in H. destruct H as [_ [_ H]]. revert H.
    generalize (MakeDay y m d). intros z H. lia.
Qed.

Lemma Day_east (tz : Z -> Z) (n : Z) :
  (forall t, 0 <= tz t < msPerDay) ->
  Day (LocalTime tz (n * msPerDay)) = n.
Proof.
  intros H. unfold Day, LocalTime. specialize (H (n * msPerDay)).
  revert H. generalize (tz (n * msPerDay)). unfold msPerDay. intros o H.
  symmetry. apply (Z.div_unique _ _ n o); lia.
Qed.

Lemma Day_west (tz : Z -> Z) (n : Z) :
  (forall t, - msPerDay <= tz t < 0) ->
  Day (LocalTime tz (n * msPerDay)) = n - 1.
Proof.
  intros H. unfold Day, LocalTime. specialize (H (n * msPerDay)).
  revert H. generalize (tz (n * msPerDay)). unfold msPerDay. intros o H.
  symmetry. apply (Z.div_unique _ _ (n - 1) (o + 86400000)); lia.
Qed.

(** What the getters give for the date that [newDate] builds. *)
Lemma getters_sameDate (tz : Z -> Z) (t y m d : Z) :
  (getFullYear tz t =? y) && (getMonth1 tz t =? m) && (getDate tz t =? d)
  = sameDate (civil (Day (LocalTime tz t))) (y, m, d).
Proof.
  unfold getFullYear, getMonth1, getDate.
  generalize (civil (Day (LocalTime tz t))). intros c. reflexivity.
Qed.

Lemma isValidISODate_newDate (tz : Z -> Z) (s : string) :
  Validator.isValidISODate tz s
  = test reISODate s
    && let y := parseInt (group 0 4 s) in
       let m := parseInt (group 5 2 s) in
       let d := parseInt (group 8 2 s) in
       (1 <=? m) && (m <=? 12) && (1 <=? d) && (d <=? 31)
       && sameDate (civil (Day (LocalTime tz (MakeDay y m d * msPerDay))))
            (y, m, d).
Proof.
  unfold Validator.isValidISODate, newDate. cbv zeta.
  generalize (parseInt (group 0 4 s)) (parseInt (group 5 2 s))
    (parseInt (group 8 2 s)).
  intros y m d.
  destruct (test reISODate s); [|reflexivity].
  rewrite andb_true_l. cbn [negb]. cbv beta iota.
  destruct ((1 <=? m) && (m <=? 12) && (1 <=? d) && (d <=? 31));
    cbv beta iota; [|reflexivity].
  rewrite andb_true_l. apply getters_sameDate.
Qed.

(** X1.  On a host at or east of Greenwich (an offset from 0 to less
    than a day), [isValidISODate] accepts exactly the strings
    [YYYY-MM-DD] that name a day of the Gregorian calendar: a month from
    1 to 12 and a day from 1 to the length of that month, 29 February
    in leap years only. *)
Theorem isValidISODate_calendar (tz : Z -> Z) (s : string) :
  (forall t, 0 <= tz t < msPerDay) ->
  Validator.isValidISODate tz s = isCalendarDate s.
Proof.
  intros Htz. rewrite isValidISODate_newDate. unfold isCalendarDate.
  cbv zeta.
  generalize (parseInt (group 0 4 s)) (parseInt (group 5 2 s))
    (parseInt (group 8 2 s)).
  intros y m d. destruct (test reISODate s); [|reflexivity].
  rewrite !andb_true_l, Day_east by assumption.
  pose proof (daysInMonth_bounds y m) as [Bin Bout].
  destruct (Z.leb_spec 1 m) as [M1|M1];
    destruct (Z.leb_spec m 12) as [M2|M2];
    destruct (Z.leb_spec 1 d) as [D1|D1];
    destruct (Z.leb_spec d 31) as [D2|D2];
    cbn [andb]; try reflexivity;
    try (symmetry; apply Z.leb_gt; lia).
  destruct (@civil_MakeDay y m d (conj M1 M2) (conj D1 D2)) as [T1 _].
  rewrite T1. reflexivity.
Qed.

Lemma isValidISODate_calendar_witness :
  Validator.isValidISODate CET "2024-02-29" = isCalendarDate "2024-02-29"
  /\ isCalendarDate "2024-02-29" = true
  /\ isCalendarDate "2026-02-29" = false.
Proof.
  split; [|split; reflexivity].
  apply (isValidISODate_calendar CET).
  intros t. unfold CET, msPerDay. lia.
Defined.

(** X2.  On a host west of Greenwich (a negative offset of at most a
    day) [isValidISODate] refuses every string: the date is built at
    UTC midnight and read back in local time, a day earlier. *)
Theorem isValidISODate_west (tz : Z -> Z) (s : string) :
  (forall t, - msPerDay <= tz t < 0) ->
  Validator.isValidISODate tz s = false.
Proof.
  intros Htz. rewrite isValidISODate_newDate. cbv zeta.
  generalize (parseInt (group 0 4 s)) (parseInt (group 5 2 s))
    (parseInt (group 8 2 s)).
  intros y m d. rewrite Day_west by assumption.
  destruct (test reISODate s); [|reflexivity]. rewrite andb_true_l.
  destruct (Z.leb_spec 1 m) as [M1|M1];
    destruct (Z.leb_spec m 12) as [M2|M2];
    destruct (Z.leb_spec 1 d) as [D1|D1];
    destruct (Z.leb_spec d 31) as [D2|D2];
    cbn [andb]; try reflexivity.
  destruct (@civil_MakeDay y m d (conj M1 M2) (conj D1 D2)) as [_ T2].
  rewrite T2. reflexivity.
Qed.

Lemma isValidISODate_west_witness :
  Validator.isValidISODate (fun _ => -18000000) "2026-12-31" = false.
Proof.
  apply (isValidISODate_west (fun _ => -18000000)).
  intros t. unfold msPerDay. lia.
Defined.

(** ** What the validator accepts *)

Lemma validateInput_accepts (tz : Z -> Z) (r : PayBySquareInput) :
  Validator.validateInput tz r = Ok tt ->
  forall k, Spec.violated tz k r = false.
Proof.
  rewrite validateInput_validate. unfold Spec.validate, Spec.firstViolation.
  intros H k.
  destruct (find (fun k' => Spec.violated tz k' r) Spec.order) eqn:E;
    [discriminate|].
  apply (find_none _ _ E k). destruct k; simpl; tauto.
Qed.

Lemma matchRep_bounds (p : ascii -> bool) (k : string -> bool)
    (n1 n2 : nat) :
  (forall t, k t = true -> (n1 <= String.length t <= n2)%nat) ->
  forall most least s,
    matchRep p k least most s = true ->
    (least + n1 <= String.length s <= most + n2)%nat.
Proof.
  intros Hk most.
  induction most as [|most IH]; intros least s; simpl; intros H.
  - apply andb_prop in H. destruct H as [H0 H].
    apply Nat.eqb_eq in H0. apply Hk in H. lia.
  - apply orb_prop in H. destruct H as [H|H].
    + apply andb_prop in H. destruct H as [H0 H].
      apply Nat.eqb_eq in H0. apply Hk in H. lia.
    + destruct s as [|c s]; [discriminate|].
      apply andb_prop in H. destruct H as [_ H].
      apply IH in H. simpl. lia.
Qed.

(** A string that matches has a length between the sum of the lower
    bounds and the sum of the upper bounds of the pattern. *)
Lemma test_bounds (re : list Item) (s : string) :
  test re s = true ->
  (list_sum (map lo re) <= String.length s <= list_sum (map hi re))%nat.
Proof.
  revert s. induction re as [|i re IH]; intros s; simpl; intros H.
  - destruct s; [simpl; lia|discriminate].
  - apply (@matchRep_bounds (cls i) (test re) _ _ IH) in H. lia.
Qed.

Lemma isValidIBAN_length (s : string) :
  Validator.isValidIBAN s = true -> 15 <= len (removeSpaces s) <= 34.
Proof.
  unfold Validator.isValidIBAN. intros H. apply test_bounds in H.
  unfold len. simpl in H. lia.
Qed.

Lemma isValidISODate_grammar (tz : Z -> Z) (s : string) :
  Validator.isValidISODate tz s = true -> test reISODate s = true.
Proof.
  unfold Validator.isValidISODate.
  destruct (test reISODate s); [reflexivity|discriminate].
Qed.

Lemma optional_false_weaken (o : option string) (p q : string -> bool) :
  (forall s, p s = true -> q s = true) ->
  Spec.optional o p = false -> Spec.optional o q = false.
Proof.
  intros H. destruct o as [[|c s]|]; simpl; try reflexivity.
  intros E. apply negb_false_iff in E. apply H in E. rewrite E. reflexivity.
Qed.

(** No field-format issue for a record that violates no rule of the
    validator. *)
Lemma validateFieldFormats_of_rules (tz : Z -> Z) (r : PayBySquareInput) :
  (forall k, Spec.violated tz k r = false) ->
  Compliance.validateFieldFormats r = Ok [].
Proof.
  intros V.
  pose proof (V Spec.IbanPresent) as V1.
  pose proof (V Spec.NamePresent) as V2.
  pose proof (V Spec.IbanStructure) as V3.
  pose proof (V Spec.VariableSymbolFormat) as V4.
  pose proof (V Spec.ConstantSymbolFormat) as V5.
  pose proof (V Spec.SpecificSymbolFormat) as V6.
  pose proof (V Spec.PaymentNoteLength) as V7.
  pose proof (V Spec.NameLength) as V8.
  pose proof (V Spec.StreetLength) as V9.
  pose proof (V Spec.CityLength) as V10.
  pose proof (V Spec.DueDateGrammar) as V11.
  clear V. cbn [Spec.violated] in *.
  apply (@optional_false_weaken _ _ (test reISODate)
           (isValidISODate_grammar tz)) in V11.
  unfold Compliance.validateFieldFormats.
  rewrite !andThen_optional, !andThen_longer.
  rewrite V4, V5, V6, V7, V9, V10, V11.
  destruct (iban r) as [ib|]; [|discriminate V1].
  destruct (beneficiaryName r) as [nm|]; [|discriminate V2].
  cbn [deref bind]. apply negb_false_iff in V3, V8.
  apply isValidIBAN_length in V3. apply Z.leb_le in V8.
  replace (len (removeSpaces ib) <? 15) with false
    by (symmetry; apply Z.ltb_ge; lia).
  replace (34 <? len (removeSpaces ib)) with false
    by (symmetry; apply Z.ltb_ge; lia).
  replace (70 <? len nm) with false by (symmetry; apply Z.ltb_ge; lia).
  reflexivity.
Qed.

(** X3.  The validator is at least as strict as the field-format group
    of the compliance engine: a record that [validateInput] accepts
    raises no field-format issue at all (in particular its IBAN has 15 to
    34 characters once the whitespace is removed). *)
Theorem validated_has_no_field_issue (tz : Z -> Z) (r : PayBySquareInput) :
  Validator.validateInput tz r = Ok tt ->
  Compliance.validateFieldFormats r = Ok [].
Proof.
  intros H. apply (@validateFieldFormats_of_rules tz).
  apply (@validateInput_accepts _ _ H).
Qed.

Lemma validated_has_no_field_issue_witness :
  Compliance.validateFieldFormats (minimal spacedIban "John Doe") = Ok [].
Proof.
  apply (validated_has_no_field_issue CET). reflexivity.
Defined.

(** ** More on the compliance engine *)

Lemma filter_pushIf (p : ComplianceIssue -> bool) (c : bool)
    (x : ComplianceIssue) (l : list ComplianceIssue) :
  filter p (Compliance.pushIf c x l)
  = (filter p l ++ if c && p x then [x] else [])%list.
Proof.
  unfold Compliance.pushIf. destruct c; simpl.
  - rewrite filter_app. simpl. destruct (p x); reflexivity.
  - rewrite app_nil_r. reflexivity.
Qed.

(** The field-format group raises errors only. *)
Lemma validateFieldFormats_errors (r : PayBySquareInput)
    (f : list ComplianceIssue) :
  Compliance.validateFieldFormats r = Ok f ->
  filter (fun i => negb (isError i)) f = [].
Proof.
  unfold Compliance.validateFieldFormats.
  destruct (iban r); [|discriminate].
  destruct (beneficiaryName r); [|discriminate].
  cbn [deref bind]. intros H. inversion H; subst f; clear H.
  rewrite !filter_pushIf. cbn [isError type negb].
  rewrite !andb_false_r. reflexivity.
Qed.

Section Banking.
Variable isValidBIC inCurrencyCode : string -> bool.

(** The errors of the banking-standards group do not depend on the
    currency, and its warnings on nothing else. *)
Lemma validateBankingStandards_split (r : PayBySquareInput) :
  filter isError
    (Compliance.validateBankingStandards isValidBIC inCurrencyCode r)
  = ((if andThen (swift r) (fun s => negb (isValidBIC s))
      then [swiftIssue] else [])
     ++ match amount r with
        | Some a =>
            (if ltb a 0
             then [{| type := error; field := "amount";
                      message := "Amount must be positive";
                      severity := critical |}] else [])
            ++ (if ltb 999999999999999 a then [amountMaximumIssue] else [])
            ++ (if negb (is_finite a)
                then [{| type := error; field := "amount";
                         message := "Amount must be a finite number";
                         severity := critical |}] else [])
        | None => []
        end)%list
  /\ filter (fun i => negb (isError i))
       (Compliance.validateBankingStandards isValidBIC inCurrencyCode r)
     = if andThen (currency r)
            (fun c => negb (inCurrencyCode (toUpperCase c)))
       then [currencyWarning] else [].
Proof.
  unfold Compliance.validateBankingStandards.
  destruct (amount r) as [a|]; rewrite !filter_pushIf;
    cbn [isError type negb filter];
    rewrite ?andb_false_r, ?andb_true_r, ?app_nil_r, ?app_nil_l;
    cbn [app]; rewrite ?app_nil_r, <- ?app_assoc; split; reflexivity.
Qed.
End Banking.

(** X4.  In every report of [checkCompliance] the errors are issues of
    type [error] and the only possible warning is the one for a currency
    outside the table: there is at most one warning, and it is there
    exactly when a non-empty currency is not, in upper case, in the
    table. *)
Theorem report_classification
    (isValidIBAN isValidBIC inCurrencyCode : string -> bool)
    (r : PayBySquareInput) (rep : ComplianceResult) :
  Compliance.checkCompliance isValidIBAN isValidBIC inCurrencyCode r
  = Ok rep ->
  (forall i, In i (errors rep) -> type i = error)
  /\ warnings rep
     = if andThen (currency r)
            (fun c => negb (inCurrencyCode (toUpperCase c)))
       then [currencyWarning] else [].
Proof.
  intros H.
  destruct (Compliance.validateFieldFormats r) as [f|e] eqn:Hf.
  2:{ unfold Compliance.checkCompliance in H. rewrite Hf in H.
      discriminate H. }
  destruct (checkCompliance_report isValidIBAN isValidBIC inCurrencyCode
              r Hf) as [rep' [Hc [He [Hw _]]]].
  rewrite H in Hc. inversion Hc; subst rep'; clear Hc.
  split.
  - intros i Hi. rewrite He in Hi.
    assert (E : isError i = true).
    { apply in_app_or in Hi. destruct Hi as [Hi|Hi].
      - unfold Compliance.validateIBANChecksum in Hi.
        destruct (negb _); [|destruct Hi].
        destruct Hi as [<-|[]]. reflexivity.
      - apply in_app_or in Hi.
        destruct Hi as [Hi|Hi]; apply filter_In in Hi; apply Hi. }
    unfold isError in E. destruct (type i); [reflexivity|discriminate].
  - rewrite Hw, (validateFieldFormats_errors r Hf).
    apply (validateBankingStandards_split isValidBIC inCurrencyCode r).
Qed.

Lemma report_classification_witness :
  exists rep,
    Compliance.checkCompliance checksumValid (fun _ => true)
      (fun c => String.eqb c "EUR")
      (input (Some sampleIban) (Some "Test") (Some 100%float)
         (Some "xxx") None None None None None)
    = Ok rep
    /\ warnings rep = [currencyWarning] /\ errors rep = [].
Proof.
  eexists. split; [reflexivity|].
  split; [|reflexivity].
  apply (@report_classification checksumValid (fun _ => true)
           (fun c => String.eqb c "EUR")
           (input (Some sampleIban) (Some "Test") (Some 100%float)
              (Some "xxx") None None None None None)).
  reflexivity.
Defined.

(** X5.  The verdict of [isCompliant] does not depend on the currency
    of the record: whatever string replaces it, or its removal, leaves
    the answer as it was. *)
Theorem isCompliant_ignores_currency
    (isValidIBAN isValidBIC inCurrencyCode : string -> bool)
    (r : PayBySquareInput) (c : option string) :
  Compliance.isCompliant isValidIBAN isValidBIC inCurrencyCode
    (withCurrency c r)
  = Compliance.isCompliant isValidIBAN isValidBIC inCurrencyCode r.
Proof.
  unfold Compliance.isCompliant.
  change (iban (withCurrency c r)) with (iban r).
  change (Compliance.validateFieldFormats (withCurrency c r))
    with (Compliance.validateFieldFormats r).
  destruct (negb _); [reflexivity|].
  destruct (Compliance.validateFieldFormats r) as [f|e]; [|reflexivity].
  cbn [bind app]. rewrite !filter_app.
  rewrite (proj1 (validateBankingStandards_split isValidBIC
                    inCurrencyCode (withCurrency c r))).
  rewrite (proj1 (validateBankingStandards_split isValidBIC
                    inCurrencyCode r)).
  reflexivity.
Qed.

(** X6.  For a record that [validateInput] accepts, [checkCompliance]
    returns a report, and its errors can only be the IBAN checksum
    error, the BIC/SWIFT error and the amount-maximum error: the three
    checks the validator does not make. *)
Theorem validated_compliance_errors (tz : Z -> Z)
    (isValidIBAN isValidBIC inCurrencyCode : string -> bool)
    (r : PayBySquareInput) :
  Validator.validateInput tz r = Ok tt ->
  exists rep,
    Compliance.checkCompliance isValidIBAN isValidBIC inCurrencyCode r
    = Ok rep
    /\ forall i, In i (errors rep) ->
                 i = checksumIssue \/ i = swiftIssue
                 \/ i = amountMaximumIssue.
Proof.
  intros H.
  pose proof (@validateFieldFormats_of_rules tz r
                (@validateInput_accepts _ _ H)) as Hf.
  pose proof (@validateInput_accepts _ _ H Spec.AmountSign) as V1.
  pose proof (@validateInput_accepts _ _ H Spec.AmountFinite) as V2.
  cbn [Spec.violated] in V1, V2.
  destruct (checkCompliance_report isValidIBAN isValidBIC inCurrencyCode
              r Hf) as [rep [Hc [He _]]].
  exists rep. split; [exact Hc|].
  intros i Hi. rewrite He in Hi. cbn [filter app] in Hi.
  rewrite (proj1 (validateBankingStandards_split isValidBIC
                    inCurrencyCode r)) in Hi.
  apply in_app_or in Hi. destruct Hi as [Hi|Hi].
  - unfold Compliance.validateIBANChecksum in Hi.
    destruct (negb _); [|destruct Hi].
    destruct Hi as [<-|[]]. left. reflexivity.
  - apply in_app_or in Hi. destruct Hi as [Hi|Hi].
    + destruct (andThen _ _); [|destruct Hi].
      destruct Hi as [<-|[]]. right. left. reflexivity.
    + destruct (amount r) as [a|]; [|destruct Hi].
      rewrite V1, V2 in Hi. cbn [app] in Hi.
      destruct (ltb 999999999999999 a); [|destruct Hi].
      destruct Hi as [<-|[]]. right. right. reflexivity.
Qed.

Lemma validated_compliance_errors_witness :
  exists rep,
    Compliance.checkCompliance (fun _ => false) (fun _ => false)
      (fun _ => true)
      {| iban := Some sampleIban; beneficiaryName := Some "John Doe";
         amount := Some 1e15%float; currency := None;
         variableSymbol := None; constantSymbol := None;
         specificSymbol := None; paymentNote := None; dueDate := None;
         swift := Some "BAD"; originatorReference := None;
         beneficiaryAddress := None |}
    = Ok rep
    /\ errors rep = [checksumIssue; swiftIssue; amountMaximumIssue].
Proof.
  destruct (@validated_compliance_errors CET (fun _ => false)
              (fun _ => false) (fun _ => true)
              {| iban := Some sampleIban;
                 beneficiaryName := Some "John Doe";
                 amount := Some 1e15%float; currency := None;
                 variableSymbol := None; constantSymbol := None;
                 specificSymbol := None; paymentNote := None;
                 dueDate := None; swift := Some "BAD";
                 originatorReference := None;
                 beneficiaryAddress := None |} eq_refl)
    as [rep [Hc _]].
  exists rep. split; [exact Hc|].
  vm_compute in Hc. inversion Hc. reflexivity.
Defined.

(** ** Blank strings and whitespace *)

Lemma forallChars_forallb (p : ascii -> bool) (s : string) :
  forallChars p s = forallb p (chars s).
Proof. induction s as [|c s IH]; simpl; congruence. Qed.

Lemma chars_ofChars (l : list ascii) : chars (ofChars l) = l.
Proof. induction l as [|c l IH]; simpl; congruence. Qed.

Lemma forallb_rev_eq {A} (p : A -> bool) (l : list A) :
  forallb p (rev l) = forallb p l.
Proof.
  induction l as [|a l IH]; [reflexivity|].
  simpl. rewrite forallb_app, IH. simpl.
  rewrite andb_true_r. apply andb_comm.
Qed.

Lemma forallChars_reverse (p : ascii -> bool) (s : string) :
  forallChars p (reverse s) = forallChars p s.
Proof.
  unfold reverse.
  rewrite !forallChars_forallb, chars_ofChars. apply forallb_rev_eq.
Qed.

Lemma truthy_reverse (s : string) : truthy (reverse s) = truthy s.
Proof.
  unfold reverse. destruct s as [|c s]; [reflexivity|].
  simpl. destruct (rev (chars s)); reflexivity.
Qed.

Lemma truthy_trimStart (s : string) :
  truthy (trimStart s) = negb (forallChars isSpace s).
Proof.
  induction s as [|c s IH]; [reflexivity|].
  simpl. destruct (isSpace c); [exact IH|reflexivity].
Qed.

Lemma forallChars_trimStart (s : string) :
  forallChars isSpace (trimStart s) = forallChars isSpace s.
Proof.
  induction s as [|c s IH]; [reflexivity|].
  simpl. destruct (isSpace c) eqn:E; [exact IH|].
  simpl. rewrite E. reflexivity.
Qed.

(** [s.trim()] is empty exactly when [s] is made of whitespace. *)
Lemma truthy_trim (s : string) :
  truthy (trim s) = negb (forallChars isSpace s).
Proof.
  unfold trim.
  rewrite truthy_reverse, truthy_trimStart, forallChars_reverse.
  rewrite forallChars_trimStart. reflexivity.
Qed.

Lemma forallChars_removeSpaces (s : string) :
  forallChars isSpace (removeSpaces s) = forallChars isSpace s.
Proof.
  induction s as [|c s IH]; [reflexivity|].
  simpl. destruct (isSpace c) eqn:E; simpl; rewrite ?E; auto.
Qed.

Lemma removeSpaces_clean (s : string) :
  forallChars (fun c => negb (isSpace c)) (removeSpaces s) = true.
Proof.
  induction s as [|c s IH]; [reflexivity|].
  simpl. destruct (isSpace c) eqn:E; simpl; rewrite ?E; auto.
Qed.

Lemma truthy_removeSpaces (s : string) :
  truthy (removeSpaces s) = negb (forallChars isSpace s).
Proof.
  induction s as [|c s IH]; [reflexivity|].
  simpl. destruct (isSpace c); [exact IH|reflexivity].
Qed.

Lemma ValidationError_inj (a b : string) :
  ValidationError a = ValidationError b -> a = b.
Proof. intros H. inversion H. reflexivity. Qed.

Lemma validateInput_throws_rule (tz : Z -> Z) (r : PayBySquareInput)
    (msg : string) :
  Validator.validateInput tz r = Throw (ValidationError msg) ->
  exists k, Spec.firstViolation tz r = Some k /\ Spec.text k r = msg.
Proof.
  rewrite validateInput_validate. unfold Spec.validate.
  destruct (Spec.firstViolation tz r) as [k|]; [|discriminate].
  intros H. exists k. split; [reflexivity|].
  apply ValidationError_inj. congruence.
Qed.

Lemma violated_present (o : option string) :
  negb (Spec.present o)
  = match o with
    | Some s => forallChars isSpace s
    | None => true
    end.
Proof.
  destruct o as [s|]; [|reflexivity].
  simpl. rewrite truthy_trim. apply negb_involutive.
Qed.

(** X7.  A required field that holds only whitespace counts as missing:
    [validateInput] fails with "IBAN is required" exactly when the IBAN
    is absent, empty or made of whitespace, and with "Beneficiary name
    is required" exactly when the IBAN is not so and the name is absent,
    empty or made of whitespace. *)
Theorem required_fields_blank (tz : Z -> Z) (r : PayBySquareInput) :
  (Validator.validateInput tz r = Throw (ValidationError "IBAN is required")
   <-> match iban r with
       | Some s => forallChars isSpace s
       | None => true
       end = true)
  /\ (Validator.validateInput tz r
      = Throw (ValidationError "Beneficiary name is required")
      <-> match iban r with
          | Some s => forallChars isSpace s
          | None => true
          end = false
          /\ match beneficiaryName r with
             | Some s => forallChars isSpace s
             | None => true
             end = true).
Proof.
  rewrite <- !violated_present.
  change (negb (Spec.present (iban r)))
    with (Spec.violated tz Spec.IbanPresent r).
  change (negb (Spec.present (beneficiaryName r)))
    with (Spec.violated tz Spec.NamePresent r).
  assert (F : Spec.firstViolation tz r
              = if Spec.violated tz Spec.IbanPresent r
                then Some Spec.IbanPresent
                else if Spec.violated tz Spec.NamePresent r
                     then Some Spec.NamePresent
                     else find (fun k => Spec.violated tz k r)
                            (skipn 2 Spec.order)) by reflexivity.
  split; split.
  - intros H. apply validateInput_throws_rule in H.
    destruct H as [k [Hk Ht]].
    destruct k; try discriminate Ht.
    apply (firstViolation_first _ _ Hk).
  - intros H. rewrite validateInput_validate. unfold Spec.validate.
    rewrite F, H. reflexivity.
  - intros H. apply validateInput_throws_rule in H.
    destruct H as [k [Hk Ht]].
    destruct k; try discriminate Ht.
    split; [|apply (firstViolation_first _ _ Hk)].
    rewrite F in Hk.
    destruct (Spec.violated tz Spec.IbanPresent r);
      [discriminate Hk|reflexivity].
  - intros [H1 H2]. rewrite validateInput_validate. unfold Spec.validate.
    rewrite F, H1, H2. reflexivity.
Qed.

Lemma find_same {A} (f g : A -> bool) (l : list A) :
  (forall a, f a = g a) -> find f l = find g l.
Proof.
  intros H. induction l as [|a l IH]; [reflexivity|].
  simpl. rewrite H, IH. reflexivity.
Qed.

(** X8.  Whitespace in the IBAN never changes the verdict of the
    validator: a record and the same record with the whitespace removed
    from its IBAN get the same result, the same error included. *)
Theorem validateInput_ignores_iban_whitespace (tz : Z -> Z)
    (r : PayBySquareInput) (s : string) :
  iban r = Some s ->
  Validator.validateInput tz (withIban (Some (removeSpaces s)) r)
  = Validator.validateInput tz r.
Proof.
  intros Hs. rewrite !validateInput_validate.
  unfold Spec.validate, Spec.firstViolation.
  assert (V : forall k,
            Spec.violated tz k (withIban (Some (removeSpaces s)) r)
            = Spec.violated tz k r).
  { intros k. destruct k; try reflexivity.
    - cbn [Spec.violated]. rewrite !violated_present, Hs.
      cbn [iban withIban]. apply forallChars_removeSpaces.
    - cbn [Spec.violated iban withIban]. rewrite Hs.
      unfold Validator.isValidIBAN. rewrite removeSpaces_idempotent.
      reflexivity. }
  rewrite (find_same _ _ Spec.order V).
  destruct (find _ Spec.order) as [k|]; [|reflexivity].
  destruct k; reflexivity.
Qed.

Lemma validateInput_ignores_iban_whitespace_witness :
  Validator.validateInput CET (minimal sampleIban "John Doe")
  = Validator.validateInput CET (minimal spacedIban "John Doe").
Proof.
  apply (@validateInput_ignores_iban_whitespace CET
           (minimal spacedIban "John Doe") spacedIban).
  reflexivity.
Defined.

(** ** The record that the decode adapter returns *)

(** The record returned for a payment whose first bank account has an
    IBAN, property by property. *)
Lemma transformFromDataModel_record (d : DataModel) (p : Payment)
    (rest : list Payment) (b : BankAccount) (l : list BankAccount) :
  payments d = p :: rest ->
  bankAccounts p = Some (b :: l) ->
  truthyOpt (accountIban b) = true ->
  Decoder.transformFromDataModel d
  = Ok {| iban := accountIban b;
          beneficiaryName :=
            Some match beneficiary p with
                 | Some bn =>
                     if truthyOpt (name bn) then interpolate (name bn)
                     else ""
                 | None => ""
                 end;
          amount := Decoder.spread (truthyOpt (currencyCode p))
                      (paymentAmount p);
          currency := Decoder.spreadIf (currencyCode p);
          variableSymbol := Decoder.spreadIf (paymentVariableSymbol p);
          constantSymbol := Decoder.spreadIf (paymentConstantSymbol p);
          specificSymbol := Decoder.spreadIf (paymentSpecificSymbol p);
          paymentNote := Decoder.spreadIf (paymentPaymentNote p);
          dueDate := Decoder.spreadIf (paymentDueDate p);
          swift := Decoder.spreadIf (bic b);
          originatorReference :=
            Decoder.spreadIf (originatorsReferenceInformation p);
          beneficiaryAddress :=
            match beneficiary p with
            | Some bn =>
                if truthyOpt (beneficiaryStreet bn)
                   || truthyOpt (beneficiaryCity bn)
                then Some {| street :=
                               Decoder.spreadIf (beneficiaryStreet bn);
                             city := Decoder.spreadIf (beneficiaryCity bn) |}
                else None
            | None => None
            end |}.
Proof.
  intros Hp Hb Hi. unfold Decoder.transformFromDataModel.
  rewrite Hp. cbn [nth_error]. rewrite Hb. cbn [nth_error]. rewrite Hi.
  cbn [negb deref bind].
  destruct (beneficiary p) as [bn|]; [|reflexivity].
  destruct (truthyOpt (beneficiaryStreet bn)
            || truthyOpt (beneficiaryCity bn)); reflexivity.
Qed.

Lemma transformFromDataModel_inv (d : DataModel) (r : PayBySquareInput) :
  Decoder.transformFromDataModel d = Ok r ->
  exists p rest b l,
    payments d = p :: rest /\ bankAccounts p = Some (b :: l)
    /\ truthyOpt (accountIban b) = true.
Proof.
  unfold Decoder.transformFromDataModel. intros H.
  destruct (payments d) as [|p rest] eqn:Hp; [discriminate H|].
  cbn [nth_error] in H.
  destruct (bankAccounts p) as [[|b l]|] eqn:Hb; try discriminate H.
  cbn [nth_error] in H.
  destruct (truthyOpt (accountIban b)) eqn:E; [|discriminate H].
  exists p, rest, b, l. auto.
Qed.

Lemma neverEmpty_spreadIf (o : option string) :
  neverEmpty (Decoder.spreadIf o) = true.
Proof. destruct o as [[|c s]|]; reflexivity. Qed.

(** X9.  A record returned by the decode adapter has a non-empty IBAN
    and a beneficiary name (so it is a record of the input type), no
    optional string that is empty, no amount without a currency, and an
    address only with a street or a city in it. *)
Theorem decoded_record_shape (d : DataModel) (r : PayBySquareInput) :
  Decoder.transformFromDataModel d = Ok r ->
  truthyOpt (iban r) = true
  /\ beneficiaryName r <> None
  /\ wellTyped r
  /\ (amount r <> None -> currency r <> None)
  /\ neverEmpty (currency r) && neverEmpty (variableSymbol r)
     && neverEmpty (constantSymbol r) && neverEmpty (specificSymbol r)
     && neverEmpty (paymentNote r) && neverEmpty (dueDate r)
     && neverEmpty (swift r) && neverEmpty (originatorReference r) = true
  /\ match beneficiaryAddress r with
     | Some a =>
         neverEmpty (street a) && neverEmpty (city a)
         && (truthyOpt (street a) || truthyOpt (city a))
     | None => true
     end = true.
Proof.
  intros H. destruct (transformFromDataModel_inv _ H)
    as [p [rest [b [l [Hp [Hb Hi]]]]]].
  rewrite (transformFromDataModel_record _ Hp Hb Hi) in H.
  inversion H; subst r; clear H. cbn.
  split; [exact Hi|]. split; [discriminate|].
  split; [split; [destruct (accountIban b)|]; discriminate|].
  split.
  { unfold Decoder.spreadIf, Decoder.spread.
    destruct (truthyOpt (currencyCode p)) eqn:E; [|congruence].
    destruct (currencyCode p); [discriminate|discriminate E]. }
  split.
  { rewrite !neverEmpty_spreadIf. reflexivity. }
  destruct (beneficiary p) as [bn|]; [|reflexivity].
  destruct (beneficiaryStreet bn) as [[|c1 s1]|];
    destruct (beneficiaryCity bn) as [[|c2 s2]|]; reflexivity.
Qed.

Lemma decoded_record_shape_witness :
  exists r,
    Decoder.transformFromDataModel euroModel = Ok r /\ wellTyped r.
Proof.
  eexists. split; [reflexivity|].
  apply (@decoded_record_shape euroModel). reflexivity.
Defined.

(** ** Reading a QR code *)

Lemma transformFromDataModel_throws (d : DataModel) (e : Exception) :
  Decoder.transformFromDataModel d = Throw e ->
  e = DecodingError "No payment data found in QR code"
  \/ e = DecodingError "No IBAN found in payment data".
Proof.
  intros H. pose proof (transformFromDataModel_cases d) as C.
  destruct (payments d) as [|p rest].
  - left. congruence.
  - destruct (truthyOpt (Spec.firstAccountIban p)).
    + destruct C as [r [C _]]. congruence.
    + right. congruence.
Qed.

Section Reading.
Variable Buffer : Type.
Variable JimpRead : Buffer -> Result Reader.Bitmap.
Variable jsQR : list N -> nat -> nat -> Result (option string).
Variable bysquareDecode : string -> Result DataModel.

Lemma extractQRString_throws (buffer : Buffer) (e : Exception) :
  Reader.extractQRString JimpRead jsQR buffer = Throw e ->
  Errors.class e = DecodingErrorClass.
Proof.
  unfold Reader.extractQRString, Generator.tryCatch.
  destruct (JimpRead buffer) as [image|e0]; cbn [bind].
  - destruct (jsQR _ _ _) as [[codeData|]|e1]; cbn [bind].
    + discriminate.
    + intros H. inversion H. reflexivity.
    + unfold Reader.isDecodingError.
      destruct (Errors.class e1) eqn:E; intros H; inversion H; subst;
        try reflexivity; exact E.
  - unfold Reader.isDecodingError.
    destruct (Errors.class e0) eqn:E; intros H; inversion H; subst;
      try reflexivity; exact E.
Qed.

Lemma decodePayBySquare_class (buffer : Buffer) (e : Exception) :
  Reader.decodePayBySquare JimpRead jsQR bysquareDecode buffer = Throw e ->
  Errors.class e = DecodingErrorClass.
Proof.
  unfold Reader.decodePayBySquare.
  destruct (Reader.extractQRString JimpRead jsQR buffer) as [qr|e0] eqn:Hq;
    cbn [bind].
  2:{ intros H. inversion H; subst. apply (extractQRString_throws _ Hq). }
  unfold Generator.tryCatch.
  destruct (bysquareDecode qr) as [m|e1]; cbn [bind].
  2:{ intros H. inversion H. reflexivity. }
  destruct (Decoder.transformFromDataModel m) as [r|e2] eqn:Ht;
    cbn [bind]; [discriminate|].
  intros H. inversion H; subst.
  destruct (transformFromDataModel_throws _ Ht) as [-> | ->]; reflexivity.
Qed.

(** X10.  Whatever the image library, the detector and the codec do,
    a failure of [decodePayBySquare] is a [DecodingError]: one of the
    five that the decoder raises itself, or a [DecodingError] that the
    image library or the detector raised and that is passed on as it
    is. *)
Theorem decodePayBySquare_throws (buffer : Buffer) (e : Exception) :
  Reader.decodePayBySquare JimpRead jsQR bysquareDecode buffer = Throw e ->
  Errors.class e = DecodingErrorClass
  /\ (In e [DecodingError "No QR code found in image";
            DecodingError "Failed to read image or extract QR code";
            DecodingError "Failed to decode PayBySquare QR string";
            DecodingError "No payment data found in QR code";
            DecodingError "No IBAN found in payment data"]
      \/ JimpRead buffer = Throw e
      \/ exists image,
           JimpRead buffer = Ok image
           /\ jsQR (Reader.toImageData image) (Reader.width image)
                (Reader.height image)
              = Throw e).
Proof.
  intros H. split; [apply (decodePayBySquare_class _ H)|].
  revert H. unfold Reader.decodePayBySquare, Reader.extractQRString.
  unfold Generator.tryCatch.
  destruct (JimpRead buffer) as [image|e0] eqn:EJ; cbn [bind].
  - destruct (jsQR _ _ _) as [[codeData|]|e1] eqn:EQ; cbn [bind].
    + destruct (bysquareDecode codeData) as [m|e1]; cbn [bind].
      * destruct (Decoder.transformFromDataModel m) as [r|e2] eqn:Ht;
          cbn [bind]; [discriminate|].
        intros H. inversion H; subst e2; clear H. left.
        destruct (transformFromDataModel_throws _ Ht) as [-> | ->];
          simpl; tauto.
      * intros H. inversion H. left. simpl. tauto.
    + intros H. inversion H. left. simpl. tauto.
    + destruct (Reader.isDecodingError e1); cbn [bind]; intros H;
        inversion H; subst.
      * right. right. exists image. auto.
      * left. simpl. tauto.
  - destruct (Reader.isDecodingError e0); cbn [bind]; intros H;
      inversion H; subst.
    + right. left. reflexivity.
    + left. simpl. tauto.
Qed.

(** X11.  When the image library and the detector raise no
    [DecodingError] of their own, [decodePayBySquare] fails with "No QR
    code found in image" exactly when the image was read and the
    detector found no code in its pixels. *)
Theorem no_qr_code_found (buffer : Buffer) :
  (forall b e, JimpRead b = Throw e -> Reader.isDecodingError e = false) ->
  (forall px w h e,
     jsQR px w h = Throw e -> Reader.isDecodingError e = false) ->
  Reader.decodePayBySquare JimpRead jsQR bysquareDecode buffer
  = Throw (DecodingError "No QR code found in image")
  <-> exists image,
        JimpRead buffer = Ok image
        /\ jsQR (Reader.toImageData image) (Reader.width image)
             (Reader.height image)
           = Ok None.
Proof.
  intros HJ HQ. unfold Reader.decodePayBySquare, Reader.extractQRString.
  unfold Generator.tryCatch.
  destruct (JimpRead buffer) as [image|e0] eqn:EJ; cbn [bind].
  - destruct (jsQR _ _ _) as [[codeData|]|e1] eqn:EQ; cbn [bind].
    + split.
      * destruct (bysquareDecode codeData) as [m|e1]; cbn [bind];
          [|discriminate].
        destruct (Decoder.transformFromDataModel m) as [r|e2] eqn:Ht;
          cbn [bind]; [discriminate|].
        destruct (transformFromDataModel_throws _ Ht) as [-> | ->];
          discriminate.
      * intros [image' [E1 E2]]. inversion E1; subst image'.
        rewrite EQ in E2. discriminate E2.
    + split; [|reflexivity]. intros _. exists image. auto.
    + rewrite (HQ _ _ _ _ EQ). cbn [bind]. split; [discriminate|].
      intros [image' [E1 E2]]. inversion E1; subst image'.
      rewrite EQ in E2. discriminate E2.
  - rewrite (HJ _ _ EJ). cbn [bind]. split; [discriminate|].
    intros [image' [E1 _]]. discriminate E1.
Qed.
End Reading.

Lemma decodePayBySquare_throws_witness :
  exists e,
    Reader.decodePayBySquare noImage findsNothing
      (fun _ => Throw TypeError) tt
    = Throw e
    /\ Errors.class e = DecodingErrorClass
    /\ Errors.message e
       = "Decoding Error: Failed to read image or extract QR code".
Proof.
  eexists. split; [reflexivity|]. split; [|reflexivity].
  apply (@decodePayBySquare_throws unit noImage findsNothing
           (fun _ => Throw TypeError) tt).
  reflexivity.
Defined.

Lemma no_qr_code_found_witness :
  Reader.decodePayBySquare blankImage findsNothing
    (fun _ => Throw TypeError) tt
  = Throw (DecodingError "No QR code found in image").
Proof.
  apply (@no_qr_code_found unit blankImage findsNothing
           (fun _ => Throw TypeError) tt).
  - intros b e H. discriminate H.
  - intros px w h e H. discriminate H.
  - eexists. split; reflexivity.
Defined.


(** ** The pixels handed to the detector *)

Lemma length_assign (a : list N) (i : nat) (v : option N) :
  List.length (Reader.assign a i v) = List.length a.
Proof.
  revert i. induction a as [|x a IH]; intros i; [reflexivity|].
  destruct i; simpl; auto.
Qed.

Lemma assign_next (v : N) (i : nat) :
  forall (d : list N) (m : nat),
    nth_error d i = Some v -> (v <= 255)%N ->
    Reader.assign (firstn i d ++ List.repeat 0%N (S m)) i (Some v)
    = (firstn (S i) d ++ List.repeat 0%N m)%list.
Proof.
  induction i as [|i IH]; intros d m Hn Hv; destruct d as [|x d];
    try discriminate Hn.
  - simpl in *. inversion Hn; subst. rewrite N.min_l by exact Hv.
    reflexivity.
  - simpl in Hn. cbn [firstn app Reader.assign].
    rewrite (IH d m Hn Hv). reflexivity.
Qed.

Section Pixels.
Variable d : list N.
Hypothesis bytes : forall v, In v d -> (v <= 255)%N.

Lemma copyPixel_next (k m : nat) :
  (4 * k + 4 + m = List.length d)%nat ->
  Reader.copyPixel d (4 * k)
    ((firstn (4 * k) d ++ List.repeat 0%N (4 + m))%list, (4 * k)%nat)
  = ((firstn (4 * (S k)) d ++ List.repeat 0%N m)%list, (4 * S k)%nat).
Proof.
  intros Hl. unfold Reader.copyPixel.
  assert (G : forall j, (j < 4)%nat ->
            exists v, nth_error d (4 * k + j) = Some v /\ (v <= 255)%N).
  { intros j Hj. destruct (nth_error d (4 * k + j)) as [v|] eqn:E.
    - exists v. split; [reflexivity|].
      apply bytes. apply (nth_error_In _ _ E).
    - apply nth_error_None in E. lia. }
  destruct (G 0%nat ltac:(lia)) as [v0 [E0 B0]].
  destruct (G 1%nat ltac:(lia)) as [v1 [E1 B1]].
  destruct (G 2%nat ltac:(lia)) as [v2 [E2 B2]].
  destruct (G 3%nat ltac:(lia)) as [v3 [E3 B3]].
  rewrite E0, E1, E2, E3. cbv zeta.
  replace (4 * k + 0)%nat with (4 * k)%nat in E0 by lia.
  replace (4 * k + 1)%nat with (S (4 * k)) in E1 by lia.
  replace (4 * k + 2)%nat with (S (S (4 * k))) in E2 by lia.
  replace (4 * k + 3)%nat with (S (S (S (4 * k)))) in E3 by lia.
  change (4 + m)%nat with (S (S (S (S m)))).
  rewrite (@assign_next _ _ _ _ E0 B0), (@assign_next _ _ _ _ E1 B1),
    (@assign_next _ _ _ _ E2 B2), (@assign_next _ _ _ _ E3 B3).
  replace (4 * S k)%nat with (S (S (S (S (4 * k))))) by lia.
  reflexivity.
Qed.

Lemma copyPixel_all (count : nat) :
  forall start m,
    (4 * start + 4 * count + m = List.length d)%nat ->
    fold_left (fun st k => Reader.copyPixel d (4 * k) st) (seq start count)
      ((firstn (4 * start) d ++ List.repeat 0%N (4 * count + m))%list,
       (4 * start)%nat)
    = ((firstn (4 * (start + count)) d ++ List.repeat 0%N m)%list,
       (4 * (start + count))%nat).
Proof.
  induction count as [|count IH]; intros start m Hl.
  - cbn [seq fold_left]. rewrite Nat.add_0_r.
    replace (4 * 0 + m)%nat with m by lia. reflexivity.
  - cbn [seq fold_left].
    replace (4 * S count + m)%nat with (4 + (4 * count + m))%nat by lia.
    rewrite copyPixel_next by lia. rewrite IH by lia.
    replace (S start + count)%nat with (start + S count)%nat by lia.
    reflexivity.
Qed.
End Pixels.

Lemma seq_offset (a w : nat) :
  seq a w = map (fun x => (a + x)%nat) (seq 0 w).
Proof.
  induction w as [|w IH]; [reflexivity|].
  rewrite !seq_S, map_app, IH. reflexivity.
Qed.

Lemma fold_left_mapped {A B C} (f : A -> C -> A) (g : B -> C)
    (l : list B) (a : A) :
  fold_left f (map g l) a = fold_left (fun a x => f a (g x)) l a.
Proof. revert a. induction l as [|x l IH]; intros a; simpl; auto. Qed.

(** The two loops of [scan] visit the offsets [0, 4, 8, ...] in turn. *)
Lemma scan_offsets {S} (w h : nat) (g : nat -> S -> S) (s : S) :
  Reader.scan w w h (fun _ _ offset st => g offset st) s
  = fold_left (fun st k => g (4 * k)%nat st) (seq 0 (w * h)) s.
Proof.
  unfold Reader.scan. revert s. induction h as [|h IH]; intros s.
  - rewrite Nat.mul_0_r. reflexivity.
  - rewrite seq_S, fold_left_app, IH. cbn [fold_left Nat.add].
    replace (w * Datatypes.S h)%nat with (w * h + w)%nat by lia.
    rewrite seq_app, fold_left_app. cbn [Nat.add].
    generalize (fold_left (fun st k => g (4 * k)%nat st) (seq 0 (w * h)) s).
    intros s'. rewrite (seq_offset (w * h) w), fold_left_mapped.
    reflexivity.
Qed.

Lemma length_copyPixel (d : list N) (o : nat) (st : list N * nat) :
  List.length (fst (Reader.copyPixel d o st)) = List.length (fst st).
Proof.
  destruct st as [a i]. unfold Reader.copyPixel. cbn [fst].
  rewrite !length_assign. reflexivity.
Qed.

(** X12.  The pixel array handed to the detector always has
    [4 * width * height] entries; for a bitmap that holds exactly that
    many bytes it is the bitmap's data, unchanged and in the same
    order. *)
Theorem toImageData_copies (b : Reader.Bitmap) :
  List.length (Reader.toImageData b)
  = (Reader.width b * Reader.height b * 4)%nat
  /\ (List.length (Reader.data b)
      = (Reader.width b * Reader.height b * 4)%nat ->
      (forall v, In v (Reader.data b) -> (v <= 255)%N) ->
      Reader.toImageData b = Reader.data b).
Proof.
  unfold Reader.toImageData. rewrite scan_offsets. split.
  - generalize (seq 0 (Reader.width b * Reader.height b)).
    assert (E : List.length
                  (fst (List.repeat 0%N
                          (Reader.width b * Reader.height b * 4), O))
                = (Reader.width b * Reader.height b * 4)%nat)
      by apply repeat_length.
    revert E.
    generalize (List.repeat 0%N (Reader.width b * Reader.height b * 4), O).
    intros st E l. revert st E.
    induction l as [|k l IH]; intros st E; [exact E|].
    cbn [fold_left]. apply IH. rewrite length_copyPixel. exact E.
  - intros Hl Hb.
    replace (Reader.width b * Reader.height b * 4)%nat
      with (4 * (Reader.width b * Reader.height b) + 0)%nat by lia.
    change (List.repeat 0%N (4 * (Reader.width b * Reader.height b) + 0), O)
      with ((firstn (4 * 0) (Reader.data b)
             ++ List.repeat 0%N
                  (4 * (Reader.width b * Reader.height b) + 0))%list,
            (4 * 0)%nat).
    rewrite (@copyPixel_all (Reader.data b) Hb) by lia.
    cbn [fst List.repeat Nat.add]. rewrite app_nil_r.
    apply firstn_all2. lia.
Qed.

Lemma toImageData_copies_witness :
  Reader.toImageData
    {| Reader.width := 2; Reader.height := 1;
       Reader.data := [255; 255; 255; 255; 0; 0; 0; 255]%N |}
  = [255; 255; 255; 255; 0; 0; 0; 255]%N.
Proof.
  apply (proj2 (toImageData_copies
                  {| Reader.width := 2; Reader.height := 1;
                     Reader.data := [255; 255; 255; 255; 0; 0; 0; 255]%N |})).
  - reflexivity.
  - intros v H. simpl in H.
    repeat (destruct H as [<-|H]; [vm_compute; discriminate|]).
    destruct H.
Defined.

(** ** The encode-direction adapter *)

Lemma upperChar_idempotent (c : ascii) : upperChar (upperChar c) = upperChar c.
Proof. destruct c as [[] [] [] [] [] [] [] []]; reflexivity. Qed.

Lemma toUpperCase_idempotent (s : string) :
  toUpperCase (toUpperCase s) = toUpperCase s.
Proof.
  induction s as [|c s IH]; [reflexivity|].
  simpl. rewrite upperChar_idempotent, IH. reflexivity.
Qed.

Lemma truthy_toUpperCase (s : string) : truthy (toUpperCase s) = truthy s.
Proof. destruct s; reflexivity. Qed.

Section Encoding.
Variable inCurrencyCode : string -> bool.

Lemma parseCurrencyCode_upper (c : string) :
  Generator.parseCurrencyCode inCurrencyCode c = toUpperCase c.
Proof.
  unfold Generator.parseCurrencyCode.
  destruct (inCurrencyCode (toUpperCase c)); reflexivity.
Qed.

Lemma toUpperCase_empty (s : string) : toUpperCase s = "" <-> s = "".
Proof. destruct s; simpl; split; intros H; try reflexivity; discriminate. Qed.

(** X13.  The canonical model built for a record holds one payment
    order with one bank account whose IBAN is the record's without any
    whitespace; it carries a currency code exactly when the record has an
    amount, in upper case and "EUR" when the record names none; it has a
    beneficiary exactly when the record has a non-empty name or an
    address.  None of its optional strings is empty, the currency code
    apart, which is empty exactly when the record has an amount beside an
    empty currency. *)
Theorem canonical_model_shape (r : PayBySquareInput)
    (m : Generator.TaggedDataModel) :
  Generator.transformToDataModel inCurrencyCode r = Ok m ->
  exists s p,
    iban r = Some s
    /\ Generator.taggedPayments m
       = [{| Generator.paymentType := Generator.PaymentOrder;
             Generator.properties := p |}]
    /\ bankAccounts p
       = Some [{| accountIban := Some (removeSpaces s);
                  bic := Decoder.spreadIf (swift r) |}]
    /\ forallChars (fun c => negb (isSpace c)) (removeSpaces s) = true
    /\ neverEmpty (Decoder.spreadIf (swift r)) = true
    /\ paymentAmount p = amount r
    /\ (currencyCode p <> None <-> amount r <> None)
    /\ (forall c, currencyCode p = Some c ->
          toUpperCase c = c
          /\ (currency r = None -> c = "EUR")
          /\ (forall c', currency r = Some c' -> c = toUpperCase c'))
    /\ (currencyCode p = Some ""
        <-> amount r <> None /\ currency r = Some "")
    /\ neverEmpty (paymentVariableSymbol p)
       && neverEmpty (paymentConstantSymbol p)
       && neverEmpty (paymentSpecificSymbol p)
       && neverEmpty (paymentPaymentNote p)
       && neverEmpty (paymentDueDate p)
       && neverEmpty (originatorsReferenceInformation p) = true
    /\ (beneficiary p <> None
        <-> truthyOpt (beneficiaryName r) = true
            \/ beneficiaryAddress r <> None)
    /\ (forall b, beneficiary p = Some b ->
          name b = Decoder.spreadIf (beneficiaryName r)
          /\ beneficiaryStreet b = Decoder.spreadIf (addressStreet r)
          /\ beneficiaryCity b = Decoder.spreadIf (addressCity r)
          /\ neverEmpty (name b) && neverEmpty (beneficiaryStreet b)
             && neverEmpty (beneficiaryCity b) = true).
Proof.
  unfold Generator.transformToDataModel.
  destruct (iban r) as [s|]; [|discriminate]. cbn [deref bind].
  intros H. inversion H; subst m; clear H.
  eexists s, _. split; [reflexivity|]. split; [reflexivity|].
  cbn [bankAccounts paymentAmount currencyCode paymentVariableSymbol
       paymentConstantSymbol paymentSpecificSymbol paymentPaymentNote
       paymentDueDate originatorsReferenceInformation beneficiary].
  split; [reflexivity|]. split; [apply removeSpaces_clean|].
  split; [apply neverEmpty_spreadIf|].
  split; [destruct (amount r); reflexivity|].
  split; [destruct (amount r); simpl; split; congruence|].
  split.
  { intros c Hc. destruct (amount r); [|discriminate Hc].
    cbn in Hc. inversion Hc; subst c; clear Hc.
    rewrite parseCurrencyCode_upper.
    split; [apply toUpperCase_idempotent|].
    split.
    - intros ->. reflexivity.
    - intros c' ->. reflexivity. }
  split.
  { destruct (amount r) as [a|]; cbn [Generator.defined Decoder.spread].
    - rewrite parseCurrencyCode_upper. split.
      + intros E. split; [discriminate|].
        inversion E as [E'].
        apply (proj1 (toUpperCase_empty _)) in E'.
        destruct (currency r) as [c|]; cbn [Generator.orDefault] in E';
          [rewrite E'; reflexivity|discriminate E'].
      + intros [_ ->]. reflexivity.
    - split; [discriminate|]. intros [E _]. congruence. }
  split.
  { rewrite !neverEmpty_spreadIf. reflexivity. }
  split.
  { destruct (truthyOpt (beneficiaryName r));
      destruct (beneficiaryAddress r) as [a|];
      cbn [orb Generator.defined Decoder.spread]; split;
      try (intros _; discriminate); try (intros _; auto; fail).
    - intros _. right. discriminate.
    - intros E. congruence.
    - intros [E|E]; [discriminate E|congruence]. }
  intros b Hb.
  destruct (truthyOpt (beneficiaryName r) || _);
    cbn [Generator.defined Decoder.spread] in Hb; [|discriminate Hb].
  inversion Hb; subst b; clear Hb.
  cbn [name beneficiaryStreet beneficiaryCity].
  rewrite !neverEmpty_spreadIf. auto.
Qed.

Lemma spreadIf_idempotent (o : option string) :
  Decoder.spreadIf (Decoder.spreadIf o) = Decoder.spreadIf o.
Proof. destruct o as [[|c s]|]; reflexivity. Qed.

(** What the decode adapter makes of the model that the encode adapter
    built for a record. *)
Lemma adapters_normalized (r : PayBySquareInput) (s : string)
    (m : Generator.TaggedDataModel) :
  iban r = Some s ->
  forallChars isSpace s = false ->
  Generator.transformToDataModel inCurrencyCode r = Ok m ->
  Decoder.transformFromDataModel (Generator.untagged m)
  = Ok (normalized r).
Proof.
  intros Hs Hb. unfold Generator.transformToDataModel.
  rewrite Hs. cbn [deref bind]. intros Hm.
  inversion Hm; subst m; clear Hm.
  unfold Generator.untagged.
  cbn [Generator.taggedPayments Generator.properties map].
  erewrite transformFromDataModel_record;
    [|reflexivity|reflexivity
     |cbn [accountIban truthyOpt]; rewrite truthy_removeSpaces, Hb;
      reflexivity].
  unfold normalized. rewrite Hs.
  cbn [beneficiary currencyCode paymentAmount paymentVariableSymbol
       paymentConstantSymbol paymentSpecificSymbol paymentPaymentNote
       paymentDueDate originatorsReferenceInformation accountIban bic
       option_map].
  rewrite !spreadIf_idempotent, !parseCurrencyCode_upper.
  f_equal. f_equal.
  - f_equal. unfold addressStreet, addressCity.
    destruct (beneficiaryName r) as [[|c n]|];
      destruct (beneficiaryAddress r) as [a|]; reflexivity.
  - destruct (amount r) as [a|]; [|reflexivity].
    destruct (currency r) as [[|c cc]|]; reflexivity.
  - destruct (amount r) as [a|]; [|reflexivity].
    destruct (currency r) as [[|c cc]|]; reflexivity.
  - unfold addressStreet, addressCity.
    destruct (beneficiaryAddress r) as [[[[|c1 s1]|] [[|c2 s2]|]]|];
      destruct (beneficiaryName r) as [[|c n]|]; reflexivity.
Qed.

(** X14.  A record with an IBAN that is not blank goes through the two
    adapters, encode direction then decode direction, and comes back as
    [normalized]: the IBAN without whitespace, the currency in upper
    case ("EUR" when an amount had none), empty optional strings
    dropped, an amount with an empty currency dropped with it. *)
Theorem adapters_round_trip (r : PayBySquareInput) (s : string) :
  iban r = Some s ->
  forallChars isSpace s = false ->
  exists m,
    Generator.transformToDataModel inCurrencyCode r = Ok m
    /\ Decoder.transformFromDataModel (Generator.untagged m)
       = Ok (normalized r).
Proof.
  intros Hs Hb.
  destruct (Generator.transformToDataModel inCurrencyCode r) as [m|e]
    eqn:Hm.
  - exists m. split; [reflexivity|].
    apply (@adapters_normalized r s m Hs Hb Hm).
  - unfold Generator.transformToDataModel in Hm. rewrite Hs in Hm.
    discriminate Hm.
Qed.
End Encoding.

Lemma adapters_round_trip_witness :
  normalized (input (Some spacedIban) (Some "John Doe") (Some 100%float)
                None (Some "") None None None None)
  = input (Some sampleIban) (Some "John Doe") (Some 100%float)
      (Some "EUR") None None None None None
  /\ exists m,
       Generator.transformToDataModel (fun _ => true)
         (input (Some spacedIban) (Some "John Doe") (Some 100%float)
            None (Some "") None None None None)
       = Ok m
       /\ Decoder.transformFromDataModel (Generator.untagged m)
          = Ok (input (Some sampleIban) (Some "John Doe")
                  (Some 100%float) (Some "EUR") None None None None None).
Proof.
  split; [reflexivity|].
  apply (@adapters_round_trip (fun _ => true)
           (input (Some spacedIban) (Some "John Doe") (Some 100%float)
              None (Some "") None None None None) spacedIban);
    reflexivity.
Defined.

Lemma canonical_model_shape_witness :
  exists m p,
    Generator.transformToDataModel (fun _ => true)
      (input (Some spacedIban) (Some "John Doe") (Some 5%float)
         (Some "") None None None None None)
    = Ok m
    /\ Generator.taggedPayments m
       = [{| Generator.paymentType := Generator.PaymentOrder;
             Generator.properties := p |}]
    /\ currencyCode p = Some "".
Proof.
  destruct (@canonical_model_shape (fun _ => true)
              (input (Some spacedIban) (Some "John Doe") (Some 5%float)
                 (Some "") None None None None None) _ eq_refl)
    as [s [p [_ [Hp [_ [_ [_ [_ [_ [_ [He _]]]]]]]]]]].
  eexists. exists p. split; [reflexivity|]. split; [exact Hp|].
  apply He. split; [discriminate|reflexivity].
Defined.

(** ** Normal forms *)

Lemma addressStreet_normalized (r : PayBySquareInput) :
  addressStreet (normalized r) = Decoder.spreadIf (addressStreet r).
Proof.
  unfold normalized, addressStreet at 1. cbn [beneficiaryAddress].
  destruct (addressStreet r) as [[|c1 s1]|];
    destruct (addressCity r) as [[|c2 s2]|]; reflexivity.
Qed.

Lemma addressCity_normalized (r : PayBySquareInput) :
  addressCity (normalized r) = Decoder.spreadIf (addressCity r).
Proof.
  unfold normalized, addressCity at 1. cbn [beneficiaryAddress].
  destruct (addressStreet r) as [[|c1 s1]|];
    destruct (addressCity r) as [[|c2 s2]|]; reflexivity.
Qed.

Lemma normalized_idempotent (r : PayBySquareInput) :
  normalized (normalized r) = normalized r.
Proof.
  unfold normalized at 1.
  rewrite addressStreet_normalized, addressCity_normalized.
  unfold normalized.
  cbn [iban beneficiaryName amount currency variableSymbol constantSymbol
       specificSymbol paymentNote dueDate swift originatorReference].
  rewrite !spreadIf_idempotent. f_equal.
  all: try (destruct (iban r) as [s|]; cbn [option_map];
            rewrite ?removeSpaces_idempotent; reflexivity).
  all: try (destruct (addressStreet r) as [[|c1 s1]|];
            destruct (addressCity r) as [[|c2 s2]|]; reflexivity).
  all: destruct (amount r) as [a|]; [|reflexivity];
    destruct (currency r) as [[|c cc]|]; cbn;
    rewrite ?upperChar_idempotent, ?toUpperCase_idempotent; reflexivity.
Qed.

Lemma optional_spreadIf (o : option string) (p : string -> bool) :
  Spec.optional (Decoder.spreadIf o) p = Spec.optional o p.
Proof. destruct o as [[|c s]|]; reflexivity. Qed.

Lemma validateInput_of_rules (tz : Z -> Z) (r : PayBySquareInput) :
  (forall k, Spec.violated tz k r = false) ->
  Validator.validateInput tz r = Ok tt.
Proof.
  intros V. rewrite validateInput_validate.
  unfold Spec.validate, Spec.firstViolation.
  destruct (find _ Spec.order) as [k|] eqn:E; [|reflexivity].
  apply find_some in E. destruct E as [_ E]. rewrite V in E. discriminate.
Qed.

Lemma normalized_valid (tz : Z -> Z) (r : PayBySquareInput) :
  Validator.validateInput tz r = Ok tt ->
  Validator.validateInput tz (normalized r) = Ok tt.
Proof.
  intros H. pose proof (@validateInput_accepts _ _ H) as V.
  apply validateInput_of_rules. intros k.
  pose proof (V Spec.IbanPresent) as V1.
  pose proof (V Spec.NamePresent) as V2.
  pose proof (V Spec.CurrencyStructure) as V3.
  specialize (V k).
  destruct k; cbn [Spec.violated] in *;
    rewrite ?addressStreet_normalized, ?addressCity_normalized;
    unfold normalized;
    cbn [iban beneficiaryName amount currency variableSymbol
         constantSymbol specificSymbol paymentNote dueDate];
    rewrite ?optional_spreadIf; try exact V.
  - rewrite violated_present in *.
    destruct (iban r) as [s|]; [|discriminate V].
    cbn [option_map]. rewrite forallChars_removeSpaces. exact V.
  - destruct (beneficiaryName r) as [n|]; [exact V|discriminate V].
  - destruct (iban r) as [s|]; [|discriminate V].
    cbn [option_map]. unfold Validator.isValidIBAN in *.
    rewrite removeSpaces_idempotent. exact V.
  - destruct (amount r) as [a|]; [|reflexivity].
    destruct (truthyOpt _); [exact V|reflexivity].
  - destruct (amount r) as [a|]; [|reflexivity].
    destruct (truthyOpt _); [exact V|reflexivity].
  - destruct (amount r) as [a|]; [|reflexivity].
    destruct (currency r) as [[|c cc]|]; try reflexivity.
    cbn [truthyOpt]. rewrite truthy_toUpperCase. cbn [truthy].
    cbn [Spec.optional] in V. apply negb_false_iff in V.
    unfold Validator.isValidCurrencyCode in V.
    pose proof (toUpperCase_idempotent (String c cc)) as Hu.
    revert V Hu. generalize (toUpperCase (String c cc)).
    intros u V Hu. destruct u as [|a0 s0]; [reflexivity|].
    cbn [Spec.optional]. unfold Validator.isValidCurrencyCode.
    rewrite Hu, V. reflexivity.
  - destruct (beneficiaryName r) as [n|]; [exact V|discriminate V2].
Qed.

Section Adapters.
Variable inCurrencyCode : string -> bool.

(** The decode adapter accepts the model built for a record exactly
    when the IBAN of the record is not blank, and returns its normal
    form. *)
Lemma adapters_inv (r r' : PayBySquareInput)
    (m : Generator.TaggedDataModel) :
  Generator.transformToDataModel inCurrencyCode r = Ok m ->
  Decoder.transformFromDataModel (Generator.untagged m) = Ok r' ->
  exists s,
    iban r = Some s /\ forallChars isSpace s = false /\ r' = normalized r.
Proof.
  intros Hm Ht. pose proof Hm as Hm0.
  unfold Generator.transformToDataModel in Hm.
  destruct (iban r) as [s|] eqn:Hs; [|discriminate Hm].
  cbn [deref bind] in Hm. exists s. split; [reflexivity|].
  assert (Hb : forallChars isSpace s = false).
  { destruct (transformFromDataModel_inv _ Ht)
      as [p [rest [b [l [Hp [Hb Hi]]]]]].
    inversion Hm; subst m; clear Hm.
    unfold Generator.untagged in Hp.
    cbn [Generator.taggedPayments Generator.properties map payments] in Hp.
    inversion Hp; subst p rest; clear Hp.
    cbn [bankAccounts] in Hb. inversion Hb; subst b l; clear Hb.
    cbn [accountIban truthyOpt] in Hi.
    rewrite truthy_removeSpaces in Hi. apply negb_true_iff in Hi.
    exact Hi. }
  split; [exact Hb|].
  rewrite (@adapters_normalized inCurrencyCode r s m Hs Hb Hm0) in Ht.
  inversion Ht. reflexivity.
Qed.

(** X15.  The two adapters are idempotent: the record that came back
    from them, encode direction then decode direction, goes through them
    again and comes back unchanged. *)
Theorem adapters_idempotent (r r' : PayBySquareInput)
    (m : Generator.TaggedDataModel) :
  Generator.transformToDataModel inCurrencyCode r = Ok m ->
  Decoder.transformFromDataModel (Generator.untagged m) = Ok r' ->
  exists m',
    Generator.transformToDataModel inCurrencyCode r' = Ok m'
    /\ Decoder.transformFromDataModel (Generator.untagged m') = Ok r'.
Proof.
  intros Hm Ht. destruct (@adapters_inv r r' m Hm Ht) as [s [Hs [Hb ->]]].
  assert (Hi : iban (normalized r) = Some (removeSpaces s)).
  { unfold normalized. cbn [iban]. rewrite Hs. reflexivity. }
  destruct (Generator.transformToDataModel inCurrencyCode (normalized r))
    as [m'|e] eqn:Hm'.
  2:{ unfold Generator.transformToDataModel in Hm'. rewrite Hi in Hm'.
      discriminate Hm'. }
  exists m'. split; [reflexivity|].
  rewrite (@adapters_normalized inCurrencyCode (normalized r)
             (removeSpaces s) m' Hi).
  - rewrite normalized_idempotent. reflexivity.
  - rewrite forallChars_removeSpaces. exact Hb.
  - exact Hm'.
Qed.

(** X16.  The adapters keep a record valid: when [validateInput]
    accepts a record, it accepts the record that comes back from the two
    adapters. *)
Theorem adapters_keep_valid (tz : Z -> Z) (r r' : PayBySquareInput)
    (m : Generator.TaggedDataModel) :
  Validator.validateInput tz r = Ok tt ->
  Generator.transformToDataModel inCurrencyCode r = Ok m ->
  Decoder.transformFromDataModel (Generator.untagged m) = Ok r' ->
  Validator.validateInput tz r' = Ok tt.
Proof.
  intros Hv Hm Ht. destruct (@adapters_inv r r' m Hm Ht) as [s [_ [_ ->]]].
  apply (@normalized_valid tz r Hv).
Qed.
End Adapters.

Lemma adapters_idempotent_witness :
  exists m',
    Generator.transformToDataModel (fun _ => true)
      (input (Some sampleIban) (Some "John Doe") (Some 100%float)
         (Some "EUR") None None None None None)
    = Ok m'
    /\ Decoder.transformFromDataModel (Generator.untagged m')
       = Ok (input (Some sampleIban) (Some "John Doe") (Some 100%float)
               (Some "EUR") None None None None None).
Proof.
  apply (@adapters_idempotent (fun _ => true)
           (input (Some spacedIban) (Some "John Doe") (Some 100%float)
              None (Some "") None None None None)
           (input (Some sampleIban) (Some "John Doe") (Some 100%float)
              (Some "EUR") None None None None None)
           {| Generator.taggedPayments :=
                [{| Generator.paymentType := Generator.PaymentOrder;
                    Generator.properties :=
                      {| paymentAmount := Some 100%float;
                         currencyCode := Some "EUR";
                         paymentVariableSymbol := None;
                         paymentConstantSymbol := None;
                         paymentSpecificSymbol := None;
                         paymentPaymentNote := None;
                         paymentDueDate := None;
                         originatorsReferenceInformation := None;
                         bankAccounts :=
                           Some [{| accountIban := Some sampleIban;
                                    bic := None |}];
                         beneficiary :=
                           Some {| name := Some "John Doe";
                                   beneficiaryStreet := None;
                                   beneficiaryCity := None |} |} |}] |});
    reflexivity.
Defined.

Lemma adapters_keep_valid_witness :
  Validator.validateInput CET
    (input (Some sampleIban) (Some "John Doe") (Some 100%float)
       (Some "EUR") None None None None (Some "2026-12-31"))
  = Ok tt.
Proof.
  apply (@adapters_keep_valid (fun _ => true) CET
           (input (Some spacedIban) (Some "John Doe") (Some 100%float)
              (Some "eur") (Some "") None None None (Some "2026-12-31"))
           (input (Some sampleIban) (Some "John Doe") (Some 100%float)
              (Some "EUR") None None None None (Some "2026-12-31"))
           {| Generator.taggedPayments :=
                [{| Generator.paymentType := Generator.PaymentOrder;
                    Generator.properties :=
                      {| paymentAmount := Some 100%float;
                         currencyCode := Some "EUR";
                         paymentVariableSymbol := None;
                         paymentConstantSymbol := None;
                         paymentSpecificSymbol := None;
                         paymentPaymentNote := None;
                         paymentDueDate := Some "2026-12-31";
                         originatorsReferenceInformation := None;
                         bankAccounts :=
                           Some [{| accountIban := Some sampleIban;
                                    bic := None |}];
                         beneficiary :=
                           Some {| name := Some "John Doe";
                                   beneficiaryStreet := None;
                                   beneficiaryCity := None |} |} |}] |});
    reflexivity.
Defined.

(** ** The generator *)

Section Generating.
Variable inCurrencyCode : string -> bool.
Variable Buffer : Type.
Variable encode
  : Generator.TaggedDataModel -> Generator.EncodeOptions -> Result string.
Variable toBuffer : string -> Generator.ToBufferOptions -> Result Buffer.
Variable tz : Z -> Z.

(** X17.  [generatePayBySquare] fails with the error of
    [validateInput] when the record is invalid.  Otherwise the canonical
    model is built and handed to the codec, accents removed unless the
    options say otherwise: when the codec fails the result is the
    [EncodingError] "Failed to encode payment data"; when it returns a
    string, the string goes to the renderer with the defaults 300, 4,
    'M' and the type 'png', and the result is the buffer of the
    renderer, or the [GenerationError] "Failed to generate QR code PNG"
    when the renderer fails. *)
Theorem generatePayBySquare_outcome (r : PayBySquareInput)
    (options : Generator.GenerationOptions) :
  match Validator.validateInput tz r with
  | Throw e =>
      Generator.generatePayBySquare inCurrencyCode encode toBuffer tz
        r options
      = Throw e
  | Ok _ =>
      exists m,
        Generator.transformToDataModel inCurrencyCode r = Ok m
        /\ match
             encode m
               {| Generator.deburr :=
                    Generator.orDefault (Generator.removeAccents options)
                      true |}
           with
           | Throw _ =>
               Generator.generatePayBySquare inCurrencyCode encode
                 toBuffer tz r options
               = Throw (EncodingError "Failed to encode payment data")
           | Ok qr =>
               match
                 toBuffer qr
                   {| Generator.toBufferWidth :=
                        Generator.orDefault (Generator.width options)
                          300%float;
                      Generator.toBufferMargin :=
                        Generator.orDefault (Generator.margin options)
                          4%float;
                      Generator.toBufferErrorCorrectionLevel :=
                        Generator.orDefault
                          (Generator.errorCorrectionLevel options)
                          Generator.M;
                      Generator.toBufferColor := Generator.color options;
                      Generator.toBufferType := "png" |}
               with
               | Ok buffer =>
                   Generator.generatePayBySquare inCurrencyCode encode
                     toBuffer tz r options
                   = Ok buffer
               | Throw _ =>
                   Generator.generatePayBySquare inCurrencyCode encode
                     toBuffer tz r options
                   = Throw
                       (GenerationError "Failed to generate QR code PNG")
               end
           end
  end.
Proof.
  unfold Generator.generatePayBySquare.
  destruct (Validator.validateInput tz r) as [[]|e] eqn:Hv; cbn [bind];
    [|reflexivity].
  pose proof (@validateInput_accepts _ _ Hv Spec.IbanPresent) as V.
  cbn [Spec.violated] in V.
  destruct (Generator.transformToDataModel inCurrencyCode r) as [m|e]
    eqn:Hm.
  2:{ unfold Generator.transformToDataModel in Hm.
      destruct (iban r); [discriminate Hm|discriminate V]. }
  exists m. split; [reflexivity|].
  cbn [bind]. unfold Generator.tryCatch.
  destruct (encode m _) as [qr|e1]; cbn [bind]; [|reflexivity].
  destruct (toBuffer qr _) as [buffer|e2]; reflexivity.
Qed.
End Generating.

Lemma generatePayBySquare_outcome_witness :
  Generator.generatePayBySquare (fun _ => true)
    (fun _ _ => Ok "0000A") (fun qr _ => Ok (qr, 300%float)) CET
    (minimal spacedIban "John Doe") Generator.noOptions
  = Ok ("0000A", 300%float)
  /\ Generator.generatePayBySquare (fun _ => true)
       (fun _ _ => Ok "0000A")
       (fun qr _ => Throw TypeError : Result (string * float)) CET
       (minimal spacedIban "John Doe") Generator.noOptions
     = Throw (GenerationError "Failed to generate QR code PNG").
Proof.
  pose proof (@generatePayBySquare_outcome (fun _ => true)
                (string * float)%type (fun _ _ => Ok "0000A")
                (fun qr _ => Ok (qr, 300%float)) CET
                (minimal spacedIban "John Doe") Generator.noOptions) as A.
  pose proof (@generatePayBySquare_outcome (fun _ => true)
                (string * float)%type (fun _ _ => Ok "0000A")
                (fun qr _ => Throw TypeError) CET
                (minimal spacedIban "John Doe") Generator.noOptions) as B.
  change (Validator.validateInput CET (minimal spacedIban "John Doe"))
    with (Ok tt) in A, B.
  cbv beta iota in A, B.
  destruct A as [m [_ A]]. destruct B as [m' [_ B]].
  split; [exact A|exact B].
Defined.

(** ** The comparison of [verifyRoundTrip] *)

Lemma pushWhen_nil (c : bool) (d : RoundTrip.FieldDifference)
    (l : list RoundTrip.FieldDifference) :
  RoundTrip.pushWhen c d l = [] <-> c = false /\ l = [].
Proof.
  unfold RoundTrip.pushWhen. destruct c.
  - split; [|intros [H _]; discriminate H].
    destruct l; discriminate.
  - tauto.
Qed.

Lemma strictNe_ofString (a b : option string) :
  RoundTrip.strictNe (RoundTrip.ofString a) (RoundTrip.ofString b)
  = negb (sameString a b).
Proof. destruct a, b; reflexivity. Qed.

Lemma strictNe_ofNumber (a b : option float) :
  RoundTrip.strictNe (RoundTrip.ofNumber a) (RoundTrip.ofNumber b)
  = negb (sameNumber a b).
Proof. destruct a, b; reflexivity. Qed.

(** [compareField] pushes exactly when the two values differ. *)
Lemma compareField_nil (a b : PayBySquareInput) (k : RoundTrip.Key)
    (l : list RoundTrip.FieldDifference) :
  RoundTrip.compareField a b k l = []
  <-> RoundTrip.strictNe (RoundTrip.get k a) (RoundTrip.get k b) = false
      /\ l = [].
Proof.
  unfold RoundTrip.compareField.
  destruct (RoundTrip.isNullish (RoundTrip.get k a)
            && RoundTrip.isNullish (RoundTrip.get k b)) eqn:E.
  - apply andb_prop in E. destruct E as [E1 E2].
    destruct (RoundTrip.get k a); try discriminate E1.
    destruct (RoundTrip.get k b); try discriminate E2.
    simpl. tauto.
  - apply pushWhen_nil.
Qed.

Lemma compare_sameRecord (a b : PayBySquareInput) :
  RoundTrip.compare a b = [] <-> sameRecord a b = true.
Proof.
  unfold RoundTrip.compare, sameRecord. rewrite !andb_true_iff.
  assert (A : forall l : list RoundTrip.FieldDifference,
            (if Generator.defined (beneficiaryAddress a)
                || Generator.defined (beneficiaryAddress b)
             then
               RoundTrip.pushWhen
                 (RoundTrip.strictNe (RoundTrip.ofString (addressCity a))
                    (RoundTrip.ofString (addressCity b)))
                 {| RoundTrip.field := "beneficiaryAddress.city";
                    RoundTrip.original := RoundTrip.ofString (addressCity a);
                    RoundTrip.decoded := RoundTrip.ofString (addressCity b) |}
                 (RoundTrip.pushWhen
                    (RoundTrip.strictNe
                       (RoundTrip.ofString (addressStreet a))
                       (RoundTrip.ofString (addressStreet b)))
                    {| RoundTrip.field := "beneficiaryAddress.street";
                       RoundTrip.original :=
                         RoundTrip.ofString (addressStreet a);
                       RoundTrip.decoded :=
                         RoundTrip.ofString (addressStreet b) |} l)
             else l) = []
            <-> sameString (addressStreet a) (addressStreet b) = true
                /\ sameString (addressCity a) (addressCity b) = true
                /\ l = []).
  { intros l. unfold addressStreet, addressCity.
    destruct (beneficiaryAddress a) as [x|],
             (beneficiaryAddress b) as [y|];
      cbn [Generator.defined orb];
      rewrite ?pushWhen_nil, ?strictNe_ofString, ?negb_false_iff;
      simpl; tauto. }
  cbv zeta. rewrite A. rewrite !compareField_nil.
  cbn [RoundTrip.get].
  rewrite !strictNe_ofString, strictNe_ofNumber, !negb_false_iff.
  tauto.
Qed.

(** X18.  Comparing a record with itself reports no difference, unless
    its amount is NaN, which differs from itself. *)
Theorem compare_reflexive (r : PayBySquareInput) :
  RoundTrip.compare r r = []
  <-> match amount r with
      | Some a => is_nan a
      | None => false
      end = false.
Proof.
  rewrite compare_sameRecord. unfold sameRecord.
  assert (S : forall o, sameString o o = true).
  { intros [s|]; [apply String.eqb_refl|reflexivity]. }
  rewrite !S. cbn [andb]. rewrite !andb_true_r.
  destruct (amount r) as [a|]; cbn [sameNumber]; [|tauto].
  unfold is_nan. rewrite negb_false_iff. tauto.
Qed.

Lemma lossless_sameRecord (a b : PayBySquareInput) :
  (len_list (RoundTrip.compare a b) =? 0) = sameRecord a b.
Proof.
  apply eq_true_iff_eq. rewrite len_list_zero. apply compare_sameRecord.
Qed.

Lemma sameString_spreadIf (o : option string) :
  sameString o (Decoder.spreadIf o) = neverEmpty o.
Proof.
  destruct o as [[|c s]|]; try reflexivity.
  apply String.eqb_refl.
Qed.

(** For a record that the validator accepts, the comparison with its
    normal form succeeds exactly on the records in normal form. *)
Lemma sameRecord_normalized (tz : Z -> Z) (r : PayBySquareInput) :
  (forall k, Spec.violated tz k r = false) ->
  sameRecord r (normalized r) = isNormal r.
Proof.
  intros V.
  pose proof (V Spec.IbanPresent) as V1.
  pose proof (V Spec.NamePresent) as V2.
  pose proof (V Spec.AmountFinite) as V3.
  clear V. cbn [Spec.violated] in V1, V2, V3.
  unfold sameRecord, isNormal.
  rewrite addressStreet_normalized, addressCity_normalized.
  unfold normalized.
  cbn [iban beneficiaryName amount currency variableSymbol constantSymbol
       specificSymbol paymentNote dueDate swift originatorReference].
  rewrite !sameString_spreadIf.
  destruct (iban r) as [s|]; [|discriminate V1].
  destruct (beneficiaryName r) as [n|]; [|discriminate V2].
  cbn [option_map sameString]. rewrite (String.eqb_refl n).
  assert (A : sameNumber (amount r)
                (if truthyOpt
                      match amount r with
                      | Some _ =>
                          Some (toUpperCase
                                  match currency r with
                                  | Some c => c
                                  | None => "EUR"
                                  end)
                      | None => None
                      end
                 then amount r else None)
              && sameString (currency r)
                   (if truthyOpt
                         match amount r with
                         | Some _ =>
                             Some (toUpperCase
                                     match currency r with
                                     | Some c => c
                                     | None => "EUR"
                                     end)
                         | None => None
                         end
                    then
                      match amount r with
                      | Some _ =>
                          Some (toUpperCase
                                  match currency r with
                                  | Some c => c
                                  | None => "EUR"
                                  end)
                      | None => None
                      end
                    else None)
              = match amount r, currency r with
                | None, None => true
                | Some _, Some c => truthy c && String.eqb c (toUpperCase c)
                | _, _ => false
                end).
  { destruct (amount r) as [a|].
    - apply negb_false_iff in V3.
      assert (E : PrimFloat.eqb a a = true).
      { unfold is_finite, is_nan in V3.
        destruct (PrimFloat.eqb a a); [reflexivity|discriminate V3]. }
      destruct (currency r) as [c|].
      + cbn [truthyOpt]. rewrite truthy_toUpperCase.
        destruct (truthy c); cbn [sameNumber sameString andb];
          [rewrite E|]; reflexivity.
      + cbn. rewrite E. reflexivity.
    - destruct (currency r); reflexivity. }
  rewrite <- A.
  repeat match goal with
         | |- context [neverEmpty ?o] =>
             generalize (neverEmpty o); intro
         | |- context [sameNumber ?a ?b] =>
             generalize (sameNumber a b); intro
         | |- context [sameString ?a ?b] =>
             generalize (sameString a b); intro
         | |- context [String.eqb ?a ?b] =>
             generalize (String.eqb a b); intro
         end.
  repeat match goal with
         | b : bool |- _ => destruct b
         end; reflexivity.
Qed.

(** ** Round trips and QR compliance *)

Lemma decoded_wellTyped (d : DataModel) (r : PayBySquareInput) :
  Decoder.transformFromDataModel d = Ok r -> wellTyped r.
Proof.
  intros H. destruct (transformFromDataModel_inv _ H)
    as [p [rest [b [l [Hp [Hb Hi]]]]]].
  rewrite (transformFromDataModel_record _ Hp Hb Hi) in H.
  inversion H; subst r; clear H. cbn.
  split; [destruct (accountIban b)|]; discriminate.
Qed.

Section RoundTrips.
Variable isValidIBAN isValidBIC inCurrencyCode : string -> bool.
Variable Buffer : Type.
Variable encode
  : Generator.TaggedDataModel -> Generator.EncodeOptions -> Result string.
Variable toBuffer : string -> Generator.ToBufferOptions -> Result Buffer.
Variable tz : Z -> Z.
Variable JimpRead : Buffer -> Result Reader.Bitmap.
Variable jsQR : list N -> nat -> nat -> Result (option string).
Variable bysquareDecode : string -> Result DataModel.

Lemma generatePayBySquare_class (r : PayBySquareInput)
    (options : Generator.GenerationOptions) (e : Exception) :
  Generator.generatePayBySquare inCurrencyCode encode toBuffer tz r options
  = Throw e ->
  Errors.class e = ValidationErrorClass
  \/ Errors.class e = EncodingErrorClass
  \/ Errors.class e = GenerationErrorClass.
Proof.
  unfold Generator.generatePayBySquare.
  destruct (Validator.validateInput tz r) as [[]|e0] eqn:Hv; cbn [bind].
  2:{ intros H. inversion H; subst e0; clear H.
      rewrite validateInput_validate in Hv.
      destruct (validate_throws _ _ Hv) as [k [_ ->]]. left. reflexivity. }
  pose proof (@validateInput_accepts _ _ Hv Spec.IbanPresent) as V.
  cbn [Spec.violated] in V.
  unfold Generator.transformToDataModel.
  destruct (iban r) as [s|]; [|discriminate V].
  cbn [deref bind]. unfold Generator.tryCatch.
  destruct (encode _ _) as [qr|e1]; cbn [bind].
  2:{ intros H. inversion H. right. left. reflexivity. }
  destruct (toBuffer qr _) as [buffer|e2]; [discriminate|].
  intros H. inversion H. right. right. reflexivity.
Qed.

Lemma generatePayBySquare_validated (r : PayBySquareInput)
    (options : Generator.GenerationOptions) (buffer : Buffer) :
  Generator.generatePayBySquare inCurrencyCode encode toBuffer tz r options
  = Ok buffer ->
  Validator.validateInput tz r = Ok tt.
Proof.
  unfold Generator.generatePayBySquare.
  destruct (Validator.validateInput tz r) as [[]|e0]; cbn [bind];
    [reflexivity|discriminate].
Qed.

Lemma decodePayBySquare_wellTyped (buffer : Buffer)
    (r : PayBySquareInput) :
  Reader.decodePayBySquare JimpRead jsQR bysquareDecode buffer = Ok r ->
  wellTyped r.
Proof.
  unfold Reader.decodePayBySquare.
  destruct (Reader.extractQRString JimpRead jsQR buffer) as [qr|e0];
    cbn [bind]; [|discriminate].
  destruct (Generator.tryCatch _ _) as [m|e1]; cbn [bind]; [|discriminate].
  destruct (Decoder.transformFromDataModel m) as [r'|e2] eqn:Ht;
    cbn [bind]; [|discriminate].
  intros H. inversion H; subst r'. apply (decoded_wellTyped _ Ht).
Qed.

(** X19.  [checkQRCompliance] fails exactly when the buffer cannot be
    decoded, and then with the [DecodingError] of [decodePayBySquare];
    the compliance engine itself never fails on a decoded record, which
    always has the two required properties, and the report is the one of
    [checkCompliance] for the decoded record. *)
Theorem checkQRCompliance_outcome (buffer : Buffer) :
  match RoundTrip.checkQRCompliance isValidIBAN isValidBIC inCurrencyCode
          JimpRead jsQR bysquareDecode buffer with
  | Ok rep =>
      exists r,
        Reader.decodePayBySquare JimpRead jsQR bysquareDecode buffer = Ok r
        /\ wellTyped r
        /\ Compliance.checkCompliance isValidIBAN isValidBIC inCurrencyCode
             r = Ok rep
  | Throw e =>
      Reader.decodePayBySquare JimpRead jsQR bysquareDecode buffer = Throw e
      /\ Errors.class e = DecodingErrorClass
  end.
Proof.
  unfold RoundTrip.checkQRCompliance.
  destruct (Reader.decodePayBySquare JimpRead jsQR bysquareDecode buffer)
    as [r|e] eqn:Hd; cbn [bind].
  - pose proof (decodePayBySquare_wellTyped _ Hd) as W.
    destruct (validateFieldFormats_ok W) as [f Hf].
    destruct (checkCompliance_report isValidIBAN isValidBIC inCurrencyCode
                r Hf) as [rep [Hc _]].
    rewrite Hc. exists r. auto.
  - split; [reflexivity|]. apply (@decodePayBySquare_class Buffer JimpRead jsQR bysquareDecode _ _ Hd).
Qed.

(** X20.  [verifyRoundTrip] generates the QR code of the record
    with the default options and decodes the buffer it got.  When the
    generation fails, it fails with that validation, encoding or
    generation error; when the decoding fails, with that decoding error.
    Otherwise it returns a result that carries the record itself and the
    record that [decodePayBySquare] returned for the generated buffer,
    with the differences of the two, and [isLossless] is true exactly
    when the two agree on every property, as strings and IEEE 754
    numbers, the address by its street and city. *)
Theorem verifyRoundTrip_outcome (r : PayBySquareInput) :
  match
    Generator.generatePayBySquare inCurrencyCode encode toBuffer tz r
      Generator.noOptions
  with
  | Throw e =>
      RoundTrip.verifyRoundTrip inCurrencyCode encode toBuffer tz
        JimpRead jsQR bysquareDecode r
      = Throw e
      /\ In (Errors.class e)
           [ValidationErrorClass; EncodingErrorClass; GenerationErrorClass]
  | Ok qrBuffer =>
      Validator.validateInput tz r = Ok tt
      /\ match
           Reader.decodePayBySquare JimpRead jsQR bysquareDecode qrBuffer
         with
         | Throw e =>
             RoundTrip.verifyRoundTrip inCurrencyCode encode toBuffer tz
               JimpRead jsQR bysquareDecode r
             = Throw e
             /\ Errors.class e = DecodingErrorClass
         | Ok d =>
             wellTyped d
             /\ RoundTrip.verifyRoundTrip inCurrencyCode encode toBuffer
                  tz JimpRead jsQR bysquareDecode r
                = Ok {| RoundTrip.isLossless := sameRecord r d;
                        RoundTrip.differences := RoundTrip.compare r d;
                        RoundTrip.resultInput := r;
                        RoundTrip.resultDecoded := d |}
             /\ (sameRecord r d = true <-> RoundTrip.compare r d = [])
         end
  end.
Proof.
  unfold RoundTrip.verifyRoundTrip.
  destruct (Generator.generatePayBySquare inCurrencyCode encode toBuffer tz
              r Generator.noOptions) as [qrBuffer|e] eqn:Hg; cbn [bind].
  2:{ split; [reflexivity|].
      destruct (generatePayBySquare_class _ _ Hg) as [->|[->| ->]];
        simpl; tauto. }
  split; [apply (generatePayBySquare_validated _ _ Hg)|].
  destruct (Reader.decodePayBySquare JimpRead jsQR bysquareDecode qrBuffer)
    as [d|e] eqn:Hd; cbn [bind].
  2:{ split; [reflexivity|].
      apply (@decodePayBySquare_class Buffer JimpRead jsQR bysquareDecode
               _ _ Hd). }
  split; [apply (decodePayBySquare_wellTyped _ Hd)|].
  split; [rewrite lossless_sameRecord; reflexivity|].
  symmetry. apply compare_sameRecord.
Qed.

(** X21.  When the codec, the renderer and the detector are faithful
    on a valid record (the string encoded for its canonical model is read
    back from the image and decodes to the same model), [verifyRoundTrip]
    returns the normal form of the record as the decoded record, and
    reports the round trip lossless exactly when the record was in normal
    form already: an IBAN without whitespace, no empty optional string,
    and an amount exactly beside a currency, in upper case. *)
Theorem verifyRoundTrip_faithful (r : PayBySquareInput)
    (m : Generator.TaggedDataModel) (qr : string) (buffer : Buffer)
    (image : Reader.Bitmap) :
  Validator.validateInput tz r = Ok tt ->
  Generator.transformToDataModel inCurrencyCode r = Ok m ->
  encode m {| Generator.deburr := true |} = Ok qr ->
  toBuffer qr
    {| Generator.toBufferWidth := 300%float;
       Generator.toBufferMargin := 4%float;
       Generator.toBufferErrorCorrectionLevel := Generator.M;
       Generator.toBufferColor := None;
       Generator.toBufferType := "png" |}
  = Ok buffer ->
  JimpRead buffer = Ok image ->
  jsQR (Reader.toImageData image) (Reader.width image)
    (Reader.height image)
  = Ok (Some qr) ->
  bysquareDecode qr = Ok (Generator.untagged m) ->
  exists res,
    RoundTrip.verifyRoundTrip inCurrencyCode encode toBuffer tz
      JimpRead jsQR bysquareDecode r
    = Ok res
    /\ RoundTrip.resultDecoded res = normalized r
    /\ RoundTrip.isLossless res = isNormal r.
Proof.
  intros Hv Hm He Hb Hj Hq Hd.
  pose proof (@validateInput_accepts _ _ Hv) as V.
  pose proof (V Spec.IbanPresent) as V1. cbn [Spec.violated] in V1.
  rewrite violated_present in V1.
  destruct (iban r) as [s|] eqn:Hs; [|discriminate V1].
  pose proof (@adapters_normalized inCurrencyCode r s m Hs V1 Hm) as Ht.
  unfold RoundTrip.verifyRoundTrip, Generator.generatePayBySquare.
  rewrite Hv. cbn [bind]. rewrite Hm. cbn [bind].
  cbn [Generator.noOptions Generator.removeAccents Generator.width
       Generator.margin Generator.errorCorrectionLevel Generator.color
       Generator.orDefault].
  rewrite He. cbn [Generator.tryCatch bind]. rewrite Hb.
  cbn [Generator.tryCatch bind].
  unfold Reader.decodePayBySquare, Reader.extractQRString.
  rewrite Hj. cbn [bind]. rewrite Hq. cbn [Generator.tryCatch bind].
  rewrite Hd. cbn [Generator.tryCatch bind]. rewrite Ht. cbn [bind].
  eexists. split; [reflexivity|].
  cbn [RoundTrip.resultDecoded RoundTrip.isLossless].
  split; [reflexivity|].
  rewrite lossless_sameRecord. apply (@sameRecord_normalized tz r V).
Qed.
End RoundTrips.

Lemma verifyRoundTrip_outcome_witness :
  exists res,
    RoundTrip.verifyRoundTrip (fun _ => true) (fun _ _ => Ok "qr")
      (fun _ _ => Ok tt) CET blankImage (fun _ _ _ => Ok (Some "qr"))
      (fun _ => Ok euroModel) (minimal spacedIban "John Doe")
    = Ok res
    /\ RoundTrip.resultInput res = minimal spacedIban "John Doe"
    /\ RoundTrip.resultDecoded res
       = input (Some sampleIban) (Some "") (Some 100.5%float) (Some "EUR")
           None None None None None
    /\ RoundTrip.isLossless res = false
    /\ map RoundTrip.field (RoundTrip.differences res)
       = ["iban"; "beneficiaryName"; "amount"; "currency"].
Proof.
  pose proof (@verifyRoundTrip_outcome (fun _ => true) unit
                (fun _ _ => Ok "qr") (fun _ _ => Ok tt) CET blankImage
                (fun _ _ _ => Ok (Some "qr")) (fun _ => Ok euroModel)
                (minimal spacedIban "John Doe")) as A.
  change (Generator.generatePayBySquare (fun _ => true)
            (fun _ _ => Ok "qr") (fun _ _ => Ok tt) CET
            (minimal spacedIban "John Doe") Generator.noOptions)
    with (Ok tt : Result unit) in A.
  cbv beta iota in A. destruct A as [_ A].
  change (Reader.decodePayBySquare blankImage
            (fun _ _ _ => Ok (Some "qr")) (fun _ => Ok euroModel) tt)
    with (Ok (input (Some sampleIban) (Some "") (Some 100.5%float)
                (Some "EUR") None None None None None)) in A.
  cbv beta iota in A. destruct A as [_ [A _]].
  eexists. split; [exact A|]. repeat split.
Defined.

Lemma verifyRoundTrip_faithful_witness :
  exists res,
    RoundTrip.verifyRoundTrip (fun _ => true) (fun _ _ => Ok "qr")
      (fun _ _ => Ok tt) CET blankImage (fun _ _ _ => Ok (Some "qr"))
      (fun _ =>
         m <- Generator.transformToDataModel (fun _ => true)
                (input (Some spacedIban) (Some "John Doe")
                   (Some 100%float) (Some "eur") None None None None
                   None) ;;
         Ok (Generator.untagged m))
      (input (Some spacedIban) (Some "John Doe") (Some 100%float)
         (Some "eur") None None None None None)
    = Ok res
    /\ RoundTrip.resultDecoded res
       = input (Some sampleIban) (Some "John Doe") (Some 100%float)
           (Some "EUR") None None None None None
    /\ RoundTrip.isLossless res = false.
Proof.
  destruct (@verifyRoundTrip_faithful (fun _ => true) unit
              (fun _ _ => Ok "qr") (fun _ _ => Ok tt) CET blankImage
              (fun _ _ _ => Ok (Some "qr"))
              (fun _ =>
                 m <- Generator.transformToDataModel (fun _ => true)
                        (input (Some spacedIban) (Some "John Doe")
                           (Some 100%float) (Some "eur") None None None
                           None None) ;;
                 Ok (Generator.untagged m))
              (input (Some spacedIban) (Some "John Doe") (Some 100%float)
                 (Some "eur") None None None None None)
              _ "qr" tt _ eq_refl eq_refl eq_refl eq_refl eq_refl eq_refl
              eq_refl)
    as [res [H [D L]]].
  exists res. split; [exact H|]. split; [exact D|exact L].
Defined.
